(** * The ii AI backend: streaming proxy with tool execution

    A shallow embedding of [ai/streaming.py] (class [StreamHandler]) and of
    the dispatcher of [ai/tools.py], with the properties of the design
    document stated and proved (or refuted) over it.

    Conventions of the embedding:
    - JSON values (request bodies, upstream chunks, events) are the
      inductive type [json]; Python dictionaries are association lists in
      insertion order, as [dict.items()] enumerates them;
    - text is a [string], one character per code point; the lines of an
      upstream response are taken as already decoded;
    - [json.loads], [json.dumps] and [repr] of Python's library are
      parameters of the development;
    - the handler is written in a state-and-exception monad over the
      observable history (writes to the client, upstream requests, tool
      executions), reading the behaviour of the outside world (clock,
      client socket, upstream server, host system) from an environment;
    - [print(..., file=sys.stderr)] and [resp.close()] have no effect on
      the modelled history and are left out.

    Outside the embedding: JSON numbers other than integers; failures of
    the client socket other than [BrokenPipeError] and
    [ConnectionResetError]; exceptions of the upstream client other than
    [ProxyError]; the interpreter's recursion limit (a call chain that the
    handler itself never ends is shown as running out of fuel at every
    depth). *)

From Stdlib Require Import ZArith List String Ascii Bool Lia PeanoNat.
From Stdlib Require DecimalString HexadecimalString DecimalZ.
From Stdlib Require HexadecimalN HexadecimalPos.
Import ListNotations.

Set Warnings "-register-all".

Open Scope string_scope.
Open Scope list_scope.

Infix "+++" := String.append (right associativity, at level 60).

(** ** JSON values and Python dictionaries *)

Inductive json : Type :=
| JNull
| JBool (b : bool)
| JNum (n : Z)
| JStr (s : string)
| JArr (items : list json)
| JObj (fields : list (string * json)).

(** An insertion-ordered dictionary with string keys. *)
Definition odict (V : Type) : Type := list (string * V).

Fixpoint dict_get {V} (d : odict V) (k : string) : option V :=
  match d with
  | [] => None
  | (k', v) :: d' => if String.eqb k' k then Some v else dict_get d' k
  end.

Definition dict_has {V} (d : odict V) (k : string) : bool :=
  match dict_get d k with Some _ => true | None => false end.

(** [d[k] = v]: an existing key keeps its position, a new key goes last. *)
Fixpoint dict_set {V} (d : odict V) (k : string) (v : V) : odict V :=
  match d with
  | [] => [(k, v)]
  | (k', v') :: d' =>
      if String.eqb k' k then (k', v) :: d' else (k', v') :: dict_set d' k v
  end.

(** [del d[k]] for a key that is present. *)
Fixpoint dict_del {V} (d : odict V) (k : string) : odict V :=
  match d with
  | [] => []
  | (k', v') :: d' =>
      if String.eqb k' k then d' else (k', v') :: dict_del d' k
  end.

Definition dict_get_default {V} (d : odict V) (k : string) (default : V) : V :=
  match dict_get d k with Some v => v | None => default end.

Definition dict : Type := odict json.

(** ** Python exceptions and results *)

Inductive exn_kind : Type :=
| AttributeError | IndexError | KeyError | TypeError | JSONDecodeError
| ProxyError | OSError.

Record exn : Type := Exn { exn_kind_of : exn_kind; exn_str : string }.

Definition is_ProxyError (e : exn) : bool :=
  match exn_kind_of e with ProxyError => true | _ => false end.

Inductive result (A : Type) : Type :=
| Success (a : A)
| Failure (e : exn).
Arguments Success {A} a.
Arguments Failure {A} e.

Definition rbind {A B} (r : result A) (k : A -> result B) : result B :=
  match r with
  | Success a => k a
  | Failure e => Failure e
  end.

Declare Scope result_scope.
Delimit Scope result_scope with result.
Notation "'let?' x ':=' r 'in' k" := (rbind r (fun x => k))
  (at level 10, x pattern, r at level 100, k at level 200) : result_scope.

(** ** Python operations on JSON values *)

Definition dquote : string := String "034"%char EmptyString.

Definition type_name (j : json) : string :=
  match j with
  | JNull => "NoneType"
  | JBool _ => "bool"
  | JNum _ => "int"
  | JStr _ => "str"
  | JArr _ => "list"
  | JObj _ => "dict"
  end.

(** Truth value of a JSON value, as [if x:] tests it. *)
Definition truthy (j : json) : bool :=
  match j with
  | JNull => false
  | JBool b => b
  | JNum n => negb (Z.eqb n 0)
  | JStr s => negb (String.eqb s "")
  | JArr l => match l with [] => false | _ => true end
  | JObj d => match d with [] => false | _ => true end
  end.

Definition no_attribute (j : json) (attr : string) : exn :=
  Exn AttributeError
      ("'" +++ type_name j +++ "' object has no attribute '" +++ attr +++ "'").

(** [j.get(k, default)] *)
Definition py_get (j : json) (k : string) (default : json) : result json :=
  match j with
  | JObj d => Success (dict_get_default d k default)
  | _ => Failure (no_attribute j "get")
  end.

(** [j[0]] *)
Definition py_item0 (j : json) : result json :=
  match j with
  | JArr (x :: _) => Success x
  | JArr [] => Failure (Exn IndexError "list index out of range")
  | JStr (String c _) => Success (JStr (String c EmptyString))
  | JStr EmptyString => Failure (Exn IndexError "string index out of range")
  | JObj _ => Failure (Exn KeyError "0")
  | _ => Failure (Exn TypeError
                      ("'" +++ type_name j +++ "' object is not subscriptable"))
  end.

Fixpoint chars (s : string) : list json :=
  match s with
  | EmptyString => []
  | String c s' => JStr (String c EmptyString) :: chars s'
  end.

(** The elements [for x in j] ranges over. *)
Definition py_iter (j : json) : result (list json) :=
  match j with
  | JArr l => Success l
  | JStr s => Success (chars s)
  | JObj d => Success (map (fun kv => JStr (fst kv)) d)
  | _ => Failure (Exn TypeError
                      ("'" +++ type_name j +++ "' object is not iterable"))
  end.

(** [s += j] for a string [s] *)
Definition py_str_iadd (s : string) (j : json) : result string :=
  match j with
  | JStr t => Success (s +++ t)
  | _ => Failure (Exn TypeError
                      ("can only concatenate str (not " +++ dquote
                         +++ type_name j +++ dquote +++ ") to str"))
  end.

Definition str_of_Z (n : Z) : string :=
  DecimalString.NilZero.string_of_int (Z.to_int n).

(** [messages.append(x)] *)
Definition py_append (messages : json) (x : json) : result json :=
  match messages with
  | JArr l => Success (JArr (l ++ [x]))
  | _ => Failure (no_attribute messages "append")
  end.

(** ** Text helpers: [str.strip], [str.startswith], slicing *)

Definition is_space (c : ascii) : bool :=
  let n := nat_of_ascii c in
  (((9 <=? n) && (n <=? 13)) || ((28 <=? n) && (n <=? 32))
   || (n =? 133) || (n =? 160))%nat.

Fixpoint lstrip (s : string) : string :=
  match s with
  | EmptyString => EmptyString
  | String c s' => if is_space c then lstrip s' else s
  end.

Fixpoint rstrip (s : string) : string :=
  match s with
  | EmptyString => EmptyString
  | String c s' =>
      let r := rstrip s' in
      if is_space c && String.eqb r "" then EmptyString else String c r
  end.

Definition strip (s : string) : string := rstrip (lstrip s).

Definition startswith (s p : string) : bool := String.prefix p s.

(** [s[n:]] *)
Fixpoint drop (n : nat) (s : string) : string :=
  match n, s with
  | O, _ => s
  | S n', String _ s' => drop n' s'
  | S _, EmptyString => EmptyString
  end.

(** [sep.join(ls)] for the empty separator *)
Fixpoint join (ls : list string) : string :=
  match ls with
  | [] => EmptyString
  | x :: rest => x +++ join rest
  end.

(** ** Usage estimator: [StreamHandler._estimate_tokens] *)

Definition _estimate_tokens (text : string) : Z :=
  if String.eqb text "" then 0%Z
  else Z.max 1 ((Z.of_nat (String.length text) + 3) / 4).

(** The ceiling of [n / 4], as the design document writes the estimate. *)
Definition ceil_div4 (n : Z) : Z :=
  (n / 4 + (if Z.eqb (n mod 4) 0 then 0 else 1))%Z.

(** ** The tool-call buffer

    One buffered call, the dictionary [{"id": .., "name": .., "args_str": ..}]. *)

Record fragment : Type := Fragment {
  buf_id : json;
  buf_name : json;
  buf_args_str : string
}.

Definition empty_fragment : fragment := Fragment (JStr "") (JStr "") "".

Definition set_buf_id (v : json) (b : fragment) : fragment :=
  Fragment v (buf_name b) (buf_args_str b).
Definition set_buf_name (v : json) (b : fragment) : fragment :=
  Fragment (buf_id b) v (buf_args_str b).
Definition set_buf_args_str (v : string) (b : fragment) : fragment :=
  Fragment (buf_id b) (buf_name b) v.

(** [buffer[key] = f(buffer[key])] for a key that is present. *)
Fixpoint dict_update {V} (d : odict V) (k : string) (f : V -> V) : odict V :=
  match d with
  | [] => []
  | (k', v) :: d' =>
      if String.eqb k' k then (k', f v) :: d' else (k', v) :: dict_update d' k f
  end.

(** The functions of Python's library the handler calls. [json_loads]
    gives [None] where [json.loads] raises [JSONDecodeError], whose message
    is [json_decode_error]; [py_repr] is [repr] of a list or a dictionary,
    as an f-string formats it. *)
Class PyLib : Type := {
  json_loads : string -> option json;
  json_decode_error : string -> string;
  json_dumps : json -> string;
  py_repr : json -> string
}.

Section Buffer.

Context {lib : PyLib}.

(** [f"{j}"] *)
Definition py_format (j : json) : string :=
  match j with
  | JNull => "None"
  | JBool true => "True"
  | JBool false => "False"
  | JNum n => str_of_Z n
  | JStr s => s
  | _ => py_repr j
  end.

Definition buffer_key (idx : json) : string := "idx:" +++ py_format idx.

(** The body of [for tc in delta["tool_calls"]] (one delta fragment). *)
Definition collect_tool_call (tool_call_buffer : odict fragment) (tc : json)
  : result (odict fragment) :=
  (let? idx := py_get tc "index" (JNum 0) in
   let key := buffer_key idx in
   let buffer :=
     if dict_has tool_call_buffer key then tool_call_buffer
     else dict_set tool_call_buffer key empty_fragment in
   let? tc_id := py_get tc "id" JNull in
   let buffer :=
     if truthy tc_id then dict_update buffer key (set_buf_id tc_id)
     else buffer in
   let? func := py_get tc "function" (JObj []) in
   let? name := py_get func "name" JNull in
   let buffer :=
     if truthy name then dict_update buffer key (set_buf_name name)
     else buffer in
   let? func := py_get tc "function" (JObj []) in
   let? arguments := py_get func "arguments" JNull in
   if truthy arguments then
     match dict_get buffer key with
     | Some b =>
         let? s := py_str_iadd (buf_args_str b) arguments in
         Success (dict_update buffer key (set_buf_args_str s))
     | None => Success buffer
     end
   else Success buffer)%result.

Fixpoint collect_tool_calls (tool_call_buffer : odict fragment)
         (tcs : list json) : result (odict fragment) :=
  match tcs with
  | [] => Success tool_call_buffer
  | tc :: rest =>
      (let? buffer := collect_tool_call tool_call_buffer tc in
       collect_tool_calls buffer rest)%result
  end.

End Buffer.

(** ** The outside world and the observable history *)

(** What [UpstreamClient.request_chat_completions] does on one call: it
    raises [ProxyError(message)], or returns a response whose [readline]
    yields [lines] one by one and then either the empty line (end of
    stream) or an exception raised by the socket. *)
Inductive upstream_response : Type :=
| UpstreamFails (message : string)
| UpstreamStream (lines : list string) (tail : option exn).

(** Effects of the tool implementations on the host system, one for each
    [try] block: the subprocess run by [_run_shell_command]; opening and
    loading the configuration file in [_get_shell_config]; and, in
    [_set_shell_config], opening and loading the configuration file,
    setting the key and writing the file back. *)
Inductive host_op : Type :=
| Bash (command : json)
| ReadConfig
| WriteConfig (key value : json).

(** What is handed to [_write]: a synthetic event (before serialization),
    the literal [b"data: [DONE]\n\n"], or an upstream line as received. *)
Inductive wdata : Type :=
| Event (event : json)
| DoneLiteral
| Raw (line : string).

Record Env : Type := {
  (** [int(os.environ.get("II_AI_MAX_TOOL_ITERATIONS", "") or "0")]:
      [Some 0] when unset or empty, [None] when [int] raises. *)
  env_max : option Z;
  (** the k-th reading of [time.time()], in microseconds *)
  clock : nat -> Z;
  (** does the k-th write to [wfile], of the given data, succeed (no
      broken pipe, no connection reset) *)
  wfile_ok : nat -> wdata -> bool;
  (** the k-th call of [request_chat_completions], on the body sent *)
  upstream : nat -> dict -> upstream_response;
  (** the result dictionary of the k-th effect on the host system *)
  host : nat -> host_op -> dict;
  (** was a [send_headers] callback given to the handler *)
  send_headers : bool
}.

Record St : Type := {
  clock_reads : nat;
  written : list (wdata * bool);
  requests : list dict;
  executed : list (json * json);
  host_ops : list host_op;
  _headers_sent : bool;
  header_calls : nat
}.

Definition initial_St : St :=
  {| clock_reads := 0; written := []; requests := []; executed := [];
     host_ops := []; _headers_sent := false; header_calls := 0 |}.

(** ** The monad of the handler: state, exceptions, fuel *)

Inductive outcome (A : Type) : Type :=
| Ok (a : A)
| Raised (e : exn)
| OutOfFuel.
Arguments Ok {A} a.
Arguments Raised {A} e.
Arguments OutOfFuel {A}.

Definition M (A : Type) : Type := Env -> St -> outcome A * St.

Definition ret {A} (a : A) : M A := fun _ st => (Ok a, st).

Definition bind {A B} (m : M A) (k : A -> M B) : M B :=
  fun env st =>
    match m env st with
    | (Ok a, st') => k a env st'
    | (Raised e, st') => (Raised e, st')
    | (OutOfFuel, st') => (OutOfFuel, st')
    end.

Definition raise {A} (e : exn) : M A := fun _ st => (Raised e, st).

Definition out_of_fuel {A} : M A := fun _ st => (OutOfFuel, st).

Definition lift {A} (r : result A) : M A :=
  match r with
  | Success a => ret a
  | Failure e => raise e
  end.

(** [try: m  except Exception as e: handler e] *)
Definition try_except {A} (m : M A) (handler : exn -> M A) : M A :=
  fun env st =>
    match m env st with
    | (Raised e, st') => handler e env st'
    | other => other
    end.

Declare Scope monad_scope.
Delimit Scope monad_scope with monad.
Notation "x <- m ;; k" := (bind m (fun x => k))
  (at level 61, m at next level, right associativity) : monad_scope.
Notation "' pat <- m ;; k" := (bind m (fun x => match x with pat => k end))
  (at level 61, pat pattern, m at next level, right associativity)
  : monad_scope.
Notation "m ;; k" := (bind m (fun _ => k))
  (at level 61, right associativity) : monad_scope.
Open Scope monad_scope.

(** *** Primitive effects *)

Definition getenv_max : M (option Z) := fun env st => (Ok (env_max env), st).

(** [time.time()] *)
Definition time_time : M Z :=
  fun env st =>
    (Ok (clock env (clock_reads st)),
     {| clock_reads := S (clock_reads st); written := written st;
        requests := requests st; executed := executed st;
        host_ops := host_ops st; _headers_sent := _headers_sent st;
        header_calls := header_calls st |}).

(** [StreamHandler._write]: [True] when the write went through, [False]
    on [BrokenPipeError] or [ConnectionResetError]. *)
Definition _write (data : wdata) : M bool :=
  fun env st =>
    let ok := wfile_ok env (List.length (written st)) data in
    (Ok ok,
     {| clock_reads := clock_reads st; written := written st ++ [(data, ok)];
        requests := requests st; executed := executed st;
        host_ops := host_ops st; _headers_sent := _headers_sent st;
        header_calls := header_calls st |}).

(** [self.client.request_chat_completions(body)] *)
Definition request_chat_completions (body : dict) : M upstream_response :=
  fun env st =>
    (Ok (upstream env (List.length (requests st)) body),
     {| clock_reads := clock_reads st; written := written st;
        requests := requests st ++ [body]; executed := executed st;
        host_ops := host_ops st; _headers_sent := _headers_sent st;
        header_calls := header_calls st |}).

Definition host_effect (op : host_op) : M dict :=
  fun env st =>
    (Ok (host env (List.length (host_ops st)) op),
     {| clock_reads := clock_reads st; written := written st;
        requests := requests st; executed := executed st;
        host_ops := host_ops st ++ [op]; _headers_sent := _headers_sent st;
        header_calls := header_calls st |}).

Definition log_execution (tool_name args : json) : M unit :=
  fun env st =>
    (Ok tt,
     {| clock_reads := clock_reads st; written := written st;
        requests := requests st;
        executed := executed st ++ [(tool_name, args)];
        host_ops := host_ops st; _headers_sent := _headers_sent st;
        header_calls := header_calls st |}).

(** [if is_first and self.send_headers and not self._headers_sent:
       self.send_headers(); self._headers_sent = True] *)
Definition maybe_send_headers (is_first : bool) : M unit :=
  fun env st =>
    if is_first && send_headers env && negb (_headers_sent st) then
      (Ok tt,
       {| clock_reads := clock_reads st; written := written st;
          requests := requests st; executed := executed st;
          host_ops := host_ops st; _headers_sent := true;
          header_calls := S (header_calls st) |})
    else (Ok tt, st).

(** ** [ai/tools.py]: tool definitions and dispatch *)

Definition get_tool_definitions : json :=
  JArr [
    JObj [("type", JStr "function");
          ("function", JObj [
             ("name", JStr "run_shell_command");
             ("description", JStr "Run a shell command in bash and get its output. Use this for quick commands. The 'command' argument is REQUIRED.");
             ("parameters", JObj [
                ("type", JStr "object");
                ("properties", JObj [
                   ("command", JObj [
                      ("type", JStr "string");
                      ("description", JStr "The bash command to run (REQUIRED)")])]);
                ("required", JArr [JStr "command"])])])];
    JObj [("type", JStr "function");
          ("function", JObj [
             ("name", JStr "get_shell_config");
             ("description", JStr "Get the desktop shell configuration file contents");
             ("parameters", JObj [
                ("type", JStr "object");
                ("properties", JObj []);
                ("required", JArr [])])])];
    JObj [("type", JStr "function");
          ("function", JObj [
             ("name", JStr "set_shell_config");
             ("description", JStr "Set a field in the desktop shell configuration file. Must use after get_shell_config.");
             ("parameters", JObj [
                ("type", JStr "object");
                ("properties", JObj [
                   ("key", JObj [
                      ("type", JStr "string");
                      ("description", JStr "The config key path, e.g. 'appearance.theme'")]);
                   ("value", JObj [
                      ("type", JStr "string");
                      ("description", JStr "The value to set")])]);
                ("required", JArr [JStr "key"; JStr "value"])])])]
  ].

(** [j == s] for a string literal [s] *)
Definition is_str (j : json) (s : string) : bool :=
  match j with
  | JStr t => String.eqb t s
  | _ => false
  end.

Definition is_None (j : json) : bool :=
  match j with
  | JNull => true
  | _ => false
  end.

(** The subprocess call, the reading and the writing of the configuration
    file happen on the host system; everything those functions do inside
    their [try] blocks is the host's answer. *)
Definition _run_shell_command (args : json) : M dict :=
  command <- lift (py_get args "command" JNull) ;;
  if negb (truthy command) then
    ret [("success", JBool false);
         ("output", JStr "");
         ("error", JStr "Missing required argument: command");
         ("expected", JObj [("command", JStr "<string, bash command>")]);
         ("example", JObj [("command", JStr "fastfetch")])]
  else host_effect (Bash command).

Definition _get_shell_config (args : json) : M dict :=
  host_effect ReadConfig.

Definition _set_shell_config (args : json) : M dict :=
  key <- lift (py_get args "key" JNull) ;;
  value <- lift (py_get args "value" JNull) ;;
  if negb (truthy key) || is_None value then
    ret [("success", JBool false);
         ("output", JStr "");
         ("error", JStr "Missing required arguments: key and value")]
  else host_effect (WriteConfig key value).

Section Handler.

Context {lib : PyLib}.

(** [execute_tool(tool_name, args)]; the call is recorded in [executed]. *)
Definition execute_tool (tool_name : json) (args : json) : M dict :=
  log_execution tool_name args ;;
  if is_str tool_name "run_shell_command" then _run_shell_command args
  else if is_str tool_name "get_shell_config" then _get_shell_config args
  else if is_str tool_name "set_shell_config" then _set_shell_config args
  else if is_str tool_name "switch_to_search_mode" then
    ret [("success", JBool true);
         ("output", JStr "Switched to search mode. Continue with the user's request.");
         ("error", JNull);
         ("action", JStr "switch_mode");
         ("mode", JStr "search")]
  else
    ret [("success", JBool false);
         ("output", JStr "");
         ("error", JStr ("Unknown tool: " +++ py_format tool_name))].

(** ** [ai/streaming.py]: events *)

Definition _send_event (event : json) : M bool := _write (Event event).

Definition _send_error (message : string) : M bool :=
  _send_event (JObj [("type", JStr "error"); ("message", JStr message)]).

Definition with_request_id (request_id : option string) : dict :=
  match request_id with
  | Some r => [("request_id", JStr r)]
  | None => []
  end.

Definition usage_event (prompt_tokens completion_tokens total_tokens : json)
           (estimated : bool) (request_id : option string) : json :=
  JObj ([("type", JStr "usage");
         ("usage", JObj [("prompt_tokens", prompt_tokens);
                         ("completion_tokens", completion_tokens);
                         ("total_tokens", total_tokens)]);
         ("estimated", JBool estimated)]
        ++ with_request_id request_id).

Definition tool_call_summary (buf : fragment) (args : json) : json :=
  JObj [("id", buf_id buf); ("name", buf_name buf); ("args", args)].

Definition tool_execution_event (buf : fragment) (args : json) : json :=
  JObj [("type", JStr "tool_execution");
        ("tool_call", tool_call_summary buf args);
        ("status", JStr "executing")].

Definition tool_result_event (buf : fragment) (args : json) (result : dict)
  : json :=
  JObj [("type", JStr "tool_result");
        ("tool_call", tool_call_summary buf args);
        ("result", JObj result)].

Definition continuation_event (request_id : string) : json :=
  JObj [("type", JStr "continuation");
        ("status", JStr "starting");
        ("request_id", JStr request_id)].

Definition error_event (message where_ request_id : string) : json :=
  JObj [("type", JStr "error");
        ("message", JStr message);
        ("where", JStr where_);
        ("request_id", JStr request_id)].

(** [json.dumps(body.get("messages", []), ensure_ascii=False)]; a value
    that came from JSON always serializes, so the [except] branch that
    falls back to the empty text is never taken. *)
Definition prompt_text_of (body : dict) : string :=
  json_dumps (dict_get_default body "messages" (JArr [])).

(** [hex(n)[2:]] *)
Definition hex_digits (n : N) : string :=
  HexadecimalString.NilZero.string_of_uint (N.to_hex_uint n).

Definition hex_tail (n : Z) : string :=
  if (n <? 0)%Z then "x" +++ hex_digits (Z.to_N (- n))
  else hex_digits (Z.to_N n).

(** [hex(int(time.time() * 1000))[2:]] for a reading in microseconds: the
    millisecond count is the reading cut to whole milliseconds (the
    product is taken without the rounding of floating point), and the id
    is [hex_tail] of that count. *)
Definition request_id_of (now : Z) : string := hex_tail (Z.quot now 1000).

(** ** The local variables of one upstream turn *)

Record usage_stats : Type := {
  prompt_tokens : json;
  completion_tokens : json;
  total_tokens : json;
  estimated : bool
}.

Record locals : Type := {
  tool_call_buffer : odict fragment;
  collected_content : string;
  collected_reasoning : string;
  collected_tool_calls : list json;
  last_usage : option usage_stats;
  _last_usage_emit_ts : Z
}.

Definition initial_locals : locals :=
  {| tool_call_buffer := []; collected_content := "";
     collected_reasoning := ""; collected_tool_calls := [];
     last_usage := None; _last_usage_emit_ts := 0 |}.

Definition set_tool_call_buffer (v : odict fragment) (l : locals) : locals :=
  {| tool_call_buffer := v; collected_content := collected_content l;
     collected_reasoning := collected_reasoning l;
     collected_tool_calls := collected_tool_calls l;
     last_usage := last_usage l;
     _last_usage_emit_ts := _last_usage_emit_ts l |}.

Definition set_collected_content (v : string) (l : locals) : locals :=
  {| tool_call_buffer := tool_call_buffer l; collected_content := v;
     collected_reasoning := collected_reasoning l;
     collected_tool_calls := collected_tool_calls l;
     last_usage := last_usage l;
     _last_usage_emit_ts := _last_usage_emit_ts l |}.

Definition set_collected_reasoning (v : string) (l : locals) : locals :=
  {| tool_call_buffer := tool_call_buffer l;
     collected_content := collected_content l; collected_reasoning := v;
     collected_tool_calls := collected_tool_calls l;
     last_usage := last_usage l;
     _last_usage_emit_ts := _last_usage_emit_ts l |}.

Definition set_collected_tool_calls (v : list json) (l : locals) : locals :=
  {| tool_call_buffer := tool_call_buffer l;
     collected_content := collected_content l;
     collected_reasoning := collected_reasoning l;
     collected_tool_calls := v;
     last_usage := last_usage l;
     _last_usage_emit_ts := _last_usage_emit_ts l |}.

Definition set_last_usage (v : option usage_stats) (l : locals) : locals :=
  {| tool_call_buffer := tool_call_buffer l;
     collected_content := collected_content l;
     collected_reasoning := collected_reasoning l;
     collected_tool_calls := collected_tool_calls l;
     last_usage := v;
     _last_usage_emit_ts := _last_usage_emit_ts l |}.

Definition set_last_usage_emit_ts (v : Z) (l : locals) : locals :=
  {| tool_call_buffer := tool_call_buffer l;
     collected_content := collected_content l;
     collected_reasoning := collected_reasoning l;
     collected_tool_calls := collected_tool_calls l;
     last_usage := last_usage l;
     _last_usage_emit_ts := v |}.

(** ** One upstream turn of [handle_streaming] *)

Section Turn.

(** [self.handle_streaming], as the turn calls it to continue. *)
Variable recurse : dict -> bool -> Z -> M unit.
Variable body : dict.
Variable max_iterations : Z.
Variable request_id : string.
Variable _prompt_tokens_estimate : Z.

(** The nested function [_maybe_emit_usage_estimate(force)]; the clock
    is in microseconds, so 0.75 s is 750000. *)
Definition _maybe_emit_usage_estimate (force : bool) (l : locals)
  : M locals :=
  match last_usage l with
  | Some _ => ret l
  | None =>
      now <- time_time ;;
      if negb force && (now - _last_usage_emit_ts l <? 750000)%Z
      then ret l
      else
        let completion_text :=
          collected_reasoning l +++ collected_content l in
        let completion_tokens := _estimate_tokens completion_text in
        _send_event
          (usage_event (JNum _prompt_tokens_estimate)
                       (JNum completion_tokens)
                       (JNum (_prompt_tokens_estimate + completion_tokens))
                       true (Some request_id)) ;;
        ret (set_last_usage_emit_ts now l)
  end.

(** [json.loads(buf.get("args_str", "{}"))], [{}] on a decode error *)
Definition parse_args (buf : fragment) : json :=
  match json_loads (buf_args_str buf) with
  | Some args => args
  | None => JObj []
  end.

Definition collected_tool_call (buf : fragment) : json :=
  JObj [("id", buf_id buf);
        ("type", JStr "function");
        ("function", JObj [("name", buf_name buf);
                           ("arguments", JStr (buf_args_str buf))])].

(** [for key, buf in tool_call_buffer.items(): if buf.get("name"): ...] *)
Fixpoint run_tool_calls (items : list (string * fragment)) (l : locals)
         (tool_results : odict dict) : M (locals * odict dict) :=
  match items with
  | [] => ret (l, tool_results)
  | (key, buf) :: rest =>
      if truthy (buf_name buf) then
        let args := parse_args buf in
        let l :=
          set_collected_tool_calls
            (collected_tool_calls l ++ [collected_tool_call buf]) l in
        _send_event (tool_execution_event buf args) ;;
        l <- _maybe_emit_usage_estimate true l ;;
        result <- execute_tool (buf_name buf) args ;;
        let tool_results := dict_set tool_results key result in
        _send_event (tool_result_event buf args result) ;;
        l <- _maybe_emit_usage_estimate true l ;;
        run_tool_calls rest l tool_results
      else run_tool_calls rest l tool_results
  end.

Definition assistant_message (l : locals) : json :=
  JObj ([("role", JStr "assistant")]
        ++ (if negb (String.eqb (collected_reasoning l) "")
            then [("reasoning_content", JStr (collected_reasoning l))]
            else [])
        ++ [("content", JStr (collected_content l));
            ("tool_calls", JArr (collected_tool_calls l))]).

(** [result.get("output", "") if result.get("success")
     else json.dumps(result)] *)
Definition tool_output (result : dict) : json :=
  if truthy (dict_get_default result "success" JNull)
  then dict_get_default result "output" (JStr "")
  else JStr (json_dumps (JObj result)).

Definition tool_message (buf : fragment) (result : dict) : json :=
  JObj [("role", JStr "tool");
        ("tool_call_id", buf_id buf);
        ("content", tool_output result)].

(** The second loop over the buffer: one [tool] message per executed call. *)
Fixpoint append_tool_messages (items : list (string * fragment))
         (tool_results : odict dict) (messages : json) : result json :=
  match items with
  | [] => Success messages
  | (key, buf) :: rest =>
      match truthy (buf_name buf), dict_get tool_results key with
      | true, Some result =>
          (let? messages := py_append messages (tool_message buf result) in
           append_tool_messages rest tool_results messages)%result
      | _, _ => append_tool_messages rest tool_results messages
      end
  end.

(** [except ProxyError as e:] around the continuation; any other
    exception passes through to the handler around the loop. *)
Definition followup_failed (e : exn) : M unit :=
  if is_ProxyError e then
    _send_event (error_event ("Tool follow-up failed: " +++ exn_str e)
                             "upstream" request_id) ;;
    _write DoneLiteral ;;
    ret tt
  else raise e.

(** The estimate for the enlarged prompt, sent before the continuation
    when upstream gave no usage. *)
Definition next_prompt_estimate (body : dict) : json :=
  let next_prompt_tokens := _estimate_tokens (prompt_text_of body) in
  usage_event (JNum next_prompt_tokens) (JNum 0) (JNum next_prompt_tokens)
              true (Some request_id).

(** The [if tool_call_buffer:] branch taken at [data: [DONE]]. *)
Definition continue_with_tools (l : locals) : M unit :=
  '(l, tool_results) <- run_tool_calls (tool_call_buffer l) l [] ;;
  let messages := dict_get_default body "messages" (JArr []) in
  messages <- lift (py_append messages (assistant_message l)) ;;
  messages <- lift (append_tool_messages (tool_call_buffer l)
                                         tool_results messages) ;;
  let body := dict_set body "messages" messages in
  try_except
    (_send_event (continuation_event request_id) ;;
     match last_usage l with
     | None => _send_event (next_prompt_estimate body) ;; ret tt
     | Some _ => ret tt
     end ;;
     recurse body false (max_iterations - 1))
    followup_failed.

(** The [else] branch taken at [data: [DONE]]: no tool calls. *)
Definition finish_without_tools (line : string) (l : locals) : M unit :=
  let last_usage :=
    match last_usage l with
    | Some u => u
    | None =>
        let completion_text :=
          collected_reasoning l +++ collected_content l in
        let prompt_tokens := _estimate_tokens (prompt_text_of body) in
        let completion_tokens := _estimate_tokens completion_text in
        {| prompt_tokens := JNum prompt_tokens;
           completion_tokens := JNum completion_tokens;
           total_tokens := JNum (prompt_tokens + completion_tokens);
           estimated := true |}
    end in
  _send_event (usage_event (prompt_tokens last_usage)
                           (completion_tokens last_usage)
                           (total_tokens last_usage)
                           (estimated last_usage) (Some request_id)) ;;
  _write (Raw line) ;;
  ret tt.

Definition at_done (line : string) (l : locals) : M unit :=
  match tool_call_buffer l with
  | _ :: _ => continue_with_tools l
  | [] => finish_without_tools line l
  end.

(** [last_usage] after a chunk: taken from the chunk when it is a
    dictionary whose ["usage"] is a dictionary. *)
Definition capture_usage (chunk : json) (l : locals) : locals :=
  match chunk with
  | JObj d =>
      match dict_get_default d "usage" JNull with
      | JObj u =>
          set_last_usage
            (Some {| prompt_tokens :=
                       dict_get_default u "prompt_tokens" (JNum 0);
                     completion_tokens :=
                       dict_get_default u "completion_tokens" (JNum 0);
                     total_tokens :=
                       dict_get_default u "total_tokens" (JNum 0);
                     estimated := false |}) l
      | _ => l
      end
  | _ => l
  end.

(** The body of the inner [try] once [json.loads] has returned [chunk]. *)
Definition process_chunk (chunk : json) (l : locals) : M locals :=
  let l := capture_usage chunk l in
  choices <- lift (py_get chunk "choices" (JArr [JObj []])) ;;
  choice <- lift (py_item0 choices) ;;
  delta <- lift (py_get choice "delta" (JObj [])) ;;
  content <- lift (py_get delta "content" JNull) ;;
  l <- (if truthy content then
          s <- lift (py_str_iadd (collected_content l) content) ;;
          ret (set_collected_content s l)
        else ret l) ;;
  reasoning <- lift (py_get delta "reasoning_content" JNull) ;;
  l <- (if truthy reasoning then
          s <- lift (py_str_iadd (collected_reasoning l) reasoning) ;;
          ret (set_collected_reasoning s l)
        else ret l) ;;
  l <- _maybe_emit_usage_estimate false l ;;
  tool_calls <- lift (py_get delta "tool_calls" JNull) ;;
  if truthy tool_calls then
    tcs <- lift (py_iter tool_calls) ;;
    buffer <- lift (collect_tool_calls (tool_call_buffer l) tcs) ;;
    ret (set_tool_call_buffer buffer l)
  else ret l.

(** The [while True:] loop over the lines of the upstream response. *)
Fixpoint read_loop (lines : list string) (tail : option exn) (l : locals)
  : M unit :=
  match lines with
  | [] =>
      match tail with
      | None => ret tt
      | Some e => raise e
      end
  | line :: rest =>
      if String.eqb line "" then ret tt
      else
        let line_str := line in
        if startswith (strip line_str) "data:" then
          let data_str := strip (drop 5 (strip line_str)) in
          if String.eqb data_str "[DONE]" then at_done line l
          else
            l <- match json_loads data_str with
                 | Some chunk => process_chunk chunk l
                 | None => ret l
                 end ;;
            ok <- _write (Raw line) ;;
            if ok then read_loop rest tail l else ret tt
        else
          ok <- _write (Raw line) ;;
          if ok then read_loop rest tail l else ret tt
  end.

End Turn.

(** ** [StreamHandler.handle_streaming] *)

Definition max_iterations_message : string :=
  "Max tool iterations reached (II_AI_MAX_TOOL_ITERATIONS)".

(** [if "tools" not in body or not body.get("tools"): ...] *)
Definition inject_tools (body : dict) : dict :=
  if negb (dict_has body "tools")
     || negb (truthy (dict_get_default body "tools" JNull))
  then dict_set (dict_set body "tools" get_tool_definitions)
                "tool_choice" (JStr "auto")
  else body.

Definition override_budget (env_max : option Z) (max_iterations : Z) : Z :=
  match env_max with
  | Some n => if (0 <? n)%Z then n else max_iterations
  | None => max_iterations
  end.

(** The three writes of the base case: budget exhausted. *)
Definition report_budget_exhausted (body : dict) : M unit :=
  let prompt_tokens := _estimate_tokens (prompt_text_of body) in
  _send_event (usage_event (JNum prompt_tokens) (JNum 0)
                           (JNum prompt_tokens) true None) ;;
  _send_error max_iterations_message ;;
  _write DoneLiteral ;;
  ret tt.

(** [except ProxyError as e:] around the upstream request. *)
Definition report_upstream_failure (body : dict) (request_id : string)
           (message : string) : M unit :=
  let prompt_tokens := _estimate_tokens (prompt_text_of body) in
  _send_event (usage_event (JNum prompt_tokens) (JNum 0)
                           (JNum prompt_tokens)
                           true (Some request_id)) ;;
  _send_error message ;;
  _write DoneLiteral ;;
  ret tt.

(** [except Exception as e:] around the read loop. *)
Definition streaming_failed (request_id : string) (e : exn) : M unit :=
  _send_event (error_event ("Streaming error: " +++ exn_str e)
                           "backend" request_id) ;;
  ret tt.

(** The body of [handle_streaming]; [recurse] is the method itself, as
    the continuation after tool execution calls it. *)
Definition handle_streaming_body (recurse : dict -> bool -> Z -> M unit)
           (body : dict) (is_first : bool) (max_iterations : Z) : M unit :=
  env_max <- getenv_max ;;
  let max_iterations := override_budget env_max max_iterations in
  if (max_iterations <=? 0)%Z then report_budget_exhausted body
  else
    now <- time_time ;;
    let request_id := request_id_of now in
    maybe_send_headers is_first ;;
    let body := inject_tools body in
    resp <- request_chat_completions body ;;
    match resp with
    | UpstreamFails message =>
        report_upstream_failure body request_id message
    | UpstreamStream lines tail =>
        let _prompt_tokens_estimate :=
          _estimate_tokens (prompt_text_of body) in
        try_except
          (read_loop recurse body max_iterations
                     request_id _prompt_tokens_estimate
                     lines tail initial_locals)
          (streaming_failed request_id)
    end.

(** The method calls itself; the depth of the call chain is bounded by
    [fuel] here, and running out of it is the outcome [OutOfFuel]. *)
Fixpoint handle_streaming (fuel : nat) (body : dict) (is_first : bool)
         (max_iterations : Z) : M unit :=
  match fuel with
  | O => out_of_fuel
  | S fuel' =>
      handle_streaming_body (handle_streaming fuel')
                            body is_first max_iterations
  end.

(** ** [StreamHandler.handle_non_streaming] *)

Definition error_response (message : string) : json :=
  JObj [("error", JObj [("message", JStr message)])].

(** [resp.read()] then [json.loads(raw.decode("utf-8"))] *)
Definition read_json (lines : list string) (tail : option exn)
  : result json :=
  match tail with
  | Some e => Failure e
  | None =>
      let raw := join lines in
      match json_loads raw with
      | Some data => Success data
      | None => Failure (Exn JSONDecodeError (json_decode_error raw))
      end
  end.

(** [json.loads(func.get("arguments", "{}"))], [{}] on a decode error *)
Definition parse_arguments (arguments : json) : result json :=
  match arguments with
  | JStr s =>
      match json_loads s with
      | Some args => Success args
      | None => Success (JObj [])
      end
  | _ =>
      Failure (Exn TypeError
                   ("the JSON object must be str, bytes or bytearray, not "
                      +++ type_name arguments))
  end.

(** [result.get("output", "") or json.dumps(result)] *)
Definition tool_output_or_dump (result : dict) : json :=
  let output := dict_get_default result "output" (JStr "") in
  if truthy output then output else JStr (json_dumps (JObj result)).

(** [for tc in tool_calls: ...] of the non-streaming handler *)
Fixpoint execute_tool_calls (tool_calls : list json) (messages : json)
  : M json :=
  match tool_calls with
  | [] => ret messages
  | tc :: rest =>
      func <- lift (py_get tc "function" (JObj [])) ;;
      tool_name <- lift (py_get func "name" (JStr "")) ;;
      arguments <- lift (py_get func "arguments" (JStr "{}")) ;;
      tool_args <- lift (parse_arguments arguments) ;;
      result <- execute_tool tool_name tool_args ;;
      let output := tool_output_or_dump result in
      tool_call_id <- lift (py_get tc "id" (JStr "")) ;;
      messages <- lift (py_append messages
                          (JObj [("role", JStr "tool");
                                 ("tool_call_id", tool_call_id);
                                 ("content", output)])) ;;
      execute_tool_calls rest messages
  end.

Definition handle_non_streaming (body : dict) : M json :=
  let body := inject_tools body in
  resp <- request_chat_completions body ;;
  match resp with
  | UpstreamFails message => ret (error_response message)
  | UpstreamStream lines tail =>
      match read_json lines tail with
      | Failure e => ret (error_response ("Request failed: " +++ exn_str e))
      | Success response_data =>
          choices <- lift (py_get response_data "choices" (JArr [JObj []])) ;;
          choice <- lift (py_item0 choices) ;;
          message <- lift (py_get choice "message" (JObj [])) ;;
          tool_calls <- lift (py_get message "tool_calls" (JArr [])) ;;
          if truthy tool_calls then
            let messages := dict_get_default body "messages" (JArr []) in
            messages <- lift (py_append messages message) ;;
            tcs <- lift (py_iter tool_calls) ;;
            messages <- execute_tool_calls tcs messages ;;
            let body := dict_set body "messages" messages in
            let body := dict_del body "tools" in
            resp2 <- request_chat_completions body ;;
            match resp2 with
            | UpstreamFails message =>
                ret (error_response ("Tool follow-up failed: " +++ message))
            | UpstreamStream lines2 tail2 =>
                match read_json lines2 tail2 with
                | Failure e =>
                    ret (error_response
                           ("Tool follow-up failed: " +++ exn_str e))
                | Success data => ret data
                end
            end
          else ret response_data
      end
  end.

End Handler.

(** ** Reading a delta fragment

    What one fragment of [delta["tool_calls"]] carries, read off the JSON
    value the way the design document describes a fragment. *)

Section Fragments.

Context {lib : PyLib}.

Definition fragment_key (tc : json) : option string :=
  match py_get tc "index" (JNum 0) with
  | Success idx => Some (buffer_key idx)
  | Failure _ => None
  end.

Definition function_field (tc : json) (field : string) : json :=
  match tc with
  | JObj d =>
      match dict_get_default d "function" (JObj []) with
      | JObj f => dict_get_default f field JNull
      | _ => JNull
      end
  | _ => JNull
  end.

Definition carried_id (tc : json) : json :=
  match tc with
  | JObj d => dict_get_default d "id" JNull
  | _ => JNull
  end.

Definition carried_name (tc : json) : json := function_field tc "name".

Definition carried_arguments (tc : json) : string :=
  match function_field tc "arguments" with
  | JStr s => s
  | _ => ""
  end.

(** The last value of the list that is not empty (truthy), if any. *)
Fixpoint last_truthy (vs : list json) : option json :=
  match vs with
  | [] => None
  | v :: rest =>
      match last_truthy rest with
      | Some w => Some w
      | None => if truthy v then Some v else None
      end
  end.

(** Reassembly as the design document words it: the last non-empty id
    and name, and the arguments substrings concatenated in arrival order,
    on top of what the buffer entry held before. *)
Definition reassemble (fs : list json) (b : fragment) : fragment :=
  {| buf_id :=
       match last_truthy (map carried_id fs) with
       | Some v => v
       | None => buf_id b
       end;
     buf_name :=
       match last_truthy (map carried_name fs) with
       | Some v => v
       | None => buf_name b
       end;
     buf_args_str :=
       buf_args_str b +++ join (map carried_arguments fs) |}.

(** [if key not in tool_call_buffer: tool_call_buffer[key] = {...}] *)
Definition ensure_entry (buffer : odict fragment) (key : string)
  : odict fragment :=
  if dict_has buffer key then buffer else dict_set buffer key empty_fragment.

End Fragments.

(** ** Reading the history *)

(** A field of a synthetic event handed to [_write]. *)
Definition event_field (d : wdata) (k : string) : option json :=
  match d with
  | Event (JObj e) => dict_get e k
  | _ => None
  end.

Definition event_type_is (d : wdata) (t : string) : bool :=
  match event_field d "type" with
  | Some v => is_str v t
  | None => false
  end.

(** An event [{"type": "usage", ..., "estimated": true, ...}]. *)
Definition is_estimated_usage (d : wdata) : bool :=
  event_type_is d "usage"
  && match event_field d "estimated" with
     | Some (JBool true) => true
     | _ => false
     end.

(** If the data is an event with a ["request_id"], it is [request_id]. *)
Definition carries_request_id (request_id : string) (d : wdata) : Prop :=
  forall v, event_field d "request_id" = Some v -> v = JStr request_id.

(** [st'] extends the history of writes of [st] by data that are all
    [allowed]. *)
Definition wrote (allowed : wdata -> Prop) (st st' : St) : Prop :=
  exists new : list (wdata * bool),
    written st' = written st ++ new
    /\ Forall (fun w => allowed (fst w)) new.

(** A continuation that writes nothing to the client: with it in place of
    the recursive call, the writes of a turn are the turn's own. *)
Definition silent (recurse : dict -> bool -> Z -> M unit) : Prop :=
  forall b f m env st, written (snd (recurse b f m env st)) = written st.

(** ** Tool calls in the history *)

(** A buffered call that will be executed: its name is not empty. *)
Definition named (item : string * fragment) : bool :=
  truthy (buf_name (snd item)).

(** The call of [execute_tool] a buffered call leads to. *)
Definition invocation_of {lib : PyLib} (item : string * fragment)
  : json * json :=
  (buf_name (snd item), parse_args (snd item)).

(** The type and the ["tool_call"] field of a [tool_execution] or
    [tool_result] event. *)
Definition tool_event_of (d : wdata) : option (string * json) :=
  match event_field d "type", event_field d "tool_call" with
  | Some (JStr t), Some c =>
      if String.eqb t "tool_execution" || String.eqb t "tool_result"
      then Some (t, c)
      else None
  | _, _ => None
  end.

Definition tool_events (ws : list (wdata * bool)) : list (string * json) :=
  flat_map (fun w => match tool_event_of (fst w) with
                     | Some t => [t]
                     | None => []
                     end) ws.

(** The two events that frame the execution of each named call, in the
    order of the items. *)
Definition announcements {lib : PyLib} (items : list (string * fragment))
  : list (string * json) :=
  flat_map (fun item =>
              let call := tool_call_summary (snd item) (parse_args (snd item)) in
              [("tool_execution", call); ("tool_result", call)])
           (filter named items).

(** The keys of a run of delta fragments, in arrival order. *)
Definition keys_of {lib : PyLib} (tcs : list json) : list string :=
  flat_map (fun tc => match fragment_key tc with
                      | Some k => [k]
                      | None => []
                      end) tcs.

(** The order in which keys are first seen, after those already [seen]. *)
Fixpoint first_seen (seen : list string) (keys : list string) : list string :=
  match keys with
  | [] => seen
  | k :: rest =>
      if existsb (fun k' => String.eqb k' k) seen
      then first_seen seen rest
      else first_seen (seen ++ [k]) rest
  end.

(** ** Reading a non-streaming response *)

(** The call of [execute_tool] one entry of [message["tool_calls"]] leads
    to, when reading the entry raises nothing. *)
Definition requested_call {lib : PyLib} (tc : json) : result (json * json) :=
  (let? func := py_get tc "function" (JObj []) in
   let? tool_name := py_get func "name" (JStr "") in
   let? arguments := py_get func "arguments" (JStr "{}") in
   let? tool_args := parse_arguments arguments in
   Success (tool_name, tool_args))%result.

(** [response["choices"][0]["message"]], with the defaults of the code. *)
Definition response_message (response_data : json) : result json :=
  (let? choices := py_get response_data "choices" (JArr [JObj []]) in
   let? choice := py_item0 choices in
   py_get choice "message" (JObj []))%result.

Definition is_tool_message (m : json) : bool :=
  match m with
  | JObj d => is_str (dict_get_default d "role" JNull) "tool"
  | _ => false
  end.

Definition tool_call_id_of (m : json) : json :=
  match m with
  | JObj d => dict_get_default d "tool_call_id" JNull
  | _ => JNull
  end.

Definition call_id (tc : json) : json :=
  match tc with
  | JObj d => dict_get_default d "id" (JStr "")
  | _ => JNull
  end.

(** What the handler returns for the answer to the follow-up request. *)
Definition followup_result {lib : PyLib} (resp : upstream_response) : json :=
  match resp with
  | UpstreamFails message =>
      error_response ("Tool follow-up failed: " +++ message)
  | UpstreamStream lines tail =>
      match read_json lines tail with
      | Success data => data
      | Failure e => error_response ("Tool follow-up failed: " +++ exn_str e)
      end
  end.

(** ** Specifications of computations

    [sat env NF G Q m]: in the environment [env] and from any state, [m]
    moves the history along the relation [G], a value it returns
    satisfies [Q], and (when [NF] holds) it does not run out of fuel. *)

Definition sat {A} (env : Env) (NF : Prop) (G : St -> St -> Prop)
           (Q : A -> Prop) (m : M A) : Prop :=
  forall st,
    G st (snd (m env st))
    /\ (forall a, fst (m env st) = Ok a -> Q a)
    /\ (NF -> fst (m env st) <> OutOfFuel).

(** Data that is not an estimated usage event; a [last_usage] that holds
    what upstream reported. *)
Definition quiet (d : wdata) : Prop := is_estimated_usage d = false.

Definition authoritative (o : option usage_stats) : Prop :=
  exists u, o = Some u /\ estimated u = false.

(** The history once the prologue of an invocation has sent its request. *)
Definition after_request (body : dict) (headers_sent : bool)
           (header_calls : nat) (st : St) : St :=
  {| clock_reads := S (clock_reads st); written := written st;
     requests := requests st ++ [body]; executed := executed st;
     host_ops := host_ops st; _headers_sent := headers_sent;
     header_calls := header_calls |}.

(** No request sent; at most [n] requests sent. *)
Definition requests_kept (a b : St) : Prop := requests b = requests a.

Definition requests_within (n : nat) (a b : St) : Prop :=
  (List.length (requests b) <= List.length (requests a) + n)%nat.

(** ** Two runs against clients that fail differently *)

(** Two environments that are the same except for the fate of the writes
    of synthetic events and of the literal [DONE]: they agree on every
    write of a raw upstream line. *)
Definition differ_on_event_writes_only (env1 env2 : Env) : Prop :=
  env_max env1 = env_max env2
  /\ (forall k, clock env1 k = clock env2 k)
  /\ (forall k b, upstream env1 k b = upstream env2 k b)
  /\ (forall k op, host env1 k op = host env2 k op)
  /\ send_headers env1 = send_headers env2
  /\ (forall k line, wfile_ok env1 k (Raw line) = wfile_ok env2 k (Raw line)).

(** Two histories with the same attempts: the same data handed to
    [_write] in the same order (whatever became of each write), the same
    requests, tool executions and host effects. *)
Definition same_attempts (s1 s2 : St) : Prop :=
  clock_reads s1 = clock_reads s2
  /\ map fst (written s1) = map fst (written s2)
  /\ requests s1 = requests s2
  /\ executed s1 = executed s2
  /\ host_ops s1 = host_ops s2
  /\ _headers_sent s1 = _headers_sent s2
  /\ header_calls s1 = header_calls s2.

(** [m] does the same in both environments, from histories with the same
    attempts. *)
Definition simulates (env1 env2 : Env) {A} (m : M A) : Prop :=
  forall s1 s2,
    same_attempts s1 s2 ->
    fst (m env1 s1) = fst (m env2 s2)
    /\ same_attempts (snd (m env1 s1)) (snd (m env2 s2)).

(** The terminating sentinel as the client sees it: the literal the
    handler writes itself, or a forwarded upstream line whose payload is
    [[DONE]]. *)
Definition is_done_sentinel (d : wdata) : bool :=
  match d with
  | DoneLiteral => true
  | Raw line =>
      startswith (strip line) "data:"
      && String.eqb (strip (drop 5 (strip line))) "[DONE]"
  | Event _ => false
  end.

(** ** A sample library and sample environments

    [sample_dumps] writes a JSON value the way [json.dumps] does with its
    default separators, for values whose strings need no escaping.
    [sample_loads] is [json.loads] on the texts the runs below meet: the
    serializations of the values of [sample_table]; every other text met
    in those runs is not JSON. *)

Fixpoint sample_dumps (j : json) : string :=
  match j with
  | JNull => "null"
  | JBool true => "true"
  | JBool false => "false"
  | JNum n => str_of_Z n
  | JStr s => dquote +++ s +++ dquote
  | JArr l =>
      "[" +++ (fix items (l : list json) : string :=
                 match l with
                 | [] => ""
                 | [x] => sample_dumps x
                 | x :: rest => sample_dumps x +++ ", " +++ items rest
                 end) l +++ "]"
  | JObj d =>
      "{" +++ (fix fields (d : list (string * json)) : string :=
                 match d with
                 | [] => ""
                 | [(k, v)] => dquote +++ k +++ dquote +++ ": " +++ sample_dumps v
                 | (k, v) :: rest =>
                     dquote +++ k +++ dquote +++ ": " +++ sample_dumps v
                       +++ ", " +++ fields rest
                 end) d +++ "}"
  end.

(** A streamed chunk whose delta carries one tool-call fragment. *)
Definition tool_call_delta (fragment : dict) : json :=
  JObj [("choices",
         JArr [JObj [("delta",
                      JObj [("tool_calls", JArr [JObj fragment])])]])].

Definition whole_call (index : Z) (id name arguments : string) : dict :=
  [("index", JNum index); ("id", JStr id);
   ("function", JObj [("name", JStr name); ("arguments", JStr arguments)])].

Definition content_delta (text : string) : json :=
  JObj [("choices", JArr [JObj [("delta", JObj [("content", JStr text)])]])].

(** The final chunk of a stream with usage reporting switched on: no
    choices, and the usage object. *)
Definition usage_chunk : json :=
  JObj [("choices", JArr []);
        ("usage", JObj [("prompt_tokens", JNum 9);
                        ("completion_tokens", JNum 2);
                        ("total_tokens", JNum 11)])].

(** A chunk with a delta and the usage object. *)
Definition content_with_usage : json :=
  JObj [("choices", JArr [JObj [("delta", JObj [("content", JStr "Hello")])]]);
        ("usage", JObj [("prompt_tokens", JNum 9);
                        ("completion_tokens", JNum 2);
                        ("total_tokens", JNum 11)])].

(** A fragment that has arguments but never a name. *)
Definition nameless_call : dict :=
  [("index", JNum 0); ("function", JObj [("arguments", JStr "{}")])].

(** Non-streaming responses: one that asks for a tool, and the answer to
    the follow-up request, which asks for a tool again. *)
Definition response_with_call (id name : string) : json :=
  JObj [("choices",
         JArr [JObj [("message",
                      JObj [("role", JStr "assistant");
                            ("content", JNull);
                            ("tool_calls",
                             JArr [JObj [("id", JStr id);
                                         ("type", JStr "function");
                                         ("function",
                                          JObj [("name", JStr name);
                                                ("arguments", JStr "{}")])]])])]])].

Definition sample_table : list json :=
  [ JObj [];
    tool_call_delta (whole_call 0 "call_0" "switch_to_search_mode" "{}");
    tool_call_delta (whole_call 1 "call_1" "switch_to_search_mode" "{}");
    tool_call_delta (whole_call 0 "call_0" "no_such_tool" "{}");
    tool_call_delta nameless_call;
    content_delta "Hello";
    content_delta " world";
    usage_chunk;
    content_with_usage;
    response_with_call "call_0" "switch_to_search_mode";
    response_with_call "call_9" "no_such_tool" ].

Definition sample_loads (s : string) : option json :=
  find (fun j => String.eqb (sample_dumps j) s) sample_table.

Definition sample_lib : PyLib :=
  {| json_loads := sample_loads;
     json_decode_error := fun _ => "Expecting value: line 1 column 1 (char 0)";
     json_dumps := sample_dumps;
     py_repr := sample_dumps |}.

Definition newline : string := String "010"%char EmptyString.

(** One server-sent event line carrying a JSON payload. *)
Definition sse (j : json) : string := "data: " +++ sample_dumps j +++ newline.

Definition done_line : string := "data: [DONE]" +++ newline.

Definition sample_body : dict :=
  [("messages",
    JArr [JObj [("role", JStr "user"); ("content", JStr "hi")]]);
   ("stream", JBool true)].

(** A clock that starts on 3 November 2025 and advances one second per
    reading. *)
Definition sample_clock (k : nat) : Z :=
  (1762177000000000 + 1000000 * Z.of_nat k)%Z.

Definition sample_env (env_max : option Z)
           (upstream : nat -> dict -> upstream_response) : Env :=
  {| env_max := env_max;
     clock := sample_clock;
     wfile_ok := fun _ _ => true;
     upstream := upstream;
     host := fun _ _ => [];
     send_headers := true |}.

(** A turn that asks for one tool: the chunk, its line, and the buffer
    the line leaves. *)
Definition tool_chunk : json :=
  tool_call_delta (whole_call 0 "call_0" "switch_to_search_mode" "{}").

Definition tool_line : string := sse tool_chunk.

Definition tool_buffer : odict fragment :=
  [("idx:0", Fragment (JStr "call_0") (JStr "switch_to_search_mode") "{}")].

(** [II_AI_MAX_TOOL_ITERATIONS=1], and an upstream that asks for a tool
    on every turn. *)
Definition env_override : Env :=
  sample_env (Some 1%Z)
    (fun _ _ => UpstreamStream [tool_line; done_line] None).

(** No override; an upstream that streams some content, then the final
    chunk with the usage object and no choices, then [DONE]. *)
Definition env_usage_chunk : Env :=
  sample_env (Some 0%Z)
    (fun _ _ =>
       UpstreamStream [sse (content_delta "Hello"); sse usage_chunk; done_line]
                      None).

(** No override; the first turn asks for a tool, the second answers. *)
Definition env_two_turns : Env :=
  sample_env (Some 0%Z)
    (fun k _ =>
       match k with
       | O =>
           UpstreamStream
             [sse (tool_call_delta
                     (whole_call 0 "call_0" "switch_to_search_mode" "{}"));
              done_line] None
       | S _ => UpstreamStream [sse (content_delta "Hello"); done_line] None
       end).

(** The first turn streams the call of index 1 before the call of
    index 0. *)
Definition env_swapped : Env :=
  sample_env (Some 0%Z)
    (fun k _ =>
       match k with
       | O =>
           UpstreamStream
             [sse (tool_call_delta
                     (whole_call 1 "call_1" "switch_to_search_mode" "{}"));
              sse (tool_call_delta (whole_call 0 "call_0" "no_such_tool" "{}"));
              done_line] None
       | S _ => UpstreamStream [sse (content_delta "Hello"); done_line] None
       end).

(** The non-streaming upstream: a response that asks for a tool, then a
    response that asks for another one. *)
Definition env_non_streaming : Env :=
  sample_env (Some 0%Z)
    (fun k _ =>
       match k with
       | O =>
           UpstreamStream
             [sample_dumps (response_with_call "call_0" "switch_to_search_mode")]
             None
       | S _ =>
           UpstreamStream
             [sample_dumps (response_with_call "call_9" "no_such_tool")] None
       end).

(** A client to which every raw line gets through and every other write
    fails. *)
Definition env_deaf_to_events : Env :=
  {| env_max := Some 0%Z;
     clock := sample_clock;
     wfile_ok := fun _ d => match d with Raw _ => true | _ => false end;
     upstream := upstream env_two_turns;
     host := fun _ _ => [];
     send_headers := true |}.

(** A continuation that does nothing. *)
Definition no_continuation : dict -> bool -> Z -> M unit :=
  fun _ _ _ => ret tt.

(** [x] comes before [y] in [l]. *)
Definition precedes {A} (x y : A) (l : list A) : Prop :=
  exists a b c : list A, l = a ++ x :: b ++ y :: c.

(** One call, [run_shell_command] with [{"command": "echo hi"}], as a
    single fragment and split across three. *)
Definition echo_arguments : string :=
  "{" +++ dquote +++ "command" +++ dquote +++ ": "
      +++ dquote +++ "echo hi" +++ dquote +++ "}".

Definition echo_whole : list json :=
  [JObj (whole_call 0 "call_0" "run_shell_command" echo_arguments)].

Definition echo_split : list json :=
  [JObj (whole_call 0 "call_0" "run_shell_command" "");
   JObj [("index", JNum 0);
         ("function",
          JObj [("arguments", JStr ("{" +++ dquote +++ "comm"))])];
   JObj [("index", JNum 0);
         ("function",
          JObj [("arguments",
                 JStr ("and" +++ dquote +++ ": " +++ dquote +++ "echo"))])];
   JObj [("index", JNum 0);
         ("function",
          JObj [("arguments", JStr (" hi" +++ dquote +++ "}"))])]].

Definition echo_buffer : odict fragment :=
  [("idx:0",
    Fragment (JStr "call_0") (JStr "run_shell_command") echo_arguments)].

(** The fragments of [env_swapped], and the buffer they leave. *)
Definition swapped_fragments : list json :=
  [JObj (whole_call 1 "call_1" "switch_to_search_mode" "{}");
   JObj (whole_call 0 "call_0" "no_such_tool" "{}")].

Definition swapped_buffer : odict fragment :=
  [("idx:1", Fragment (JStr "call_1") (JStr "switch_to_search_mode") "{}");
   ("idx:0", Fragment (JStr "call_0") (JStr "no_such_tool") "{}")].

(** The locals at [DONE] after the one fragment of [nameless_call]. *)
Definition nameless_locals : locals :=
  set_tool_call_buffer [("idx:0", Fragment (JStr "") (JStr "") "{}")]
                       initial_locals.

(** ** Reading the history of a request *)

(** The upstream lines handed on to the client, in the order written. *)
Definition forwarded (ws : list (wdata * bool)) : list string :=
  flat_map (fun w => match fst w with
                     | Raw line => [line]
                     | _ => []
                     end) ws.

(** Data the handler writes of its own: anything but an upstream line. *)
Definition synthetic (d : wdata) : Prop :=
  match d with
  | Raw _ => False
  | _ => True
  end.

(** The lines of an upstream response; none when the request failed. *)
Definition lines_of (resp : upstream_response) : list string :=
  match resp with
  | UpstreamStream lines _ => lines
  | UpstreamFails _ => []
  end.

(** The response headers were not touched. *)
Definition headers_kept (a b : St) : Prop :=
  header_calls b = header_calls a /\ _headers_sent b = _headers_sent a.

(** An event that reports a failed follow-up request. *)
Definition reports_followup_failure (d : wdata) : Prop :=
  event_field d "where" = Some (JStr "upstream").

(** What a computation leaves alone when it neither writes to the client,
    nor reads the clock, nor sends a request, nor touches the headers. *)
Definition client_untouched (a b : St) : Prop :=
  written b = written a
  /\ clock_reads b = clock_reads a
  /\ requests b = requests a
  /\ headers_kept a b.

(** Does this invocation of [handle_streaming] send the response headers:
    it is the first one, a [send_headers] callback was given, the headers
    were not sent yet, and the budget check is passed. *)
Definition headers_due (env : Env) (is_first : bool) (max_iterations : Z)
           (st : St) : bool :=
  is_first && send_headers env && negb (_headers_sent st)
  && (0 <? override_budget (env_max env) max_iterations)%Z.

(** No upstream line was handed on between two histories. *)
Definition forwarded_kept (a b : St) : Prop :=
  forwarded (written b) = forwarded (written a).

(** Data that does not report a failed follow-up request. *)
Definition no_followup_failure (d : wdata) : Prop :=
  ~ reports_followup_failure d.

(** ** [ai/upstream.py]: the upstream client *)

(** [s.endswith(suffix)] *)
Fixpoint endswith (s suffix : string) : bool :=
  String.eqb s suffix
  || match s with
     | EmptyString => false
     | String _ s' => endswith s' suffix
     end.

(** [s[:-1]] *)
Fixpoint drop_last (s : string) : string :=
  match s with
  | EmptyString => EmptyString
  | String c s' =>
      match s' with
      | EmptyString => EmptyString
      | String _ _ => String c (drop_last s')
      end
  end.

(** [_env(name, default)] over the process environment *)
Definition _env (environ : string -> option string) (name default : string)
  : string :=
  match environ name with
  | None => default
  | Some v => v
  end.

(** [_join_url(base, path)]; [base] is a string, so [(base or "")] is
    [base]. *)
Definition _join_url (base path : string) : string :=
  let b := strip base in
  if String.eqb b "" then path
  else
    let b := if endswith b "/" then drop_last b else b in
    let path := if negb (startswith path "/") then "/" +++ path else path in
    b +++ path.

Record UpstreamClient : Type := {
  base_url : string;
  api_key : string
}.

(** [UpstreamClient.__init__] *)
Definition UpstreamClient_init (environ : string -> option string)
  : UpstreamClient :=
  {| base_url :=
       (let b := strip (_env environ "OPENAI_BASE_URL" "") in
        if String.eqb b "" then "https://api.openai.com" else b);
     api_key := strip (_env environ "OPENAI_API_KEY" "") |}.

(** [UpstreamClient.health] *)
Definition health (client : UpstreamClient) : dict :=
  [("upstream_base_url", JStr (base_url client));
   ("has_api_key", JBool (negb (String.eqb (api_key client) "")))].

(** The request [request_chat_completions] hands to [urlopen]: its URL
    and its headers (the data is the body, the method [POST]). *)
Definition chat_completions_url (client : UpstreamClient) : string :=
  _join_url (base_url client) "/chat/completions".

Definition chat_completions_headers (client : UpstreamClient) (body : dict)
  : odict string :=
  let headers :=
    [("Content-Type", "application/json");
     ("Accept",
      if truthy (dict_get_default body "stream" JNull)
      then "text/event-stream" else "application/json")] in
  if negb (String.eqb (api_key client) "")
  then dict_set headers "Authorization" ("Bearer " +++ api_key client)
  else headers.

(** ** [ai/tools.py]: the configuration file

    What the host does for [ReadConfig] and [WriteConfig]: the [try]
    blocks of [_get_shell_config] and [_set_shell_config] over the
    configuration file. The file is known by what opening and loading it
    gives; writing it back is taken to succeed. The messages of the
    exceptions are those of CPython 3.11. *)

(** [needle in haystack] for two strings *)
Fixpoint contains (haystack needle : string) : bool :=
  String.prefix needle haystack
  || match haystack with
     | EmptyString => false
     | String _ rest => contains rest needle
     end.

(** [s.split(sep)] for a separator of one character *)
Fixpoint split_on (sep : ascii) (s : string) : list string :=
  match s with
  | EmptyString => [EmptyString]
  | String c rest =>
      if Ascii.eqb c sep then EmptyString :: split_on sep rest
      else
        match split_on sep rest with
        | [] => [String c EmptyString]
        | first :: others => String c first :: others
        end
  end.

(** [k in current] for a string [k] *)
Definition py_contains_str (current : json) (k : string) : result bool :=
  match current with
  | JObj d => Success (dict_has d k)
  | JArr l => Success (existsb (fun x => is_str x k) l)
  | JStr s => Success (contains s k)
  | _ => Failure (Exn TypeError
                      ("argument of type '" +++ type_name current
                         +++ "' is not iterable"))
  end.

(** [current[k] = v] for a string [k] *)
Definition py_setitem_str (current : json) (k : string) (v : json)
  : result json :=
  match current with
  | JObj d => Success (JObj (dict_set d k v))
  | JArr _ =>
      Failure (Exn TypeError "list indices must be integers or slices, not str")
  | _ => Failure (Exn TypeError
                      ("'" +++ type_name current
                         +++ "' object does not support item assignment"))
  end.

(** [current[k]] for a string [k] (the message of the [KeyError] is
    written for a key that needs no escaping) *)
Definition py_getitem_str (current : json) (k : string) : result json :=
  match current with
  | JObj d =>
      match dict_get d k with
      | Some v => Success v
      | None => Failure (Exn KeyError ("'" +++ k +++ "'"))
      end
  | JArr _ =>
      Failure (Exn TypeError "list indices must be integers or slices, not str")
  | JStr _ =>
      Failure (Exn TypeError "string indices must be integers, not 'str'")
  | _ => Failure (Exn TypeError
                      ("'" +++ type_name current
                         +++ "' object is not subscriptable"))
  end.

(** The navigation of [_set_shell_config]:
    [for k in keys[:-1]: (if k not in current: current[k] = {});
     current = current[k]] and then [current[keys[-1]] = value]. The
    objects are changed in place there; here the changed child is put
    back into its parent. *)
Fixpoint set_path (current : json) (keys : list string) (value : json)
  : result json :=
  match keys with
  | [] => Failure (Exn IndexError "list index out of range")
  | k :: rest =>
      match rest with
      | [] => py_setitem_str current k value
      | _ :: _ =>
          (let? present := py_contains_str current k in
           let? current :=
             if present then Success current
             else py_setitem_str current k (JObj []) in
           let? child := py_getitem_str current k in
           let? child := set_path child rest value in
           py_setitem_str current k child)%result
      end
  end.

(** What opening the configuration file and loading it gives: the file is
    not there ([FileNotFoundError], with its message), something else
    goes wrong (the message of the exception), or it holds a JSON value. *)
Inductive config_file : Type :=
| NoFile (message : string)
| Unreadable (message : string)
| Holds (config : json).

Definition tool_failure (output error : string) : dict :=
  [("success", JBool false); ("output", JStr output); ("error", JStr error)].

Definition tool_success (output : string) : dict :=
  [("success", JBool true); ("output", JStr output); ("error", JNull)].

(** [key.split(".")] *)
Definition split_key (key : json) : result (list string) :=
  match key with
  | JStr s => Success (split_on "." s)
  | _ => Failure (no_attribute key "split")
  end.

Section ShellConfig.

Context {lib : PyLib}.

(** [json.dumps(config, indent=2)] *)
Variable json_dumps_indent : json -> string.

(** The [try] block of [_get_shell_config] *)
Definition read_shell_config (file : config_file) : dict :=
  match file with
  | Holds config => tool_success (json_dumps_indent config)
  | NoFile _ => tool_failure "{}" "Config file not found"
  | Unreadable message => tool_failure "" message
  end.

(** The [try] block of [_set_shell_config], for a key and a value that
    passed its check: the result, and the file afterwards. *)
Definition write_shell_config (file : config_file) (key value : json)
  : dict * config_file :=
  match file with
  | NoFile message => (tool_failure "" message, file)
  | Unreadable message => (tool_failure "" message, file)
  | Holds config =>
      match (let? keys := split_key key in
             set_path config keys value)%result with
      | Success config' =>
          (tool_success ("Set " +++ py_format key +++ " = "
                                +++ py_format value),
           Holds config')
      | Failure e => (tool_failure "" (exn_str e), file)
      end
  end.

End ShellConfig.

(** The value found by following [keys] down nested objects. *)
Fixpoint get_path (config : json) (keys : list string) : option json :=
  match keys with
  | [] => Some config
  | k :: rest =>
      match config with
      | JObj d =>
          match dict_get d k with
          | Some child => get_path child rest
          | None => None
          end
      | _ => None
      end
  end.

(** Every object that [keys] passes through before its last key, as far
    as the path exists, is an object, and so is the root. *)
Fixpoint objects_along (config : json) (keys : list string) : bool :=
  match keys with
  | [] => false
  | k :: rest =>
      match config with
      | JObj d =>
          match rest with
          | [] => true
          | _ :: _ =>
              match dict_get d k with
              | Some child => objects_along child rest
              | None => true
              end
          end
      | _ => false
      end
  end.

(** ** [ai/server.py]: reading a request

    The path of a request is text decoded as ISO 8859-1, so each of its
    characters is a code point below 256. *)

(** More of Python's library: [int(s)] of a string ([None] where it
    raises [ValueError], whose message is [py_int_error s]), and
    [json.loads(raw.decode("utf-8"))] of the bytes of a request body
    ([None] where decoding or parsing raises). *)
Class PyText : Type := {
  py_int : string -> option Z;
  py_int_error : string -> string;
  json_loads_utf8 : string -> option json
}.

(** What a handler sees of a request: [self.path], the [Content-Length]
    header if there is one, and the bytes that can be read from
    [self.rfile]. *)
Record http_request : Type := {
  request_path : string;
  content_length : option string;
  rfile : string
}.

(** [rfile.read(n)] for a positive [n]: the next [n] bytes, or what is
    left of the stream. *)
Fixpoint take (n : nat) (s : string) : string :=
  match n, s with
  | O, _ => EmptyString
  | S _, EmptyString => EmptyString
  | S n', String c s' => String c (take n' s')
  end.

(** [handler.headers.get("Content-Length", "0") or "0"] *)
Definition content_length_text (request : http_request) : string :=
  let header :=
    match content_length request with
    | Some v => v
    | None => "0"
    end in
  if String.eqb header "" then "0" else header.

(** [\d] and [\w] of a pattern on text, for code points below 256. *)
Definition is_digit (c : ascii) : bool :=
  let n := nat_of_ascii c in ((48 <=? n) && (n <=? 57))%nat.

Definition is_word (c : ascii) : bool :=
  let n := nat_of_ascii c in
  (((48 <=? n) && (n <=? 57)) || ((65 <=? n) && (n <=? 90)) || (n =? 95)
   || ((97 <=? n) && (n <=? 122)) || (n =? 170) || (n =? 178) || (n =? 179)
   || (n =? 181) || (n =? 185) || (n =? 186) || ((188 <=? n) && (n <=? 190))
   || ((192 <=? n) && (n <=? 214)) || ((216 <=? n) && (n <=? 246))
   || ((248 <=? n) && (n <=? 255)))%nat.

(** [s.rstrip(ch)] for one character *)
Fixpoint rstrip_char (ch : ascii) (s : string) : string :=
  match s with
  | EmptyString => EmptyString
  | String c s' =>
      let r := rstrip_char ch s' in
      if Ascii.eqb c ch && String.eqb r "" then EmptyString else String c r
  end.

(** The longest prefix of characters in a class, and what follows it: how
    a greedy [\w+] or [\d+] matches when the next thing in the pattern is
    outside the class. *)
Fixpoint span (p : ascii -> bool) (s : string) : string * string :=
  match s with
  | EmptyString => (EmptyString, EmptyString)
  | String c s' =>
      if p c then let (w, rest) := span p s' in (String c w, rest)
      else (EmptyString, s)
  end.

(** [$] without [re.MULTILINE]: the end of the text, or the newline that
    ends it. *)
Definition at_end (s : string) : bool :=
  String.eqb s "" || String.eqb s newline.

(** The groups of [re.match(r"^/v1/(\w+)/(\d+)$", path)] *)
Definition match_resource_id (path : string) : option (string * string) :=
  if startswith path "/v1/" then
    let (word, rest) := span is_word (drop 4 path) in
    if String.eqb word "" then None
    else
      match rest with
      | String "/" rest =>
          let (digits, rest) := span is_digit rest in
          if negb (String.eqb digits "") && at_end rest
          then Some (word, digits)
          else None
      | _ => None
      end
  else None.

(** The group of [re.match(r"^/v1/(\w+)$", path)] *)
Definition match_resource (path : string) : option string :=
  if startswith path "/v1/" then
    let (word, rest) := span is_word (drop 4 path) in
    if negb (String.eqb word "") && at_end rest then Some word else None
  else None.

Section Server.

Context {lib : PyLib} {text : PyText}.

(** [Handler._parse_path]: [inl message] where it raises [ValueError]
    (from [int]), else the resource and the id. *)
Definition _parse_path (path : string) : string + (string * option Z) :=
  let path := rstrip_char "/" path in
  if String.eqb path "/v1/chat/completions"
  then inr ("chat/completions", None)
  else
    match match_resource_id path with
    | Some (resource, digits) =>
        match py_int digits with
        | Some rid => inr (resource, Some rid)
        | None => inl (py_int_error digits)
        end
    | None =>
        match match_resource path with
        | Some resource => inr (resource, None)
        | None => inr ("", None)
        end
    end.

(** [_read_json(handler)]: [inl message] where it raises
    [ValueError(message)]. *)
Definition _read_json (request : http_request) : string + json :=
  let header := content_length_text request in
  match py_int header with
  | None => inl (py_int_error header)
  | Some length =>
      let raw :=
        if (0 <? length)%Z then take (Z.to_nat length) (rfile request)
        else "{}" in
      if String.eqb raw "" then inr (JObj [])
      else
        match json_loads_utf8 raw with
        | Some body => inr body
        | None => inl "Invalid JSON"
        end
  end.

End Server.

(** Every character of the text is in the class. *)
Fixpoint all_chars (p : ascii -> bool) (s : string) : bool :=
  match s with
  | EmptyString => true
  | String c s' => p c && all_chars p s'
  end.

(** ** [ai/server.py]: the completions route

    A reply sent with [send_response] and the JSON headers: its status,
    and its payload before serialization, which is compact
    ([_json_bytes]) or with the default separators ([json.dumps]). *)
Inductive encoding : Type := Compact | Spaced.

Record reply : Type := {
  status : Z;
  payload : json;
  encoded : encoding
}.

(** The connection as the HTTP handler leaves it: the history of the
    stream handlers, the JSON replies sent, and whether the connection
    is to be closed. Sending a reply is taken to succeed. *)
Record Srv : Type := {
  handler_state : St;
  replies : list reply;
  close_connection : bool
}.

(** [Handler._send_json] and [Handler._send_error_json] *)
Definition _send_json (code : Z) (obj : json) (srv : Srv) : Srv :=
  {| handler_state := handler_state srv;
     replies := replies srv
                ++ [{| status := code; payload := obj; encoded := Compact |}];
     close_connection := close_connection srv |}.

Definition _send_error_json (code : Z) (message : json) (srv : Srv) : Srv :=
  _send_json code (JObj [("error", JObj [("message", message)])]) srv.

(** [StreamHandler(self.wfile, client, send_headers)]: a handler that has
    not sent the headers, with the callback it was given or without. *)
Definition new_handler (st : St) : St :=
  {| clock_reads := clock_reads st; written := written st;
     requests := requests st; executed := executed st;
     host_ops := host_ops st; _headers_sent := false;
     header_calls := header_calls st |}.

Definition with_send_headers (callback : bool) (env : Env) : Env :=
  {| env_max := env_max env; clock := clock env; wfile_ok := wfile_ok env;
     upstream := upstream env; host := host env; send_headers := callback |}.

Section Completions.

Context {lib : PyLib} {text : PyText}.

(** The body of the request, or the message of the [ValueError]. *)
Definition completions_body (request : http_request) : string + dict :=
  match _read_json request with
  | inr (JObj body) => inr body
  | inr _ => inl "JSON must be an object"
  | inl message => inl message
  end.

(** The non-streaming branch once the handler has returned
    [response_data]. *)
Definition send_completion (response_data : json) (srv : Srv)
  : outcome unit * Srv :=
  match py_contains_str response_data "error" with
  | Failure e => (Raised e, srv)
  | Success true =>
      match (let? error := py_getitem_str response_data "error" in
             py_get error "message" (JStr "Unknown error"))%result with
      | Success message => (Ok tt, _send_error_json 502 message srv)
      | Failure e => (Raised e, srv)
      end
  | Success false =>
      (Ok tt,
       {| handler_state := handler_state srv;
          replies := replies srv
                     ++ [{| status := 200; payload := response_data;
                            encoded := Spaced |}];
          close_connection := close_connection srv |})
  end.

(** [Handler._handle_chat_completions]. The [send_headers] callback sends
    the status line and the headers of the event stream and marks the
    connection to be closed; the handler marks it again when
    [handle_streaming] has returned. *)
Definition _handle_chat_completions (fuel : nat) (request : http_request)
           (env : Env) (srv : Srv) : outcome unit * Srv :=
  match completions_body request with
  | inl message => (Ok tt, _send_error_json 400 (JStr message) srv)
  | inr body =>
      let st := new_handler (handler_state srv) in
      if truthy (dict_get_default body "stream" JNull) then
        let (o, st') :=
          handle_streaming fuel body true 10 (with_send_headers true env) st in
        (o,
         {| handler_state := st'; replies := replies srv;
            close_connection :=
              match o with
              | Ok _ => true
              | _ => close_connection srv
                     || (header_calls st <? header_calls st')%nat
              end |})
      else
        let (o, st') :=
          handle_non_streaming body (with_send_headers false env) st in
        let srv' :=
          {| handler_state := st'; replies := replies srv;
             close_connection := close_connection srv |} in
        match o with
        | Ok response_data => send_completion response_data srv'
        | Raised e => (Raised e, srv')
        | OutOfFuel => (OutOfFuel, srv')
        end
  end.

End Completions.

(** ** [ai/server.py]: updating a message

    The statement [update_message] hands to [conn.execute]: its text and
    its parameters; none when no field of the update is one it knows, and
    then it returns [False] without touching the database. What the
    database does with the statement is outside. *)
Record statement : Type := {
  sql : string;
  parameters : list json
}.

(** [1 if v else 0] *)
Definition flag (v : json) : json := JNum (if truthy v then 1 else 0).

(** The loop [for k, v in updates.items(): ...]: the assignments and
    their values, in the order of the items. *)
Fixpoint update_fields (items : list (string * json))
  : list string * list json :=
  match items with
  | [] => ([], [])
  | (k, v) :: rest =>
      let key := if String.eqb k "rawContent" then "raw_content" else k in
      let (fields, values) := update_fields rest in
      if String.eqb key "content" || String.eqb key "raw_content"
      then ((key +++ " = ?") :: fields, v :: values)
      else if String.eqb key "done"
      then ("done = ?" :: fields, flag v :: values)
      else if String.eqb key "thinking"
      then ("thinking = ?" :: fields, flag v :: values)
      else (fields, values)
  end.

(** [update_message(msg_id, updates)]: the statement executed, if any,
    and the value returned (once the database has taken the statement). *)
Definition update_message (msg_id : Z) (updates : dict)
  : option statement * bool :=
  let (fields, values) := update_fields updates in
  match fields with
  | [] => (None, false)
  | _ :: _ =>
      (Some {| sql := "UPDATE messages SET " +++ String.concat ", " fields
                        +++ " WHERE id = ?";
               parameters := values ++ [JNum msg_id] |},
       true)
  end.

(** The number of placeholders [?] in the text of a statement. *)
Fixpoint placeholders (s : string) : nat :=
  match s with
  | EmptyString => 0
  | String c s' => (if Ascii.eqb c "?" then 1 else 0) + placeholders s'
  end.

(** The assignments [update_message] can write. *)
Definition known_assignments : list string :=
  ["content = ?"; "raw_content = ?"; "done = ?"; "thinking = ?"].

(** ** [scripts/search/file_search.py]: matching and ranking paths

    These functions look at the characters of a path only to compare
    them; [str.lower] is a parameter. *)

(** [_contains_all(haystack, needles)] *)
Definition _contains_all (haystack : string) (needles : list string) : bool :=
  forallb (fun n => String.eqb n "" || contains haystack n) needles.

(** [_strip_filter_prefix(s)] *)
Definition _strip_filter_prefix (s : string) : string :=
  if startswith s "in:" then drop 3 s
  else if startswith s "notin:" then drop 6 s
  else s.

(** [_prefix_match(path, prefix)] *)
Definition _prefix_match (path prefix : string) : bool :=
  let p := rstrip_char "/" prefix in
  if String.eqb p "" then false
  else if String.eqb path p then true
  else startswith path (p +++ "/").

(** [[s for s in path_lower.split("/") if s]] *)
Definition segments (path : string) : list string :=
  filter (fun s => negb (String.eqb s "")) (split_on "/" path).

(** [_fuzzy_match(path_lower, token_lower)] *)
Definition _fuzzy_match (path_lower token_lower : string) : bool :=
  if String.eqb token_lower "" then false
  else if startswith token_lower "."
  then existsb (fun s => String.eqb s token_lower) (segments path_lower)
  else existsb (fun s => contains s token_lower) (segments path_lower).

Section Score.

(** [str.lower] *)
Variable lower : string -> string.

(** What one needle adds to the score. *)
Definition needle_score (lp ln n : string) : Z :=
  if String.eqb n "" then 0
  else if String.eqb ln n then 200
  else if startswith ln n then 120
  else if contains ln n then 80
  else if contains lp n then 30
  else 0.

(** [_score(path, name, needles)] *)
Definition _score (path name : string) (needles : list string) : Z :=
  let lp := lower path in
  let ln := lower name in
  (fold_left (fun s n => s + needle_score lp ln n) needles 0
   - Z.min 30 (Z.of_nat (String.length path) / 20))%Z.

End Score.

(** A character other than [sep]. *)
Definition other_than (sep c : ascii) : bool := negb (Ascii.eqb c sep).

(** ** More samples *)

(** An upstream that cannot be reached, and one that answers a
    non-streaming request without asking for a tool. *)
Definition env_upstream_down : Env :=
  sample_env (Some 0%Z)
    (fun _ _ =>
       UpstreamFails
         "Upstream URLError: <urlopen error [Errno 111] Connection refused>").

Definition env_plain_answer : Env :=
  sample_env (Some 0%Z)
    (fun _ _ => UpstreamStream [sample_dumps (content_delta "Hello")] None).

(** [int] on texts made of decimal digits only, which is all the sample
    requests have. *)
Fixpoint digits_value (acc : Z) (s : string) : option Z :=
  match s with
  | EmptyString => Some acc
  | String c s' =>
      if is_digit c
      then digits_value (10 * acc + Z.of_nat (nat_of_ascii c - 48)) s'
      else None
  end.

Definition sample_int (s : string) : option Z :=
  if String.eqb s "" then None else digits_value 0 s.

Definition sample_text : PyText :=
  {| py_int := sample_int;
     py_int_error :=
       fun s => "invalid literal for int() with base 10: '" +++ s +++ "'";
     json_loads_utf8 := sample_loads |}.

(** A request with the body [{}], and the connection before it. *)
Definition empty_object_request : http_request :=
  {| request_path := "/v1/chat/completions";
     content_length := Some "2";
     rfile := "{}" |}.

Definition new_connection : Srv :=
  {| handler_state := initial_St; replies := []; close_connection := false |}.

(** A configuration with one nested field. *)
Definition sample_config : json :=
  JObj [("appearance", JObj [("theme", JStr "dark")]);
        ("bar", JObj [("position", JStr "top")])].

(** * Properties *)

(** ** The usage estimator *)

Lemma ceil_div4_add3 (n : Z) : (0 <= n)%Z -> ((n + 3) / 4 = ceil_div4 n)%Z.
Proof.
  intros Hn. unfold ceil_div4.
  pose proof (Z.div_mod n 4 ltac:(lia)) as Hdm.
  pose proof (Z.mod_pos_bound n 4 ltac:(lia)) as Hb.
  destruct (Z.eqb_spec (n mod 4) 0) as [E | E].
  - symmetry. apply Z.div_unique with (r := 3%Z); lia.
  - symmetry. apply Z.div_unique with (r := (n mod 4 - 1)%Z); lia.
Qed.

Lemma estimate_nonempty (s : string) :
  s <> "" ->
  _estimate_tokens s = Z.max 1 ((Z.of_nat (String.length s) + 3) / 4).
Proof.
  intros Hs. unfold _estimate_tokens.
  destruct (String.eqb_spec s ""); [contradiction | reflexivity].
Qed.

Lemma estimate_nonneg (s : string) : (0 <= _estimate_tokens s)%Z.
Proof.
  unfold _estimate_tokens. destruct (String.eqb s ""); lia.
Qed.

Lemma length_zero_empty (s : string) : String.length s = 0%nat -> s = "".
Proof. destruct s; simpl; [reflexivity | discriminate]. Qed.

(** C8: the estimator gives 0 on the empty text, [max(1, ceil(len/4))] on
    any other text, and never decreases when the text gets longer. *)
Theorem C8_estimate_tokens :
  _estimate_tokens "" = 0%Z
  /\ (forall s : string,
         s <> "" ->
         _estimate_tokens s
         = Z.max 1 (ceil_div4 (Z.of_nat (String.length s))))
  /\ (forall s1 s2 : string,
         (String.length s1 <= String.length s2)%nat ->
         (_estimate_tokens s1 <= _estimate_tokens s2)%Z).
Proof.
  split; [reflexivity | split].
  - intros s Hs. rewrite (estimate_nonempty s Hs).
    rewrite ceil_div4_add3 by lia. reflexivity.
  - intros s1 s2 Hlen.
    destruct (String.eqb_spec s1 "") as [E1 | E1].
    + subst s1. apply estimate_nonneg.
    + assert (E2 : s2 <> "").
      { intros ->. apply E1, length_zero_empty. simpl in Hlen. lia. }
      rewrite (estimate_nonempty s1 E1), (estimate_nonempty s2 E2).
      apply Z.max_le_compat_l.
      apply Z.div_le_mono; lia.
Qed.

Lemma C8_estimate_tokens_witness :
  _estimate_tokens "hello" = Z.max 1 (ceil_div4 5)
  /\ (_estimate_tokens "hi" <= _estimate_tokens "hello")%Z.
Proof.
  destruct C8_estimate_tokens as (_ & Hceil & Hmono).
  split.
  - apply (Hceil "hello"). discriminate.
  - apply (Hmono "hi" "hello"). simpl. lia.
Defined.

(** ** Dictionaries and text: basic facts *)

Lemma append_nil_r (s : string) : s +++ "" = s.
Proof. induction s as [| c s IH]; simpl; [reflexivity | now rewrite IH]. Qed.

Lemma append_assoc (a b c : string) : (a +++ b) +++ c = a +++ (b +++ c).
Proof. induction a as [| x a IH]; simpl; [reflexivity | now rewrite IH]. Qed.

Section DictFacts.

Context {V : Type}.
Implicit Types (d : odict V) (k : string) (f g : V -> V).

Lemma dict_get_set_same d k (v : V) : dict_get (dict_set d k v) k = Some v.
Proof.
  induction d as [| [k' v'] d IH]; simpl.
  - now rewrite String.eqb_refl.
  - destruct (String.eqb k' k) eqn:E; simpl; rewrite E; [reflexivity | exact IH].
Qed.

Lemma dict_get_update d k f :
  dict_get (dict_update d k f) k = option_map f (dict_get d k).
Proof.
  induction d as [| [k' v'] d IH]; simpl; [reflexivity |].
  destruct (String.eqb k' k) eqn:E; simpl; rewrite E; [reflexivity | exact IH].
Qed.

Lemma dict_has_update d k f : dict_has (dict_update d k f) k = dict_has d k.
Proof.
  unfold dict_has. rewrite dict_get_update. now destruct (dict_get d k).
Qed.

Lemma dict_update_update d k f g :
  dict_update (dict_update d k f) k g = dict_update d k (fun v => g (f v)).
Proof.
  induction d as [| [k' v'] d IH]; simpl; [reflexivity |].
  destruct (String.eqb k' k) eqn:E; simpl; rewrite E;
    [reflexivity | now rewrite IH].
Qed.

Lemma dict_update_ext_at d k f g (b : V) :
  dict_get d k = Some b -> f b = g b -> dict_update d k f = dict_update d k g.
Proof.
  induction d as [| [k' v'] d IH]; simpl; [reflexivity |].
  destruct (String.eqb k' k) eqn:E; intros Hget Hfg.
  - injection Hget as ->. now rewrite Hfg.
  - now rewrite (IH Hget Hfg).
Qed.

Lemma dict_update_ext d k f g :
  (forall v, f v = g v) -> dict_update d k f = dict_update d k g.
Proof.
  intros Hfg. induction d as [| [k' v'] d IH]; simpl; [reflexivity |].
  destruct (String.eqb k' k); [now rewrite Hfg | now rewrite IH].
Qed.

Lemma dict_update_id d k f : (forall v, f v = v) -> dict_update d k f = d.
Proof.
  intros Hf. induction d as [| [k' v'] d IH]; simpl; [reflexivity |].
  destruct (String.eqb k' k); [now rewrite Hf | now rewrite IH].
Qed.

Lemma dict_update_keys d k f : map fst (dict_update d k f) = map fst d.
Proof.
  induction d as [| [k' v'] d IH]; simpl; [reflexivity |].
  destruct (String.eqb k' k); simpl; [reflexivity | now rewrite IH].
Qed.

End DictFacts.

(** ** Reassembly of fragmented tool calls *)

Section Reassembly.

Context {lib : PyLib}.

Lemma ensure_entry_has (buffer : odict fragment) (key : string) :
  dict_has (ensure_entry buffer key) key = true.
Proof.
  unfold ensure_entry. destruct (dict_has buffer key) eqn:E; [exact E |].
  unfold dict_has. now rewrite dict_get_set_same.
Qed.

Lemma ensure_entry_present (buffer : odict fragment) (key : string) :
  dict_has buffer key = true -> ensure_entry buffer key = buffer.
Proof. unfold ensure_entry. now intros ->. Qed.

Lemma fragment_eta (b : fragment) :
  Fragment (buf_id b) (buf_name b) (buf_args_str b) = b.
Proof. now destruct b. Qed.

Lemma reassemble_nil (b : fragment) : reassemble [] b = b.
Proof.
  unfold reassemble. simpl. rewrite append_nil_r. apply fragment_eta.
Qed.

Lemma reassemble_cons (tc : json) (fs : list json) (b : fragment) :
  reassemble (tc :: fs) b = reassemble fs (reassemble [tc] b).
Proof.
  unfold reassemble. simpl.
  rewrite append_nil_r, append_assoc.
  destruct (last_truthy (map carried_id fs)),
           (last_truthy (map carried_name fs)); reflexivity.
Qed.

(** One fragment: when the merge raises nothing, the buffer is the old
    one with the entry of the fragment's key made present and then
    updated by [reassemble]. *)
Lemma collect_tool_call_spec (buffer b' : odict fragment) (tc : json)
      (key : string) :
  fragment_key tc = Some key ->
  collect_tool_call buffer tc = Success b' ->
  b' = dict_update (ensure_entry buffer key) key (reassemble [tc]).
Proof.
  unfold fragment_key, collect_tool_call.
  destruct tc as [| | | | | d]; simpl; try discriminate.
  intros [= <-].
  fold (ensure_entry buffer (buffer_key (dict_get_default d "index" (JNum 0)))).
  set (key := buffer_key (dict_get_default d "index" (JNum 0))).
  set (E := ensure_entry buffer key).
  assert (HE : dict_has E key = true) by apply ensure_entry_has.
  unfold reassemble, carried_id, carried_name, carried_arguments,
    function_field. simpl.
  destruct (dict_get_default d "function" (JObj [])) as [| | | | | f];
    simpl; try discriminate.
  set (i := dict_get_default d "id" JNull).
  set (n := dict_get_default f "name" JNull).
  set (a := dict_get_default f "arguments" JNull).
  set (B1 := if truthy i then dict_update E key (set_buf_id i) else E).
  set (B2 := if truthy n then dict_update B1 key (set_buf_name n) else B1).
  assert (H1 : B1 = dict_update E key
                 (fun b => Fragment (if truthy i then i else buf_id b)
                                    (buf_name b) (buf_args_str b))).
  { unfold B1. destruct (truthy i).
    - reflexivity.
    - symmetry. apply dict_update_id. apply fragment_eta. }
  assert (H2 : B2 = dict_update E key
                 (fun b => Fragment (if truthy i then i else buf_id b)
                                    (if truthy n then n else buf_name b)
                                    (buf_args_str b))).
  { unfold B2. rewrite H1. destruct (truthy n).
    - rewrite dict_update_update. reflexivity.
    - reflexivity. }
  assert (Hshape : forall s,
             dict_update E key
               (fun b => Fragment (if truthy i then i else buf_id b)
                                  (if truthy n then n else buf_name b)
                                  (buf_args_str b +++ s))
             = dict_update E key
                 (fun b =>
                    Fragment
                      match (if truthy i then Some i else None) with
                      | Some v => v | None => buf_id b end
                      match (if truthy n then Some n else None) with
                      | Some v => v | None => buf_name b end
                      (buf_args_str b +++ s +++ ""))).
  { intros s. apply dict_update_ext. intros b.
    rewrite append_nil_r. now destruct (truthy i), (truthy n). }
  destruct (truthy a) eqn:Ta.
  - destruct (dict_get B2 key) as [b |] eqn:Hget.
    + destruct a as [| | | s | |]; simpl; try discriminate.
      intros [= <-]. rewrite <- Hshape.
      rewrite H2 in Hget |- *. rewrite dict_update_update.
      rewrite dict_get_update in Hget.
      destruct (dict_get E key) as [b0 |] eqn:HgetE; [| discriminate].
      simpl in Hget. injection Hget as <-.
      apply dict_update_ext_at with (b := b0); [exact HgetE | reflexivity].
    + exfalso. rewrite H2, dict_get_update in Hget.
      unfold dict_has in HE. destruct (dict_get E key); discriminate.
  - intros [= <-].
    assert (Ha : match a with JStr s => s | _ => "" end = "").
    { destruct a as [| | | s | |]; try reflexivity.
      simpl in Ta. destruct (String.eqb_spec s ""); [assumption | discriminate]. }
    rewrite Ha, <- Hshape. rewrite H2.
    apply dict_update_ext. intros b. now rewrite append_nil_r.
Qed.

Lemma collect_tool_call_has (buffer b' : odict fragment) (tc : json)
      (key : string) :
  fragment_key tc = Some key ->
  collect_tool_call buffer tc = Success b' ->
  dict_has b' key = true.
Proof.
  intros Hk Hc. rewrite (collect_tool_call_spec _ _ _ _ Hk Hc).
  rewrite dict_has_update. apply ensure_entry_has.
Qed.

(** A non-empty run of fragments of one key. *)
Lemma collect_tool_calls_spec (fs : list json) :
  forall (buffer b' : odict fragment) (key : string),
    fs <> [] ->
    Forall (fun tc => fragment_key tc = Some key) fs ->
    collect_tool_calls buffer fs = Success b' ->
    b' = dict_update (ensure_entry buffer key) key (reassemble fs).
Proof.
  induction fs as [| tc rest IH]; intros buffer b' key Hne Hall Hrun;
    [contradiction |].
  inversion Hall as [| ? ? Hk Hrest]; subst.
  simpl in Hrun.
  destruct (collect_tool_call buffer tc) as [b1 |] eqn:H1; [| discriminate].
  simpl in Hrun.
  pose proof (collect_tool_call_spec _ _ _ _ Hk H1) as Hb1.
  destruct rest as [| tc2 rest'].
  - simpl in Hrun. injection Hrun as <-. exact Hb1.
  - rewrite (IH b1 b' key ltac:(discriminate) Hrest Hrun).
    rewrite ensure_entry_present
      by exact (collect_tool_call_has _ _ _ _ Hk H1).
    rewrite Hb1, dict_update_update.
    apply dict_update_ext. intros b. symmetry. apply reassemble_cons.
Qed.

(** C2: two fragmentations of one call (same key, neither empty), merged
    into the same buffer without a type error, whose arguments
    substrings concatenate to the same text and whose last non-empty id
    and name agree, leave the same entry under the key; the whole
    buffers are equal. *)
Theorem C2_fragmentation_invariance
        (buffer b1 b2 : odict fragment) (key : string) (fs1 fs2 : list json) :
  fs1 <> [] -> fs2 <> [] ->
  Forall (fun tc => fragment_key tc = Some key) fs1 ->
  Forall (fun tc => fragment_key tc = Some key) fs2 ->
  collect_tool_calls buffer fs1 = Success b1 ->
  collect_tool_calls buffer fs2 = Success b2 ->
  join (map carried_arguments fs1) = join (map carried_arguments fs2) ->
  last_truthy (map carried_id fs1) = last_truthy (map carried_id fs2) ->
  last_truthy (map carried_name fs1) = last_truthy (map carried_name fs2) ->
  b1 = b2
  /\ exists entry : fragment,
      dict_get b1 key = Some entry /\ dict_get b2 key = Some entry.
Proof.
  intros Hne1 Hne2 Hk1 Hk2 Hrun1 Hrun2 Hargs Hid Hname.
  pose proof (collect_tool_calls_spec fs1 _ _ _ Hne1 Hk1 Hrun1) as E1.
  pose proof (collect_tool_calls_spec fs2 _ _ _ Hne2 Hk2 Hrun2) as E2.
  assert (Heq : b1 = b2).
  { rewrite E1, E2. apply dict_update_ext. intros b.
    unfold reassemble. now rewrite Hargs, Hid, Hname. }
  split; [exact Heq |].
  rewrite <- Heq. clear Heq E2 Hrun1 Hrun2. subst b1. rewrite dict_get_update.
  pose proof (ensure_entry_has buffer key) as Hhas. unfold dict_has in Hhas.
  destruct (dict_get (ensure_entry buffer key) key) as [b0 |];
    [| discriminate].
  exists (reassemble fs1 b0). split; reflexivity.
Qed.

End Reassembly.

(** ** Rules for [sat] *)

Section SatRules.

Context {A B : Type}.
Variable env : Env.
Variable NF : Prop.

Lemma sat_ret (G : St -> St -> Prop) (Q : A -> Prop) (a : A) :
  (forall st, G st st) -> Q a -> sat env NF G Q (ret a).
Proof.
  intros Hrefl Ha st. unfold ret. simpl. repeat split.
  - apply Hrefl.
  - now intros a' [= <-].
  - discriminate.
Qed.

Lemma sat_raise (G : St -> St -> Prop) (Q : A -> Prop) (e : exn) :
  (forall st, G st st) -> sat env NF G Q (raise e).
Proof.
  intros Hrefl st. unfold raise. simpl. repeat split.
  - apply Hrefl.
  - discriminate.
  - discriminate.
Qed.

Lemma sat_lift (G : St -> St -> Prop) (Q : A -> Prop) (r : result A) :
  (forall st, G st st) -> (forall a, r = Success a -> Q a) ->
  sat env NF G Q (lift r).
Proof.
  intros Hrefl Hr. destruct r as [a | e]; simpl.
  - apply sat_ret; auto.
  - now apply sat_raise.
Qed.

Lemma sat_weaken (G G' : St -> St -> Prop) (Q Q' : A -> Prop) (m : M A) :
  (forall s s', G s s' -> G' s s') -> (forall a, Q a -> Q' a) ->
  sat env NF G Q m -> sat env NF G' Q' m.
Proof.
  intros HG HQ Hm st. destruct (Hm st) as (H1 & H2 & H3).
  repeat split; auto.
Qed.

Lemma sat_bind_gen (R1 R2 R3 : St -> St -> Prop) (P : A -> Prop)
      (Q : B -> Prop) (m : M A) (k : A -> M B) :
  (forall s s', R1 s s' -> R3 s s') ->
  (forall s s' s'', R1 s s' -> R2 s' s'' -> R3 s s'') ->
  sat env NF R1 P m -> (forall a, P a -> sat env NF R2 Q (k a)) ->
  sat env NF R3 Q (bind m k).
Proof.
  intros Hsub Hcomp Hm Hk st. unfold bind.
  destruct (Hm st) as (H1 & H2 & H3).
  destruct (m env st) as [[a | e |] st1]; simpl in *.
  - destruct (Hk a (H2 a eq_refl) st1) as (K1 & K2 & K3).
    repeat split; eauto.
  - repeat split; [auto | discriminate | intros _; discriminate].
  - repeat split; [auto | discriminate |].
    intros HNF. exfalso. now apply (H3 HNF).
Qed.

End SatRules.

Lemma sat_try_gen {A} (env : Env) (NF : Prop) (R1 R2 R3 : St -> St -> Prop)
      (Q : A -> Prop) (m : M A) (h : exn -> M A) :
  (forall s s', R1 s s' -> R3 s s') ->
  (forall s s' s'', R1 s s' -> R2 s' s'' -> R3 s s'') ->
  sat env NF R1 Q m -> (forall e, sat env NF R2 Q (h e)) ->
  sat env NF R3 Q (try_except m h).
Proof.
  intros Hsub Hcomp Hm Hh st. unfold try_except.
  destruct (Hm st) as (H1 & H2 & H3).
  destruct (m env st) as [[a | e |] st1]; simpl in *.
  - repeat split; auto.
  - destruct (Hh e st1) as (K1 & K2 & K3). repeat split; eauto.
  - repeat split; auto.
Qed.

(** The loop, unfolded once. *)
Lemma read_loop_nil {lib : PyLib} recurse body max_iterations request_id pte
      (tail : option exn) (l : locals) :
  read_loop recurse body max_iterations request_id pte [] tail l
  = match tail with
    | None => ret tt
    | Some e => raise e
    end.
Proof. reflexivity. Qed.

Lemma read_loop_cons {lib : PyLib} recurse body max_iterations request_id pte
      (line : string) (rest : list string) (tail : option exn) (l : locals) :
  read_loop recurse body max_iterations request_id pte (line :: rest) tail l
  = if String.eqb line "" then ret tt
    else if startswith (strip line) "data:" then
      if String.eqb (strip (drop 5 (strip line))) "[DONE]"
      then at_done recurse body max_iterations request_id pte line l
      else
        l' <- match json_loads (strip (drop 5 (strip line))) with
              | Some chunk => process_chunk request_id pte chunk l
              | None => ret l
              end ;;
        ok <- _write (Raw line) ;;
        if ok
        then read_loop recurse body max_iterations request_id pte rest tail l'
        else ret tt
    else
      ok <- _write (Raw line) ;;
      if ok
      then read_loop recurse body max_iterations request_id pte rest tail l
      else ret tt.
Proof. reflexivity. Qed.

(** ** A walk through one turn, generic in what may be written

    [G] is what the steps of a turn guarantee between two histories, [H]
    what the continuation (the recursive call) guarantees; [allowed] says
    which data may be handed to [_write], and [J] is an invariant of
    [last_usage]. Each property of a turn proved below is an instance. *)

Section Walk.

Context {lib : PyLib}.
Variable env : Env.
Variable NF : Prop.
Variables G H : St -> St -> Prop.
Hypothesis G_refl : forall s, G s s.
Hypothesis G_trans : forall a b c, G a b -> G b c -> G a c.
Hypothesis G_H : forall a b, G a b -> H a b.
Hypothesis GH_H : forall a b c, G a b -> H b c -> H a c.
Hypothesis HG_H : forall a b c, H a b -> G b c -> H a c.

Variable allowed : wdata -> Prop.
Variable J : option usage_stats -> Prop.

Hypothesis write_G :
  forall d st, allowed d -> G st (snd (_write d env st)).
Hypothesis time_G : forall st, G st (snd (time_time env st)).
Hypothesis log_G : forall n a st, G st (snd (log_execution n a env st)).
Hypothesis host_G : forall op st, G st (snd (host_effect op env st)).

Variable recurse : dict -> bool -> Z -> M unit.
Variables (body : dict) (max_iterations : Z) (request_id : string).
Variable _prompt_tokens_estimate : Z.

Hypothesis recurse_H :
  forall b, sat env NF H (fun _ => True) (recurse b false (max_iterations - 1)).

Hypothesis estimate_allowed :
  J None ->
  forall p c t, allowed (Event (usage_event p c t true (Some request_id))).
Hypothesis final_allowed :
  forall u, J (Some u) ->
    allowed (Event (usage_event (prompt_tokens u) (completion_tokens u)
                                (total_tokens u) (estimated u)
                                (Some request_id))).
Hypothesis captured_J :
  forall p c t,
    J (Some {| prompt_tokens := p; completion_tokens := c;
               total_tokens := t; estimated := false |}).
Hypothesis tool_execution_allowed :
  forall buf args, allowed (Event (tool_execution_event buf args)).
Hypothesis tool_result_allowed :
  forall buf args result, allowed (Event (tool_result_event buf args result)).
Hypothesis continuation_allowed :
  allowed (Event (continuation_event request_id)).
Hypothesis followup_error_allowed :
  forall msg, allowed (Event (error_event msg "upstream" request_id)).
Hypothesis done_allowed : allowed DoneLiteral.
Hypothesis raw_allowed : forall line, allowed (Raw line).

Local Ltac bindG :=
  eapply (sat_bind_gen env NF G G G); [ now auto | exact G_trans | | ].
Local Ltac bindGH :=
  eapply (sat_bind_gen env NF G H H); [ exact G_H | exact GH_H | | ].
Local Ltac retG := apply sat_ret; [ exact G_refl | ].
Local Ltac liftG := apply sat_lift; [ exact G_refl | ].

Lemma write_sat (d : wdata) :
  allowed d -> sat env NF G (fun _ => True) (_write d).
Proof.
  intros Hd st. repeat split.
  - now apply write_G.
  - discriminate.
Qed.

Lemma send_event_sat (e : json) :
  allowed (Event e) -> sat env NF G (fun _ => True) (_send_event e).
Proof. apply write_sat. Qed.

Lemma time_sat : sat env NF G (fun _ => True) time_time.
Proof.
  intros st. repeat split.
  - apply time_G.
  - discriminate.
Qed.

Lemma log_sat (n a : json) : sat env NF G (fun _ => True) (log_execution n a).
Proof.
  intros st. repeat split.
  - apply log_G.
  - discriminate.
Qed.

Lemma host_sat (op : host_op) : sat env NF G (fun _ => True) (host_effect op).
Proof.
  intros st. repeat split.
  - apply host_G.
  - discriminate.
Qed.

Lemma maybe_emit_sat (force : bool) (l : locals) :
  J (last_usage l) ->
  sat env NF G (fun l' => last_usage l' = last_usage l)
      (_maybe_emit_usage_estimate request_id _prompt_tokens_estimate force l).
Proof.
  intros HJ. unfold _maybe_emit_usage_estimate.
  destruct (last_usage l) as [u |] eqn:E.
  - retG. exact E.
  - bindG; [apply time_sat | intros now _].
    destruct (negb force && (now - _last_usage_emit_ts l <? 750000)%Z).
    + retG. exact E.
    + bindG; [apply send_event_sat, estimate_allowed, HJ | intros _ _].
      retG. exact E.
Qed.

Lemma run_shell_command_sat (args : json) :
  sat env NF G (fun _ => True) (_run_shell_command args).
Proof.
  unfold _run_shell_command.
  bindG; [liftG; intros; exact I | intros command _].
  destruct (negb (truthy command)); [now retG | apply host_sat].
Qed.

Lemma set_shell_config_sat (args : json) :
  sat env NF G (fun _ => True) (_set_shell_config args).
Proof.
  unfold _set_shell_config.
  bindG; [liftG; intros; exact I | intros key _].
  bindG; [liftG; intros; exact I | intros value _].
  destruct (negb (truthy key) || is_None value); [now retG | apply host_sat].
Qed.

Lemma execute_tool_sat (tool_name args : json) :
  sat env NF G (fun _ => True) (execute_tool tool_name args).
Proof.
  unfold execute_tool.
  bindG; [apply log_sat | intros _ _].
  destruct (is_str tool_name "run_shell_command");
    [apply run_shell_command_sat |].
  destruct (is_str tool_name "get_shell_config"); [apply host_sat |].
  destruct (is_str tool_name "set_shell_config");
    [apply set_shell_config_sat |].
  destruct (is_str tool_name "switch_to_search_mode"); now retG.
Qed.

Lemma run_tool_calls_sat (items : list (string * fragment)) :
  forall (l : locals) (tool_results : odict dict),
    J (last_usage l) ->
    sat env NF G (fun r => last_usage (fst r) = last_usage l)
        (run_tool_calls request_id _prompt_tokens_estimate
                        items l tool_results).
Proof.
  induction items as [| [key buf] rest IH]; intros l tool_results HJ; simpl.
  - now retG.
  - destruct (truthy (buf_name buf)); [| now apply IH].
    bindG; [apply send_event_sat, tool_execution_allowed | intros _ _].
    bindG; [apply maybe_emit_sat; exact HJ | intros l1 E1; simpl in E1].
    bindG; [apply execute_tool_sat | intros result _].
    bindG; [apply send_event_sat, tool_result_allowed | intros _ _].
    bindG; [apply maybe_emit_sat; rewrite E1; exact HJ | intros l2 E2].
    eapply sat_weaken; [ | | apply IH ]; auto.
    + intros r ->. congruence.
    + rewrite E2, E1. exact HJ.
Qed.

Lemma capture_usage_J (chunk : json) (l : locals) :
  J (last_usage l) -> J (last_usage (capture_usage chunk l)).
Proof.
  intros HJ. unfold capture_usage.
  destruct chunk as [| | | | | d]; auto.
  destruct (dict_get_default d "usage" JNull); auto.
  simpl. apply captured_J.
Qed.

Lemma process_chunk_sat (chunk : json) (l : locals) :
  J (last_usage (capture_usage chunk l)) ->
  sat env NF G (fun l' => last_usage l' = last_usage (capture_usage chunk l))
      (process_chunk request_id _prompt_tokens_estimate chunk l).
Proof.
  intros HJ. unfold process_chunk.
  set (l0 := capture_usage chunk l) in *.
  bindG; [liftG; intros; exact I | intros choices _].
  bindG; [liftG; intros; exact I | intros choice _].
  bindG; [liftG; intros; exact I | intros delta _].
  bindG; [liftG; intros; exact I | intros content _].
  eapply (sat_bind_gen env NF G G G) with (P := fun l' => last_usage l' = last_usage l0);
    [now auto | exact G_trans | | intros l1 E1].
  { destruct (truthy content); [| now retG].
    bindG; [liftG; intros; exact I | intros s _]. now retG. }
  bindG; [liftG; intros; exact I | intros reasoning _].
  eapply (sat_bind_gen env NF G G G) with (P := fun l' => last_usage l' = last_usage l0);
    [now auto | exact G_trans | | intros l2 E2].
  { destruct (truthy reasoning); [| now retG].
    bindG; [liftG; intros; exact I | intros s _]. now retG. }
  bindG; [apply maybe_emit_sat; rewrite E2; exact HJ | intros l3 E3].
  simpl in E3.
  bindG; [liftG; intros; exact I | intros tool_calls _].
  destruct (truthy tool_calls).
  - bindG; [liftG; intros; exact I | intros tcs _].
    bindG; [liftG; intros; exact I | intros buffer _].
    retG. simpl. congruence.
  - retG. congruence.
Qed.

Lemma finish_without_tools_sat (line : string) (l : locals) :
  J (last_usage l) ->
  sat env NF G (fun _ => True)
      (finish_without_tools body request_id line l).
Proof.
  intros HJ. unfold finish_without_tools.
  bindG; [apply send_event_sat | intros _ _].
  - destruct (last_usage l) as [u |]; simpl.
    + now apply final_allowed.
    + now apply estimate_allowed.
  - bindG; [apply write_sat, raw_allowed | intros _ _]. now retG.
Qed.

Lemma continue_with_tools_sat (l : locals) :
  J (last_usage l) ->
  sat env NF H (fun _ => True)
      (continue_with_tools recurse body max_iterations request_id
                           _prompt_tokens_estimate l).
Proof.
  intros HJ. unfold continue_with_tools.
  bindGH; [apply run_tool_calls_sat; exact HJ | intros [l1 tool_results] E1].
  simpl in E1.
  bindGH; [liftG; intros; exact I | intros messages _].
  bindGH; [liftG; intros; exact I | intros messages' _].
  eapply (sat_try_gen env NF H G H); [ auto | exact HG_H | | ].
  - bindGH; [apply send_event_sat, continuation_allowed | intros _ _].
    eapply (sat_bind_gen env NF G H H) with (P := fun _ => True);
      [exact G_H | exact GH_H | | intros _ _; apply recurse_H].
    destruct (last_usage l1) as [u |] eqn:E; [now retG |].
    bindG; [apply send_event_sat, estimate_allowed | intros _ _; now retG].
    rewrite E1. exact HJ.
  - intros e. unfold followup_failed.
    destruct (is_ProxyError e); [| now apply sat_raise].
    bindG; [apply send_event_sat, followup_error_allowed | intros _ _].
    bindG; [apply write_sat, done_allowed | intros _ _]. now retG.
Qed.

Lemma at_done_sat (line : string) (l : locals) :
  J (last_usage l) ->
  sat env NF H (fun _ => True)
      (at_done recurse body max_iterations request_id
               _prompt_tokens_estimate line l).
Proof.
  intros HJ. unfold at_done.
  destruct (tool_call_buffer l).
  - eapply sat_weaken; [exact G_H | | apply finish_without_tools_sat]; auto.
  - now apply continue_with_tools_sat.
Qed.

Lemma read_loop_sat (lines : list string) (tail : option exn) :
  forall l : locals,
    J (last_usage l) ->
    sat env NF H (fun _ => True)
        (read_loop recurse body max_iterations request_id
                   _prompt_tokens_estimate lines tail l).
Proof.
  assert (H_refl : forall s, H s s) by (intros s; apply G_H, G_refl).
  induction lines as [| line rest IH]; intros l HJ.
  - rewrite read_loop_nil.
    destruct tail; [now apply sat_raise | now apply sat_ret].
  - rewrite read_loop_cons.
    destruct (String.eqb line ""); [now apply sat_ret |].
    destruct (startswith (strip line) "data:").
    + destruct (String.eqb (strip (drop 5 (strip line))) "[DONE]").
      * now apply at_done_sat.
      * eapply (sat_bind_gen env NF G H H) with (P := fun l' => J (last_usage l'));
          [exact G_H | exact GH_H | | intros l1 HJ1].
        { destruct (json_loads (strip (drop 5 (strip line)))) as [chunk |].
          - eapply sat_weaken; [ | | apply process_chunk_sat ]; auto.
            + intros l' ->. now apply capture_usage_J.
            + now apply capture_usage_J.
          - now retG. }
        bindGH; [apply write_sat, raw_allowed | intros ok _].
        destruct ok; [now apply IH | now apply sat_ret].
    + bindGH; [apply write_sat, raw_allowed | intros ok _].
      destruct ok; [now apply IH | now apply sat_ret].
Qed.

End Walk.

(** ** What a turn writes *)

Section Wrote.

Variable allowed : wdata -> Prop.

Lemma wrote_refl (st : St) : wrote allowed st st.
Proof. exists []. split; [now rewrite app_nil_r | constructor]. Qed.

Lemma wrote_trans (a b c : St) :
  wrote allowed a b -> wrote allowed b c -> wrote allowed a c.
Proof.
  intros (n1 & E1 & F1) (n2 & E2 & F2). exists (n1 ++ n2). split.
  - now rewrite E2, E1, app_assoc.
  - apply Forall_app. now split.
Qed.

Lemma wrote_same (st st' : St) :
  written st' = written st -> wrote allowed st st'.
Proof. intros E. exists []. split; [now rewrite app_nil_r | constructor]. Qed.

Lemma write_wrote (env : Env) (d : wdata) (st : St) :
  allowed d -> wrote allowed st (snd (_write d env st)).
Proof.
  intros Hd. exists [(d, wfile_ok env (List.length (written st)) d)].
  split; [reflexivity | now repeat constructor].
Qed.

End Wrote.

(** The turn's own events after upstream usage was seen. *)
Section AfterUsage.

Context {lib : PyLib}.
Variable env : Env.
Variable recurse : dict -> bool -> Z -> M unit.
Variables (body : dict) (max_iterations : Z) (request_id : string).
Variable _prompt_tokens_estimate : Z.
Hypothesis recurse_silent : silent recurse.

Lemma recurse_quiet (b : dict) (f : bool) (m : Z) :
  sat env False (wrote quiet) (fun _ => True) (recurse b f m).
Proof.
  intros st. repeat split.
  - apply wrote_same, recurse_silent.
  - intros [].
Qed.

(** Once [last_usage] holds upstream usage, the rest of the loop writes
    no estimated usage event. *)
Lemma read_loop_quiet (lines : list string) (tail : option exn) (l : locals) :
  authoritative (last_usage l) ->
  sat env False (wrote quiet) (fun _ => True)
      (read_loop recurse body max_iterations request_id
                 _prompt_tokens_estimate lines tail l).
Proof.
  intros Hl.
  apply (read_loop_sat env False (wrote quiet) (wrote quiet))
    with (allowed := quiet) (J := authoritative);
    try (intros; reflexivity); auto.
  - apply wrote_refl.
  - apply wrote_trans.
  - apply wrote_trans.
  - apply wrote_trans.
  - intros d st Hd. now apply write_wrote.
  - intros st. now apply wrote_same.
  - intros n a st. now apply wrote_same.
  - intros op st. now apply wrote_same.
  - intros b. apply recurse_quiet.
  - intros (u & [=] & _).
  - intros u (u' & [= <-] & Hu). unfold quiet, is_estimated_usage.
    simpl. now rewrite Hu.
  - intros p c t. now eexists.
Qed.

Lemma process_chunk_quiet (chunk : json) (l : locals) :
  authoritative (last_usage (capture_usage chunk l)) ->
  sat env False (wrote quiet)
      (fun l' => last_usage l' = last_usage (capture_usage chunk l))
      (process_chunk request_id _prompt_tokens_estimate chunk l).
Proof.
  intros Hl.
  apply (process_chunk_sat env False (wrote quiet))
    with (allowed := quiet) (J := authoritative); auto.
  - apply wrote_refl.
  - apply wrote_trans.
  - intros d st Hd. now apply write_wrote.
  - intros st. now apply wrote_same.
  - intros (u & [=] & _).
Qed.

End AfterUsage.

(** C5: once a chunk that carries an upstream usage object is processed,
    the turn writes no usage event with [estimated: true] any more: not
    while that chunk is processed, and not on any later path of the turn
    (throttled and forced estimates, the estimate before the
    continuation, the final usage event at [DONE]). The writes are those
    of the turn itself: the continuation is taken silent. *)
Theorem C5_no_estimate_after_usage {lib : PyLib} (env : Env)
        (recurse : dict -> bool -> Z -> M unit) (body : dict)
        (max_iterations : Z) (request_id : string)
        (_prompt_tokens_estimate : Z)
        (line : string) (rest : list string) (tail : option exn)
        (l : locals) (d u : dict) (st : St) :
  silent recurse ->
  line <> "" ->
  startswith (strip line) "data:" = true ->
  strip (drop 5 (strip line)) <> "[DONE]" ->
  json_loads (strip (drop 5 (strip line))) = Some (JObj d) ->
  dict_get_default d "usage" JNull = JObj u ->
  exists new : list (wdata * bool),
    written (snd (read_loop recurse body max_iterations request_id
                            _prompt_tokens_estimate (line :: rest) tail l
                            env st))
    = written st ++ new
    /\ Forall (fun w => is_estimated_usage (fst w) = false) new.
Proof.
  intros Hsilent Hline Hdata Hdone Hloads Husage.
  rewrite read_loop_cons.
  destruct (String.eqb_spec line ""); [contradiction |].
  rewrite Hdata.
  destruct (String.eqb_spec (strip (drop 5 (strip line))) "[DONE]");
    [contradiction |].
  rewrite Hloads.
  assert (Hcap : exists v, last_usage (capture_usage (JObj d) l) = Some v
                           /\ estimated v = false).
  { unfold capture_usage. rewrite Husage. simpl. now eexists. }
  assert (Hsat : sat env False (wrote quiet) (fun _ : unit => True)
    (l' <- process_chunk request_id _prompt_tokens_estimate (JObj d) l ;;
     ok <- _write (Raw line) ;;
     if ok
     then read_loop recurse body max_iterations request_id
                    _prompt_tokens_estimate rest tail l'
     else ret tt)).
  { eapply (sat_bind_gen env False (wrote quiet) (wrote quiet) (wrote quiet));
      [ now auto | apply wrote_trans
      | apply process_chunk_quiet; exact Hcap | intros l1 E1 ].
    eapply (sat_bind_gen env False (wrote quiet) (wrote quiet) (wrote quiet))
      with (P := fun _ => True);
      [ now auto | apply wrote_trans | | intros ok _ ].
    - intros s. repeat split; [| discriminate].
      apply write_wrote. reflexivity.
    - destruct ok.
      + apply read_loop_quiet; [exact Hsilent | now rewrite E1].
      + apply sat_ret; [apply wrote_refl | exact I]. }
  exact (proj1 (Hsat st)).
Qed.

(** The events of one invocation and its request id. *)
Section Correlated.

Context {lib : PyLib}.
Variable env : Env.
Variable recurse : dict -> bool -> Z -> M unit.
Variables (body : dict) (max_iterations : Z) (request_id : string).
Variable _prompt_tokens_estimate : Z.
Hypothesis recurse_silent : silent recurse.

Local Abbreviation tagged := (carries_request_id request_id).

Lemma stream_tagged (lines : list string) (tail : option exn) :
  sat env False (wrote tagged) (fun _ => True)
      (try_except
         (read_loop recurse body max_iterations request_id
                    _prompt_tokens_estimate lines tail initial_locals)
         (streaming_failed request_id)).
Proof.
  assert (Hw : forall d st, tagged d -> wrote tagged st (snd (_write d env st)))
    by (intros d st Hd; now apply write_wrote).
  eapply (sat_try_gen env False (wrote tagged) (wrote tagged) (wrote tagged));
    [ now auto | apply wrote_trans | | ].
  - apply (read_loop_sat env False (wrote tagged) (wrote tagged))
      with (allowed := tagged) (J := fun _ => True);
      try (intros; exact I);
      try (intros; intros v; simpl; intros [= <-]; reflexivity);
      try (intros; intros v; simpl; discriminate);
      auto.
    + apply wrote_refl.
    + apply wrote_trans.
    + apply wrote_trans.
    + apply wrote_trans.
    + intros st. now apply wrote_same.
    + intros n a st. now apply wrote_same.
    + intros op st. now apply wrote_same.
    + intros b st. repeat split; [| intros []].
      apply wrote_same, recurse_silent.
  - intros e. unfold streaming_failed.
    eapply (sat_bind_gen env False (wrote tagged) (wrote tagged) (wrote tagged))
      with (P := fun _ => True);
      [ now auto | apply wrote_trans | | intros _ _ ].
    + intros st. repeat split; [| discriminate].
      apply Hw. intros v. simpl. now intros [= <-].
    + apply sat_ret; [apply wrote_refl | exact I].
Qed.

End Correlated.

(** ** The prologue of an invocation *)

(** Past the budget check, an invocation reads the clock, sends the
    headers if it has to, sends the request, and goes on from there. *)
Lemma past_budget_check {lib : PyLib} (env : Env)
      (recurse : dict -> bool -> Z -> M unit) (body : dict) (is_first : bool)
      (max_iterations : Z) (st : St) :
  (0 < override_budget (env_max env) max_iterations)%Z ->
  exists (hs : bool) (hc : nat),
    handle_streaming_body recurse body is_first max_iterations env st
    = let body' := inject_tools body in
      let request_id := request_id_of (clock env (clock_reads st)) in
      match upstream env (List.length (requests st)) body' with
      | UpstreamFails message =>
          report_upstream_failure body' request_id message
                                  env (after_request body' hs hc st)
      | UpstreamStream lines tail =>
          try_except
            (read_loop recurse body'
                       (override_budget (env_max env) max_iterations)
                       request_id (_estimate_tokens (prompt_text_of body'))
                       lines tail initial_locals)
            (streaming_failed request_id)
            env (after_request body' hs hc st)
      end.
Proof.
  intros Hpos. unfold handle_streaming_body, bind, getenv_max. simpl.
  destruct (Z.leb_spec (override_budget (env_max env) max_iterations) 0);
    [lia |].
  unfold maybe_send_headers, request_chat_completions, after_request. simpl.
  destruct (is_first && send_headers env && negb (_headers_sent st)); simpl;
    do 2 eexists;
    destruct (upstream env (List.length (requests st)) (inject_tools body));
    reflexivity.
Qed.

Lemma below_budget_check {lib : PyLib} (env : Env)
      (recurse : dict -> bool -> Z -> M unit) (body : dict) (is_first : bool)
      (max_iterations : Z) (st : St) :
  (override_budget (env_max env) max_iterations <= 0)%Z ->
  handle_streaming_body recurse body is_first max_iterations env st
  = report_budget_exhausted body env st.
Proof.
  intros Hle. unfold handle_streaming_body, bind, getenv_max. simpl.
  destruct (Z.leb_spec (override_budget (env_max env) max_iterations) 0);
    [reflexivity | lia].
Qed.

(** What the two early exits write. *)
Lemma report_budget_exhausted_run {lib : PyLib} (body : dict) (env : Env)
      (st : St) :
  exists ok1 ok2 ok3 : bool,
    report_budget_exhausted body env st
    = (Ok tt,
       {| clock_reads := clock_reads st;
          written :=
            written st
            ++ [ (Event (usage_event
                           (JNum (_estimate_tokens (prompt_text_of body)))
                           (JNum 0)
                           (JNum (_estimate_tokens (prompt_text_of body)))
                           true None), ok1);
                 (Event (JObj [("type", JStr "error");
                               ("message", JStr max_iterations_message)]), ok2);
                 (DoneLiteral, ok3) ];
          requests := requests st; executed := executed st;
          host_ops := host_ops st; _headers_sent := _headers_sent st;
          header_calls := header_calls st |}).
Proof.
  unfold report_budget_exhausted, bind, _send_error, _send_event, _write, ret.
  simpl. rewrite <- !app_assoc. simpl. do 3 eexists. reflexivity.
Qed.

Lemma report_upstream_failure_run {lib : PyLib} (body : dict)
      (request_id message : string) (env : Env) (st : St) :
  exists ok1 ok2 ok3 : bool,
    report_upstream_failure body request_id message env st
    = (Ok tt,
       {| clock_reads := clock_reads st;
          written :=
            written st
            ++ [ (Event (usage_event
                           (JNum (_estimate_tokens (prompt_text_of body)))
                           (JNum 0)
                           (JNum (_estimate_tokens (prompt_text_of body)))
                           true (Some request_id)), ok1);
                 (Event (JObj [("type", JStr "error");
                               ("message", JStr message)]), ok2);
                 (DoneLiteral, ok3) ];
          requests := requests st; executed := executed st;
          host_ops := host_ops st; _headers_sent := _headers_sent st;
          header_calls := header_calls st |}).
Proof.
  unfold report_upstream_failure, bind, _send_error, _send_event, _write, ret.
  simpl. rewrite <- !app_assoc. simpl. do 3 eexists. reflexivity.
Qed.

(** [hex(n)[2:]] is one-to-one on the integers: the digits of a count
    that is not negative tell it, and a negative count leaves an [x]
    before its digits. *)
Lemma to_hex_uint_nonnil (n : N) : N.to_hex_uint n <> Hexadecimal.Nil.
Proof.
  destruct n as [| p]; simpl.
  - discriminate.
  - apply HexadecimalPos.Unsigned.to_uint_nonnil.
Qed.

Lemma hex_digits_inj (n n' : N) : hex_digits n = hex_digits n' -> n = n'.
Proof.
  unfold hex_digits. intros E.
  apply HexadecimalN.Unsigned.to_uint_inj.
  pose proof (HexadecimalString.NilZero.usu _ (to_hex_uint_nonnil n)) as H.
  pose proof (HexadecimalString.NilZero.usu _ (to_hex_uint_nonnil n')) as H'.
  rewrite E in H. rewrite H' in H. now injection H.
Qed.

Lemma hex_digits_first (n : N) (s : string) : hex_digits n <> "x" +++ s.
Proof.
  unfold hex_digits.
  destruct (N.to_hex_uint n); simpl; discriminate.
Qed.

Lemma hex_tail_inj (m m' : Z) : hex_tail m = hex_tail m' -> m = m'.
Proof.
  unfold hex_tail.
  destruct (Z.ltb_spec m 0) as [Hm | Hm], (Z.ltb_spec m' 0) as [Hm' | Hm'];
    intros E.
  - injection E as E. apply hex_digits_inj in E. lia.
  - symmetry in E. now apply hex_digits_first in E.
  - now apply hex_digits_first in E.
  - apply hex_digits_inj in E. lia.
Qed.

(** Two readings give the same request id exactly when they give the same
    millisecond count. *)
Lemma request_id_of_eq (now now' : Z) :
  request_id_of now' = request_id_of now
  <-> Z.quot now' 1000 = Z.quot now 1000.
Proof.
  unfold request_id_of. split; [apply hex_tail_inj | now intros ->].
Qed.

(** C4 (as the code has it): the request id is made anew by every
    invocation of [handle_streaming] that gets past the budget check,
    from the clock reading taken at that moment; every event the
    invocation itself writes that carries a ["request_id"] carries that
    value. The id is not handed to the continuation, which makes its own
    from its own reading: the id of an invocation with another reading is
    the same exactly when the two millisecond counts are the same. *)
Theorem C4_request_id_per_invocation {lib : PyLib} (env : Env)
        (recurse : dict -> bool -> Z -> M unit) (body : dict)
        (is_first : bool) (max_iterations : Z) (st : St) :
  silent recurse ->
  (exists new : list (wdata * bool),
      written (snd (handle_streaming_body recurse body is_first max_iterations
                                          env st))
      = written st ++ new
      /\ Forall (fun w =>
                   carries_request_id
                     (request_id_of (clock env (clock_reads st))) (fst w)) new)
  /\ (forall now' : Z,
         request_id_of now' = request_id_of (clock env (clock_reads st))
         <-> Z.quot now' 1000 = Z.quot (clock env (clock_reads st)) 1000).
Proof.
  intros Hsilent. split; [| intros now'; apply request_id_of_eq].
  destruct (Z.leb_spec (override_budget (env_max env) max_iterations) 0)
    as [Hle | Hgt].
  - rewrite (below_budget_check _ _ _ _ _ _ Hle).
    destruct (report_budget_exhausted_run body env st)
      as (ok1 & ok2 & ok3 & ->).
    simpl. eexists. split; [reflexivity |].
    repeat constructor; intros v; simpl; discriminate.
  - destruct (past_budget_check env recurse body is_first max_iterations st Hgt)
      as (hs & hc & ->).
    cbv zeta.
    destruct (upstream env (List.length (requests st)) (inject_tools body))
      as [message | lines tail].
    + destruct (report_upstream_failure_run (inject_tools body)
                  (request_id_of (clock env (clock_reads st))) message env
                  (after_request (inject_tools body) hs hc st))
        as (ok1 & ok2 & ok3 & ->).
      simpl. eexists. split; [reflexivity |].
      repeat constructor; intros v; simpl;
        first [discriminate | now intros [= <-]].
    + destruct (stream_tagged env recurse (inject_tools body)
                  (override_budget (env_max env) max_iterations)
                  (request_id_of (clock env (clock_reads st)))
                  (_estimate_tokens (prompt_text_of (inject_tools body)))
                  Hsilent lines tail
                  (after_request (inject_tools body) hs hc st))
        as ((new & E & F) & _).
      exists new. split; [exact E | exact F].
Qed.

(** ** The call chain of [handle_streaming] *)

Lemma override_budget_unset (env_max : option Z) (max_iterations : Z) :
  (forall n, env_max = Some n -> (n <= 0)%Z) ->
  override_budget env_max max_iterations = max_iterations.
Proof.
  intros Hn. unfold override_budget. destruct env_max as [n |]; [| reflexivity].
  specialize (Hn n eq_refl). destruct (Z.ltb_spec 0 n); [lia | reflexivity].
Qed.

(** With a positive override in the environment every invocation starts
    from the override, whatever budget it was called with. *)
Lemma override_budget_set (n max_iterations : Z) :
  (0 < n)%Z -> override_budget (Some n) max_iterations = n.
Proof.
  intros Hn. unfold override_budget.
  destruct (Z.ltb_spec 0 n); [reflexivity | lia].
Qed.

(** The turn after the request sends no request of its own; all further
    requests are those of the continuation. *)
Lemma stream_requests {lib : PyLib} (env : Env)
      (recurse : dict -> bool -> Z -> M unit) (body : dict)
      (max_iterations : Z) (request_id : string) (pte : Z) (n : nat)
      (lines : list string) (tail : option exn) :
  (forall b, sat env True (requests_within n) (fun _ => True)
                 (recurse b false (max_iterations - 1)%Z)) ->
  sat env True (requests_within n) (fun _ => True)
      (try_except
         (read_loop recurse body max_iterations request_id pte
                    lines tail initial_locals)
         (streaming_failed request_id)).
Proof.
  intros Hrec.
  assert (Ktrans : forall a b c : St,
             requests_kept a b -> requests_kept b c -> requests_kept a c)
    by (unfold requests_kept; intros; congruence).
  eapply (sat_try_gen env True (requests_within n) requests_kept
                      (requests_within n));
    [ now auto
    | unfold requests_kept, requests_within; intros a b c Hab Hbc;
      rewrite Hbc; exact Hab
    | | ].
  - apply (read_loop_sat env True requests_kept (requests_within n))
      with (allowed := fun _ => True) (J := fun _ => True);
      try (intros; exact I); try (intros; reflexivity); auto.
    + unfold requests_kept, requests_within. intros a b ->. lia.
    + unfold requests_kept, requests_within. intros a b c Hab Hbc.
      rewrite Hab in Hbc. exact Hbc.
    + unfold requests_kept, requests_within. intros a b c Hab Hbc.
      rewrite Hbc. exact Hab.
  - intros e. unfold streaming_failed.
    eapply (sat_bind_gen env True requests_kept requests_kept requests_kept)
      with (P := fun _ => True);
      [ now auto | exact Ktrans
      | intros s; repeat split; discriminate
      | intros _ _; apply sat_ret; [reflexivity | exact I] ].
Qed.

(** Without an override in the environment the chain is bounded by the
    budget: with enough fuel the method returns, after at most
    [max_iterations] upstream requests. *)
Theorem chain_bounded_without_override {lib : PyLib} (env : Env) :
  (forall n, env_max env = Some n -> (n <= 0)%Z) ->
  forall (fuel : nat) (body : dict) (is_first : bool) (max_iterations : Z)
         (st : St),
    (Z.to_nat max_iterations < fuel)%nat ->
    fst (handle_streaming fuel body is_first max_iterations env st)
    <> OutOfFuel
    /\ (List.length
          (requests (snd (handle_streaming fuel body is_first max_iterations
                                           env st)))
        <= List.length (requests st) + Z.to_nat max_iterations)%nat.
Proof.
  intros Henv. induction fuel as [| fuel IH]; intros body is_first mi st Hfuel;
    [lia |].
  change (handle_streaming (S fuel) body is_first mi)
    with (handle_streaming_body (handle_streaming fuel) body is_first mi).
  pose proof (override_budget_unset _ mi Henv) as Hbudget.
  destruct (Z.leb_spec mi 0) as [Hle | Hgt].
  - rewrite below_budget_check by lia.
    destruct (report_budget_exhausted_run body env st)
      as (ok1 & ok2 & ok3 & ->).
    simpl. split; [discriminate | lia].
  - destruct (past_budget_check env (handle_streaming fuel) body is_first mi st
                ltac:(lia)) as (hs & hc & ->).
    cbv zeta. rewrite Hbudget.
    destruct (upstream env (List.length (requests st)) (inject_tools body))
      as [message | lines tail].
    + destruct (report_upstream_failure_run (inject_tools body)
                  (request_id_of (clock env (clock_reads st))) message env
                  (after_request (inject_tools body) hs hc st))
        as (ok1 & ok2 & ok3 & ->).
      simpl. split; [discriminate | rewrite length_app; simpl; lia].
    + destruct (stream_requests env (handle_streaming fuel) (inject_tools body)
                  mi (request_id_of (clock env (clock_reads st)))
                  (_estimate_tokens (prompt_text_of (inject_tools body)))
                  (Z.to_nat (mi - 1)) lines tail) with
        (st := after_request (inject_tools body) hs hc st)
        as (Hreq & _ & Hnf).
      * intros b s.
        destruct (IH b false (mi - 1)%Z s ltac:(lia)) as (Hnf & Hreq).
        repeat split; [exact Hreq | intros _; exact Hnf].
      * split; [exact (Hnf I) |].
        unfold requests_within in Hreq. simpl in Hreq.
        rewrite length_app in Hreq. simpl in Hreq. lia.
Qed.

(** ** Tool dispatch at [DONE] *)

Section Dispatch.

Context {lib : PyLib}.
Variables (request_id : string) (_prompt_tokens_estimate : Z).

Lemma tool_events_app (a b : list (wdata * bool)) :
  tool_events (a ++ b) = tool_events a ++ tool_events b.
Proof. unfold tool_events. apply flat_map_app. Qed.

(** An estimate, whether sent or not, is no tool event and no execution. *)
Lemma maybe_emit_run (force : bool) (l : locals) (env : Env) (st : St) :
  exists (l' : locals) (st' : St) (new : list (wdata * bool)),
    _maybe_emit_usage_estimate request_id _prompt_tokens_estimate force l
                               env st
    = (Ok l', st')
    /\ written st' = written st ++ new
    /\ tool_events new = []
    /\ executed st' = executed st
    /\ requests st' = requests st
    /\ last_usage l' = last_usage l
    /\ collected_tool_calls l' = collected_tool_calls l
    /\ tool_call_buffer l' = tool_call_buffer l.
Proof.
  unfold _maybe_emit_usage_estimate.
  destruct (last_usage l) as [u |] eqn:E.
  - exists l, st, []. rewrite app_nil_r. now repeat split.
  - unfold bind, time_time. simpl.
    destruct (negb force
              && (clock env (clock_reads st) - _last_usage_emit_ts l
                  <? 750000)%Z).
    + eexists l, _, []. simpl. rewrite app_nil_r. now repeat split.
    + unfold _send_event, _write, ret. simpl.
      eexists _, _, [_]. simpl. now repeat split.
Qed.

Lemma lift_run {A} (r : result A) (env : Env) (st : St) :
  lift r env st
  = (match r with Success a => Ok a | Failure e => Raised e end, st).
Proof. now destruct r. Qed.

(** A tool execution writes nothing to the client and is recorded once. *)
Lemma execute_tool_run (tool_name args : json) (env : Env) (st : St) :
  let r := execute_tool tool_name args env st in
  written (snd r) = written st
  /\ executed (snd r) = executed st ++ [(tool_name, args)]
  /\ requests (snd r) = requests st
  /\ fst r <> OutOfFuel.
Proof.
  unfold execute_tool, bind, log_execution. simpl.
  destruct (is_str tool_name "run_shell_command").
  { unfold _run_shell_command, bind. rewrite lift_run.
    destruct (py_get args "command" JNull) as [command | e]; simpl;
      [| now repeat split].
    destruct (negb (truthy command)); simpl; now repeat split. }
  destruct (is_str tool_name "get_shell_config");
    [simpl; now repeat split |].
  destruct (is_str tool_name "set_shell_config").
  { unfold _set_shell_config, bind. rewrite lift_run.
    destruct (py_get args "key" JNull) as [key | e]; simpl;
      [| now repeat split].
    rewrite lift_run.
    destruct (py_get args "value" JNull) as [value | e]; simpl;
      [| now repeat split].
    destruct (negb (truthy key) || is_None value); simpl; now repeat split. }
  destruct (is_str tool_name "switch_to_search_mode"); simpl;
    now repeat split.
Qed.

Lemma run_tool_calls_cons (key : string) (buf : fragment)
      (rest : list (string * fragment)) (l : locals)
      (tool_results : odict dict) :
  run_tool_calls request_id _prompt_tokens_estimate ((key, buf) :: rest)
                 l tool_results
  = if truthy (buf_name buf) then
      let args := parse_args buf in
      let l :=
        set_collected_tool_calls
          (collected_tool_calls l ++ [collected_tool_call buf]) l in
      _send_event (tool_execution_event buf args) ;;
      l <- _maybe_emit_usage_estimate request_id _prompt_tokens_estimate
                                      true l ;;
      result <- execute_tool (buf_name buf) args ;;
      let tool_results := dict_set tool_results key result in
      _send_event (tool_result_event buf args result) ;;
      l <- _maybe_emit_usage_estimate request_id _prompt_tokens_estimate
                                      true l ;;
      run_tool_calls request_id _prompt_tokens_estimate rest l tool_results
    else run_tool_calls request_id _prompt_tokens_estimate rest l tool_results.
Proof. reflexivity. Qed.

Lemma filter_named_cons (key : string) (buf : fragment)
      (rest : list (string * fragment)) :
  filter named ((key, buf) :: rest)
  = if truthy (buf_name buf) then (key, buf) :: filter named rest
    else filter named rest.
Proof. reflexivity. Qed.

Lemma announcements_cons (key : string) (buf : fragment)
      (rest : list (string * fragment)) :
  announcements ((key, buf) :: rest)
  = if truthy (buf_name buf)
    then ("tool_execution", tool_call_summary buf (parse_args buf))
         :: ("tool_result", tool_call_summary buf (parse_args buf))
         :: announcements rest
    else announcements rest.
Proof.
  unfold announcements. rewrite filter_named_cons.
  now destruct (truthy (buf_name buf)).
Qed.

(** The loop over the buffer: the calls executed are the named items, in
    the order of the buffer, up to the first execution that raises; when
    the loop completes, all of them, each framed by its two events. *)
Lemma run_tool_calls_run (items : list (string * fragment)) :
  forall (l : locals) (tool_results : odict dict) (env : Env) (st : St)
         (o : outcome (locals * odict dict)) (st' : St),
    run_tool_calls request_id _prompt_tokens_estimate
                   items l tool_results env st = (o, st') ->
    exists (done : list (string * fragment)) (new : list (wdata * bool)),
      executed st' = executed st ++ map invocation_of done
      /\ written st' = written st ++ new
      /\ requests st' = requests st
      /\ (exists rest, filter named items = done ++ rest)
      /\ o <> OutOfFuel
      /\ (forall v, o = Ok v ->
                    done = filter named items
                    /\ tool_events new = announcements items
                    /\ last_usage (fst v) = last_usage l).
Proof.
  induction items as [| [key buf] rest IH];
    intros l tool_results env st o st' Hrun.
  - injection Hrun as <- <-. exists [], []. simpl. rewrite !app_nil_r.
    do 3 (split; [reflexivity |]).
    split; [now exists [] |]. split; [discriminate |].
    intros v [= <-]. repeat split.
  - rewrite run_tool_calls_cons in Hrun.
    rewrite filter_named_cons, announcements_cons.
    destruct (truthy (buf_name buf)) eqn:Hname; [| now apply (IH _ _ _ _ _ _ Hrun)].
    cbv zeta in Hrun. unfold bind at 1 in Hrun.
    unfold _send_event at 1, _write at 1 in Hrun. cbv beta iota in Hrun.
    set (ok1 := wfile_ok env (List.length (written st))
                  (Event (tool_execution_event buf (parse_args buf)))) in *.
    set (st1 := {| clock_reads := clock_reads st;
                   written := written st ++ _ |}) in Hrun.
    unfold bind at 1 in Hrun.
    destruct (maybe_emit_run true
                (set_collected_tool_calls
                   (collected_tool_calls l ++ [collected_tool_call buf]) l)
                env st1)
      as (l1 & st2 & new2 & E2 & W2 & T2 & X2 & R2 & U2 & _).
    rewrite E2 in Hrun. cbv beta iota in Hrun. unfold bind at 1 in Hrun.
    pose proof (execute_tool_run (buf_name buf) (parse_args buf) env st2)
      as (W3 & X3 & R3 & F3).
    destruct (execute_tool (buf_name buf) (parse_args buf) env st2)
      as [[result | e |] st3]; simpl in W3, X3, R3, F3;
      [| | contradiction].
    2:{ injection Hrun as <- <-.
        exists [(key, buf)],
          ((Event (tool_execution_event buf (parse_args buf)), ok1) :: new2).
        rewrite X3, X2, W3, W2, R3, R2. subst st1. simpl.
        rewrite <- app_assoc. simpl.
        do 3 (split; [reflexivity |]).
        split; [now exists (filter named rest) |].
        split; discriminate. }
    unfold bind at 1 in Hrun.
    unfold _send_event at 1, _write at 1 in Hrun. cbv beta iota in Hrun.
    set (ok4 := wfile_ok env (List.length (written st3))
                  (Event (tool_result_event buf (parse_args buf) result))) in *.
    set (st4 := {| clock_reads := clock_reads st3;
                   written := written st3 ++ _ |}) in Hrun.
    unfold bind at 1 in Hrun.
    destruct (maybe_emit_run true l1 env st4)
      as (l2 & st5 & new5 & E5 & W5 & T5 & X5 & R5 & U5 & _).
    rewrite E5 in Hrun. cbv beta iota in Hrun.
    destruct (IH l2 (dict_set tool_results key result) env st5 o st' Hrun)
      as (done & new & Hx & Hw & Hr & (rest' & Hpre) & Hnf & Hok).
    exists ((key, buf) :: done).
    exists ((Event (tool_execution_event buf (parse_args buf)), ok1)
            :: new2
            ++ (Event (tool_result_event buf (parse_args buf) result), ok4)
            :: new5 ++ new).
    split; [| split; [| split; [| split; [| split]]]].
    + rewrite Hx, X5. subst st4. simpl. rewrite X3, X2. subst st1. simpl.
      now rewrite <- app_assoc.
    + rewrite Hw, W5. subst st4. simpl. rewrite W3, W2. subst st1. simpl.
      repeat (rewrite <- app_assoc; simpl). reflexivity.
    + rewrite Hr, R5. subst st4. simpl. rewrite R3, R2. now subst st1.
    + exists rest'. simpl. now rewrite Hpre.
    + exact Hnf.
    + intros v Hv. destruct (Hok v Hv) as (Hd & Ht & Hu).
      split; [now rewrite Hd | split].
      * change (?x :: new2 ++ ?y :: new5 ++ new)
          with ([x] ++ new2 ++ [y] ++ new5 ++ new).
        rewrite !tool_events_app, T2, T5, Ht. reflexivity.
      * now rewrite Hu, U5, U2.
Qed.

(** Loops over a buffer in which no call has a name do nothing. *)
Lemma run_tool_calls_unnamed (items : list (string * fragment)) :
  forall (l : locals) (tool_results : odict dict),
    Forall (fun item => named item = false) items ->
    run_tool_calls request_id _prompt_tokens_estimate items l tool_results
    = ret (l, tool_results).
Proof.
  induction items as [| [key buf] rest IH]; intros l tool_results Hall;
    [reflexivity |].
  inversion Hall as [| ? ? Hn Hrest]; subst. unfold named in Hn. simpl in Hn.
  rewrite run_tool_calls_cons, Hn. now apply IH.
Qed.

Lemma append_tool_messages_unnamed (items : list (string * fragment)) :
  forall (tool_results : odict dict) (messages : json),
    Forall (fun item => named item = false) items ->
    append_tool_messages items tool_results messages = Success messages.
Proof.
  induction items as [| [key buf] rest IH]; intros tool_results messages Hall;
    [reflexivity |].
  inversion Hall as [| ? ? Hn Hrest]; subst. unfold named in Hn. simpl in Hn.
  simpl. rewrite Hn. now apply IH.
Qed.

End Dispatch.

(** ** The order of the buffer *)

Section BufferOrder.

Context {lib : PyLib}.

Lemma dict_has_keys {V} (d : odict V) (k : string) :
  dict_has d k = existsb (fun k' => String.eqb k' k) (map fst d).
Proof.
  unfold dict_has. induction d as [| [k' v] d IH]; simpl; [reflexivity |].
  destruct (String.eqb k' k); [reflexivity | exact IH].
Qed.

Lemma dict_set_keys_new {V} (d : odict V) (k : string) (v : V) :
  dict_has d k = false -> map fst (dict_set d k v) = map fst d ++ [k].
Proof.
  unfold dict_has. induction d as [| [k' v'] d IH]; simpl; [reflexivity |].
  destruct (String.eqb k' k); [discriminate |].
  intros Hd. simpl. now rewrite IH.
Qed.

Lemma collect_tool_call_keyed (buffer b' : odict fragment) (tc : json) :
  collect_tool_call buffer tc = Success b' ->
  exists key, fragment_key tc = Some key.
Proof.
  unfold collect_tool_call, fragment_key.
  destruct tc; simpl; try discriminate. intros _. now eexists.
Qed.

Lemma collect_tool_calls_keys (tcs : list json) :
  forall buffer b' : odict fragment,
    collect_tool_calls buffer tcs = Success b' ->
    map fst b' = first_seen (map fst buffer) (keys_of tcs).
Proof.
  induction tcs as [| tc rest IH]; intros buffer b' Hrun; simpl in Hrun.
  - now injection Hrun as <-.
  - destruct (collect_tool_call buffer tc) as [b1 |] eqn:H1; [| discriminate].
    simpl in Hrun.
    destruct (collect_tool_call_keyed _ _ _ H1) as (key & Hkey).
    rewrite (IH _ _ Hrun).
    rewrite (collect_tool_call_spec _ _ _ _ Hkey H1), dict_update_keys.
    unfold keys_of. simpl. rewrite Hkey. simpl.
    fold (keys_of rest).
    unfold ensure_entry. rewrite <- dict_has_keys.
    destruct (dict_has buffer key) eqn:Hhas; [reflexivity |].
    now rewrite dict_set_keys_new.
Qed.

End BufferOrder.

(** C6 (as the code has it): the buffer keeps its keys in the order in
    which they first appeared in the delta stream, and at [DONE] the
    named calls are executed one at a time in the order of the buffer:
    the executions recorded, and the [tool_execution] and [tool_result]
    events written, follow that order, not the numeric order of the
    indices. *)
Theorem C6_execution_in_buffer_order {lib : PyLib} :
  (forall (tcs : list json) (buffer b' : odict fragment),
      collect_tool_calls buffer tcs = Success b' ->
      map fst b' = first_seen (map fst buffer) (keys_of tcs))
  /\ (forall (request_id : string) (pte : Z)
             (items : list (string * fragment)) (l : locals)
             (tool_results : odict dict) (env : Env) (st st' : St)
             (v : locals * odict dict),
         run_tool_calls request_id pte items l tool_results env st
         = (Ok v, st') ->
         exists new : list (wdata * bool),
           executed st'
           = executed st ++ map invocation_of (filter named items)
           /\ written st' = written st ++ new
           /\ tool_events new = announcements items).
Proof.
  split.
  - exact collect_tool_calls_keys.
  - intros request_id pte items l tool_results env st st' v Hrun.
    destruct (run_tool_calls_run request_id pte items l tool_results env st
                                 _ _ Hrun)
      as (done & new & Hx & Hw & _ & _ & _ & Hok).
    destruct (Hok v eq_refl) as (-> & Ht & _).
    now exists new.
Qed.

Lemma bind_Ok_inv {A B} (m : M A) (k : A -> M B) (env : Env) (st st' : St)
      (b : B) :
  bind m k env st = (Ok b, st') ->
  exists (a : A) (st1 : St), m env st = (Ok a, st1) /\ k a env st1 = (Ok b, st').
Proof.
  unfold bind. destruct (m env st) as [[a | e |] st1]; try discriminate.
  intros Hk. now exists a, st1.
Qed.

Lemma ret_Ok_inv {A} (a b : A) (env : Env) (st st' : St) :
  ret a env st = (Ok b, st') -> a = b /\ st = st'.
Proof. unfold ret. now intros [= <- <-]. Qed.

(** [process_chunk] leaves [collected_tool_calls] as it is: the list is
    only filled by the loop over the buffer at [DONE]. *)
Lemma process_chunk_keeps_collected {lib : PyLib} (request_id : string)
      (pte : Z) (chunk : json) (l l' : locals) (env : Env) (st st' : St) :
  process_chunk request_id pte chunk l env st = (Ok l', st') ->
  collected_tool_calls l' = collected_tool_calls l.
Proof.
  unfold process_chunk.
  assert (Hcap : collected_tool_calls (capture_usage chunk l)
                 = collected_tool_calls l).
  { unfold capture_usage. destruct chunk; try reflexivity.
    now destruct (dict_get_default fields "usage" JNull). }
  revert Hcap. generalize (capture_usage chunk l). intros l0 Hcap H.
  apply bind_Ok_inv in H as (choices & s1 & _ & H).
  apply bind_Ok_inv in H as (choice & s2 & _ & H).
  apply bind_Ok_inv in H as (delta & s3 & _ & H).
  apply bind_Ok_inv in H as (content & s4 & _ & H).
  apply bind_Ok_inv in H as (l1 & s5 & H1 & H).
  assert (K1 : collected_tool_calls l1 = collected_tool_calls l0).
  { destruct (truthy content).
    - apply bind_Ok_inv in H1 as (x & s & _ & H1).
      apply ret_Ok_inv in H1 as (<- & _). reflexivity.
    - apply ret_Ok_inv in H1 as (<- & _). reflexivity. }
  apply bind_Ok_inv in H as (reasoning & s6 & _ & H).
  apply bind_Ok_inv in H as (l2 & s7 & H2 & H).
  assert (K2 : collected_tool_calls l2 = collected_tool_calls l1).
  { destruct (truthy reasoning).
    - apply bind_Ok_inv in H2 as (x & s & _ & H2).
      apply ret_Ok_inv in H2 as (<- & _). reflexivity.
    - apply ret_Ok_inv in H2 as (<- & _). reflexivity. }
  apply bind_Ok_inv in H as (l3 & s8 & H3 & H).
  assert (K3 : collected_tool_calls l3 = collected_tool_calls l2).
  { destruct (maybe_emit_run request_id pte false l2 env s7)
      as (l3' & st3 & new & E & _ & _ & _ & _ & _ & K & _).
    rewrite E in H3. now injection H3 as <- <-. }
  apply bind_Ok_inv in H as (tool_calls & s9 & _ & H).
  destruct (truthy tool_calls).
  - apply bind_Ok_inv in H as (tcs & s10 & _ & H).
    apply bind_Ok_inv in H as (buffer & s11 & _ & H).
    apply ret_Ok_inv in H as (<- & _). simpl. congruence.
  - apply ret_Ok_inv in H as (<- & _). congruence.
Qed.

(** C10: at [DONE], a buffer that is not empty but holds no call with a
    name still leads to the continuation: nothing is executed, no
    [tool_execution] or [tool_result] event is written, one assistant
    message with an empty [tool_calls] list (and no tool message) is
    appended, the continuation event is written (and the estimate for the
    next prompt when upstream gave no usage), and the method calls itself
    with the budget decremented. *)
Theorem C10_unnamed_buffer_continues {lib : PyLib} (env : Env)
        (recurse : dict -> bool -> Z -> M unit) (body : dict)
        (max_iterations : Z) (request_id : string) (pte : Z)
        (line : string) (l : locals) (messages : list json) (st : St) :
  tool_call_buffer l <> [] ->
  Forall (fun item => named item = false) (tool_call_buffer l) ->
  collected_tool_calls l = [] ->
  dict_get_default body "messages" (JArr []) = JArr messages ->
  let body' :=
    dict_set body "messages" (JArr (messages ++ [assistant_message l])) in
  exists (st1 : St) (new : list (wdata * bool)),
    at_done recurse body max_iterations request_id pte line l env st
    = try_except (recurse body' false (max_iterations - 1)%Z)
                 (followup_failed request_id) env st1
    /\ written st1 = written st ++ new
    /\ map fst new
       = Event (continuation_event request_id)
         :: match last_usage l with
            | None => [Event (next_prompt_estimate request_id body')]
            | Some _ => []
            end
    /\ executed st1 = executed st
    /\ requests st1 = requests st
    /\ py_get (assistant_message l) "tool_calls" JNull = Success (JArr []).
Proof.
  intros Hne Hun Hcoll Hmsgs body'.
  assert (Hgo : at_done recurse body max_iterations request_id pte line l
                = continue_with_tools recurse body max_iterations request_id
                                      pte l).
  { unfold at_done. destruct (tool_call_buffer l); [contradiction | easy]. }
  rewrite Hgo. unfold continue_with_tools.
  unfold bind at 1. rewrite (run_tool_calls_unnamed _ _ _ _ _ Hun).
  unfold ret at 1. cbv beta iota.
  rewrite Hmsgs. unfold bind at 1. simpl lift. unfold ret at 1.
  cbv beta iota. unfold bind at 1.
  rewrite (append_tool_messages_unnamed _ _ _ Hun). simpl lift.
  unfold ret at 1. cbv beta iota. fold body'.
  unfold try_except, bind, _send_event, _write. simpl.
  assert (Htc : py_get (assistant_message l) "tool_calls" JNull
                = Success (JArr [])).
  { unfold assistant_message. rewrite Hcoll. simpl.
    destruct (negb (String.eqb (collected_reasoning l) "")); reflexivity. }
  destruct (last_usage l) as [u |]; simpl.
  - eexists _, [_]. split; [reflexivity |]. simpl. now repeat split.
  - eexists _, [_; _]. split; [reflexivity |]. simpl.
    rewrite <- app_assoc. now repeat split.
Qed.

(** ** The non-streaming handler *)

Section DictKeys.

Context {V : Type}.
Implicit Types (d : odict V) (k : string).

Lemma dict_has_In d k : dict_has d k = true <-> In k (map fst d).
Proof.
  unfold dict_has. induction d as [| [k' v] d IH]; simpl.
  - split; [discriminate | contradiction].
  - destruct (String.eqb_spec k' k) as [-> | Hne].
    + split; auto.
    + rewrite IH. split; [auto | intros [? | ?]; [contradiction | assumption]].
Qed.

Lemma dict_set_keys d k (v : V) :
  map fst (dict_set d k v)
  = if dict_has d k then map fst d else map fst d ++ [k].
Proof.
  unfold dict_has. induction d as [| [k' v'] d IH]; simpl; [reflexivity |].
  destruct (String.eqb k' k); simpl; [reflexivity |].
  rewrite IH. now destruct (dict_get d k).
Qed.

Lemma dict_set_NoDup d k (v : V) :
  NoDup (map fst d) -> NoDup (map fst (dict_set d k v)).
Proof.
  intros Hnd. rewrite dict_set_keys.
  destruct (dict_has d k) eqn:Hhas; [exact Hnd |].
  apply NoDup_app; [exact Hnd | repeat constructor; intros [] |].
  intros x Hx [<- | []]. apply dict_has_In in Hx. congruence.
Qed.

Lemma dict_del_has d k :
  NoDup (map fst d) -> dict_has (dict_del d k) k = false.
Proof.
  induction d as [| [k' v] d IH]; simpl; [reflexivity |].
  intros Hnd. inversion Hnd as [| ? ? Hnotin Hnd']; subst.
  destruct (String.eqb_spec k' k) as [-> | Hne].
  - destruct (dict_has d k) eqn:Hhas; [| reflexivity].
    apply dict_has_In in Hhas. contradiction.
  - unfold dict_has in *. simpl.
    destruct (String.eqb_spec k' k); [contradiction | now apply IH].
Qed.

Lemma dict_get_del_other d k k' :
  k <> k' -> dict_get (dict_del d k) k' = dict_get d k'.
Proof.
  intros Hne. induction d as [| [k0 v] d IH]; simpl; [reflexivity |].
  destruct (String.eqb_spec k0 k) as [-> | Hk].
  - destruct (String.eqb_spec k k'); [contradiction | reflexivity].
  - simpl. now rewrite IH.
Qed.

End DictKeys.

Lemma inject_tools_NoDup (body : dict) :
  NoDup (map fst body) -> NoDup (map fst (inject_tools body)).
Proof.
  intros Hnd. unfold inject_tools.
  destruct (negb (dict_has body "tools")
            || negb (truthy (dict_get_default body "tools" JNull)));
    [| exact Hnd].
  now do 2 apply dict_set_NoDup.
Qed.

Lemma lift_Ok_inv {A} (r : result A) (a : A) (env : Env) (st st' : St) :
  lift r env st = (Ok a, st') -> r = Success a /\ st' = st.
Proof. destruct r; simpl; unfold ret, raise; now intros [= <- <-]. Qed.

Section NonStreaming.

Context {lib : PyLib}.

(** The loop over the tool calls of the response: each is executed once,
    in order, and answered by one [tool] message. *)
Lemma execute_tool_calls_run (tcs : list json) :
  forall (prior : list json) (env : Env) (st st' : St) (messages' : json),
    execute_tool_calls tcs (JArr prior) env st = (Ok messages', st') ->
    exists (calls : list (json * json)) (tool_msgs : list json),
      map requested_call tcs = map Success calls
      /\ executed st' = executed st ++ calls
      /\ requests st' = requests st
      /\ written st' = written st
      /\ messages' = JArr (prior ++ tool_msgs)
      /\ map tool_call_id_of tool_msgs = map call_id tcs
      /\ Forall (fun m => is_tool_message m = true) tool_msgs.
Proof.
  induction tcs as [| tc rest IH]; intros prior env st st' messages' Hrun.
  - cbn [execute_tool_calls] in Hrun.
    apply ret_Ok_inv in Hrun as (<- & <-). exists [], [].
    rewrite !app_nil_r. repeat split. constructor.
  - cbn [execute_tool_calls] in Hrun.
    apply bind_Ok_inv in Hrun as (func & s1 & H1 & Hrun).
    apply lift_Ok_inv in H1 as (Hfunc & ->).
    apply bind_Ok_inv in Hrun as (tool_name & s2 & H2 & Hrun).
    apply lift_Ok_inv in H2 as (Hname & ->).
    apply bind_Ok_inv in Hrun as (arguments & s3 & H3 & Hrun).
    apply lift_Ok_inv in H3 as (Hargs & ->).
    apply bind_Ok_inv in Hrun as (tool_args & s4 & H4 & Hrun).
    apply lift_Ok_inv in H4 as (Hparse & ->).
    apply bind_Ok_inv in Hrun as (result & s5 & H5 & Hrun).
    pose proof (execute_tool_run tool_name tool_args env st) as Hexec.
    rewrite H5 in Hexec. simpl in Hexec.
    destruct Hexec as (W5 & X5 & R5 & _).
    apply bind_Ok_inv in Hrun as (tool_call_id & s6 & H6 & Hrun).
    apply lift_Ok_inv in H6 as (Hid & ->).
    apply bind_Ok_inv in Hrun as (messages1 & s7 & H7 & Hrun).
    apply lift_Ok_inv in H7 as (Happ & ->).
    simpl in Happ. injection Happ as <-.
    destruct (IH _ _ _ _ _ Hrun)
      as (calls & tool_msgs & Hcalls & Hx & Hr & Hw & Hm & Hids & Hroles).
    exists ((tool_name, tool_args) :: calls).
    eexists (_ :: tool_msgs).
    split; [| split; [| split; [| split; [| split; [| split]]]]].
    + simpl. unfold requested_call at 1.
      rewrite Hfunc. simpl. rewrite Hname. simpl. rewrite Hargs. simpl.
      rewrite Hparse. simpl. now rewrite Hcalls.
    + rewrite Hx, X5, <- app_assoc. reflexivity.
    + now rewrite Hr, R5.
    + now rewrite Hw, W5.
    + rewrite Hm, <- app_assoc. reflexivity.
    + simpl. rewrite Hids. f_equal.
      destruct tc; simpl in Hid; try discriminate.
      now injection Hid as <-.
    + constructor; [reflexivity | exact Hroles].
Qed.

End NonStreaming.

(** C7: when the message of the upstream response carries tool calls and
    the handler returns, it has executed each call once and in order,
    appended the assistant message and one tool message per call, sent
    exactly one more request, whose body has no ["tools"] field, and
    returned what that request gave (or its failure) as it is: no tool
    call of the follow-up response is executed. *)
Theorem C7_single_followup {lib : PyLib} (env : Env) (body : dict)
        (st st' : St) (lines : list string) (response_data message : json)
        (tcs : list json) (r : json) :
  NoDup (map fst body) ->
  upstream env (List.length (requests st)) (inject_tools body)
  = UpstreamStream lines None ->
  json_loads (join lines) = Some response_data ->
  response_message response_data = Success message ->
  py_get message "tool_calls" (JArr []) = Success (JArr tcs) ->
  tcs <> [] ->
  handle_non_streaming body env st = (Ok r, st') ->
  exists (prior : list json) (calls : list (json * json))
         (tool_msgs : list json) (body2 : dict),
    dict_get_default (inject_tools body) "messages" (JArr []) = JArr prior
    /\ map requested_call tcs = map Success calls
    /\ executed st' = executed st ++ calls
    /\ requests st' = requests st ++ [inject_tools body; body2]
    /\ dict_has body2 "tools" = false
    /\ dict_get body2 "messages" = Some (JArr (prior ++ message :: tool_msgs))
    /\ map tool_call_id_of tool_msgs = map call_id tcs
    /\ Forall (fun m => is_tool_message m = true) tool_msgs
    /\ r = followup_result
             (upstream env (S (List.length (requests st))) body2).
Proof.
  intros Hnd Hup Hloads Hmsg Htcs Hne Hrun.
  unfold handle_non_streaming in Hrun.
  apply bind_Ok_inv in Hrun as (resp & s1 & H1 & Hrun).
  unfold request_chat_completions in H1. injection H1 as <- <-.
  rewrite Hup in Hrun. unfold read_json at 1 in Hrun. rewrite Hloads in Hrun.
  unfold response_message in Hmsg.
  apply bind_Ok_inv in Hrun as (choices & s2 & H2 & Hrun).
  apply lift_Ok_inv in H2 as (Hchoices & ->).
  rewrite Hchoices in Hmsg. simpl in Hmsg.
  apply bind_Ok_inv in Hrun as (choice & s3 & H3 & Hrun).
  apply lift_Ok_inv in H3 as (Hchoice & ->).
  rewrite Hchoice in Hmsg. simpl in Hmsg.
  apply bind_Ok_inv in Hrun as (message' & s4 & H4 & Hrun).
  apply lift_Ok_inv in H4 as (Hmessage & ->).
  rewrite Hmessage in Hmsg. injection Hmsg as ->.
  apply bind_Ok_inv in Hrun as (tool_calls & s5 & H5 & Hrun).
  apply lift_Ok_inv in H5 as (Htool_calls & ->).
  rewrite Htcs in Htool_calls. injection Htool_calls as <-.
  assert (Htruthy : truthy (JArr tcs) = true)
    by (destruct tcs; [contradiction | reflexivity]).
  rewrite Htruthy in Hrun.
  apply bind_Ok_inv in Hrun as (messages1 & s6 & H6 & Hrun).
  apply lift_Ok_inv in H6 as (Happ & ->).
  destruct (dict_get_default (inject_tools body) "messages" (JArr []))
    as [| | | | prior |] eqn:Hprior; try discriminate.
  simpl in Happ. injection Happ as <-.
  apply bind_Ok_inv in Hrun as (tcs' & s7 & H7 & Hrun).
  apply lift_Ok_inv in H7 as (Hiter & ->).
  simpl in Hiter. injection Hiter as <-.
  apply bind_Ok_inv in Hrun as (messages2 & s8 & H8 & Hrun).
  destruct (execute_tool_calls_run _ _ _ _ _ _ H8)
    as (calls & tool_msgs & Hcalls & Hx & Hr & Hw & -> & Hids & Hroles).
  apply bind_Ok_inv in Hrun as (resp2 & s9 & H9 & Hrun).
  unfold request_chat_completions in H9. injection H9 as <- <-.
  set (body2 := dict_del
                  (dict_set (inject_tools body) "messages"
                            (JArr ((prior ++ [message]) ++ tool_msgs)))
                  "tools") in *.
  assert (Hlen : List.length (requests s8) = S (List.length (requests st))).
  { rewrite Hr. simpl. rewrite length_app. simpl. lia. }
  rewrite Hlen in Hrun.
  assert (Hfin : r = followup_result
                       (upstream env (S (List.length (requests st))) body2)
                 /\ executed st' = executed s8
                 /\ requests st' = requests s8 ++ [body2]).
  { unfold followup_result.
    destruct (upstream env (S (List.length (requests st))) body2)
      as [m | lines2 tail2].
    - now apply ret_Ok_inv in Hrun as (<- & <-).
    - destruct (read_json lines2 tail2);
        now apply ret_Ok_inv in Hrun as (<- & <-). }
  destruct Hfin as (Hres & Hx' & Hr').
  exists prior, calls, tool_msgs, body2.
  split; [reflexivity |].
  split; [exact Hcalls |].
  split; [rewrite Hx', Hx; reflexivity |].
  split; [rewrite Hr', Hr; simpl; rewrite <- app_assoc; reflexivity |].
  split; [apply dict_del_has, dict_set_NoDup, inject_tools_NoDup, Hnd |].
  split.
  { unfold body2. rewrite dict_get_del_other by discriminate.
    rewrite dict_get_set_same, <- app_assoc. reflexivity. }
  split; [exact Hids |].
  split; [exact Hroles | exact Hres].
Qed.

(** ** Failed writes of synthetic events *)

Section WriteFailures.

Context {lib : PyLib}.
Variables env1 env2 : Env.
Hypothesis envs : differ_on_event_writes_only env1 env2.

Local Abbreviation sim := (simulates env1 env2).

Lemma sim_ret {A} (a : A) : sim (ret a).
Proof. intros s1 s2 Hs. now split. Qed.

Lemma sim_raise {A} (e : exn) : sim (@raise A e).
Proof. intros s1 s2 Hs. now split. Qed.

Lemma sim_out_of_fuel {A} : sim (@out_of_fuel A).
Proof. intros s1 s2 Hs. now split. Qed.

Lemma sim_lift {A} (r : result A) : sim (lift r).
Proof. destruct r; [apply sim_ret | apply sim_raise]. Qed.

Lemma sim_bind {A B} (m : M A) (k : A -> M B) :
  sim m -> (forall a, sim (k a)) -> sim (bind m k).
Proof.
  intros Hm Hk s1 s2 Hs. unfold bind.
  destruct (Hm s1 s2 Hs) as (Hr & Hs').
  destruct (m env1 s1) as [o1 t1], (m env2 s2) as [o2 t2].
  simpl in Hr, Hs'. subst o2.
  destruct o1 as [a | e |]; [now apply Hk | now split | now split].
Qed.

Lemma sim_try {A} (m : M A) (h : exn -> M A) :
  sim m -> (forall e, sim (h e)) -> sim (try_except m h).
Proof.
  intros Hm Hh s1 s2 Hs. unfold try_except.
  destruct (Hm s1 s2 Hs) as (Hr & Hs').
  destruct (m env1 s1) as [o1 t1], (m env2 s2) as [o2 t2].
  simpl in Hr, Hs'. subst o2.
  destruct o1 as [a | e |]; [now split | now apply Hh | now split].
Qed.

Lemma same_attempts_length (s1 s2 : St) :
  same_attempts s1 s2 ->
  List.length (written s1) = List.length (written s2).
Proof.
  intros (_ & Hw & _).
  rewrite <- (length_map fst (written s1)), Hw. apply length_map.
Qed.

(** A write whose result is thrown away: whether it fails makes no
    difference to what follows. *)
Lemma sim_write_then {B} (d : wdata) (k : M B) :
  sim k -> sim (_write d ;; k).
Proof.
  intros Hk s1 s2 Hs. unfold bind, _write. cbv beta iota. apply Hk.
  destruct Hs as (H1 & H2 & H3 & H4 & H5 & H6 & H7).
  repeat split; simpl; auto.
  rewrite !map_app. simpl. now rewrite H2.
Qed.

(** The write of a raw line, whose result the loop tests. *)
Lemma sim_write_raw (line : string) : sim (_write (Raw line)).
Proof.
  intros s1 s2 Hs. unfold _write. simpl.
  pose proof (same_attempts_length _ _ Hs) as Hlen.
  destruct envs as (_ & _ & _ & _ & _ & Hraw).
  destruct Hs as (H1 & H2 & H3 & H4 & H5 & H6 & H7).
  rewrite Hlen, Hraw. repeat split; simpl; auto.
  rewrite !map_app. simpl. now rewrite H2.
Qed.

Lemma sim_getenv_max : sim getenv_max.
Proof.
  intros s1 s2 Hs. unfold getenv_max. simpl.
  destruct envs as (He & _). now rewrite He.
Qed.

Lemma sim_time_time : sim time_time.
Proof.
  intros s1 s2 Hs. unfold time_time. simpl.
  destruct envs as (_ & Hc & _).
  destruct Hs as (H1 & H2 & H3 & H4 & H5 & H6 & H7).
  rewrite H1, Hc. repeat split; simpl; auto.
Qed.

Lemma sim_request (body : dict) : sim (request_chat_completions body).
Proof.
  intros s1 s2 Hs. unfold request_chat_completions. simpl.
  destruct envs as (_ & _ & Hu & _).
  destruct Hs as (H1 & H2 & H3 & H4 & H5 & H6 & H7).
  rewrite H3, Hu. repeat split; simpl; auto.
Qed.

Lemma sim_host_effect (op : host_op) : sim (host_effect op).
Proof.
  intros s1 s2 Hs. unfold host_effect. simpl.
  destruct envs as (_ & _ & _ & Hh & _).
  destruct Hs as (H1 & H2 & H3 & H4 & H5 & H6 & H7).
  rewrite H5, Hh. repeat split; simpl; auto.
Qed.

Lemma sim_log_execution (n a : json) : sim (log_execution n a).
Proof.
  intros s1 s2 Hs. unfold log_execution. simpl.
  destruct Hs as (H1 & H2 & H3 & H4 & H5 & H6 & H7).
  repeat split; simpl; auto. now rewrite H4.
Qed.

Lemma sim_maybe_send_headers (is_first : bool) :
  sim (maybe_send_headers is_first).
Proof.
  intros s1 s2 Hs. unfold maybe_send_headers.
  destruct envs as (_ & _ & _ & _ & Hsh & _).
  destruct Hs as (H1 & H2 & H3 & H4 & H5 & H6 & H7).
  rewrite Hsh, H6.
  destruct (is_first && send_headers env2 && negb (_headers_sent s2));
    repeat split; simpl; auto.
Qed.

Local Ltac step :=
  first
    [ apply sim_ret
    | apply sim_raise
    | apply sim_lift
    | apply sim_time_time
    | apply sim_host_effect
    | apply sim_log_execution
    | apply sim_write_then
    | apply sim_bind; [| intros ?] ].

Lemma sim_maybe_emit (request_id : string) (pte : Z) (force : bool)
      (l : locals) :
  sim (_maybe_emit_usage_estimate request_id pte force l).
Proof.
  unfold _maybe_emit_usage_estimate, _send_event.
  destruct (last_usage l); [apply sim_ret |].
  apply sim_bind; [apply sim_time_time | intros now].
  destruct (negb force && (now - _last_usage_emit_ts l <? 750000)%Z);
    repeat step.
Qed.

Lemma sim_execute_tool (tool_name args : json) :
  sim (execute_tool tool_name args).
Proof.
  unfold execute_tool.
  apply sim_bind; [apply sim_log_execution | intros _].
  destruct (is_str tool_name "run_shell_command").
  { unfold _run_shell_command. apply sim_bind; [apply sim_lift | intros c].
    destruct (negb (truthy c)); repeat step. }
  destruct (is_str tool_name "get_shell_config");
    [apply sim_host_effect |].
  destruct (is_str tool_name "set_shell_config").
  { unfold _set_shell_config. apply sim_bind; [apply sim_lift | intros k].
    apply sim_bind; [apply sim_lift | intros v].
    destruct (negb (truthy k) || is_None v); repeat step. }
  destruct (is_str tool_name "switch_to_search_mode"); apply sim_ret.
Qed.

Lemma sim_run_tool_calls (request_id : string) (pte : Z)
      (items : list (string * fragment)) :
  forall (l : locals) (tool_results : odict dict),
    sim (run_tool_calls request_id pte items l tool_results).
Proof.
  induction items as [| [key buf] rest IH]; intros l tool_results.
  - apply sim_ret.
  - rewrite run_tool_calls_cons.
    destruct (truthy (buf_name buf)); [| apply IH].
    cbv zeta. unfold _send_event.
    apply sim_write_then.
    apply sim_bind; [apply sim_maybe_emit | intros l1].
    apply sim_bind; [apply sim_execute_tool | intros result].
    apply sim_write_then.
    apply sim_bind; [apply sim_maybe_emit | intros l2].
    apply IH.
Qed.

Lemma sim_process_chunk (request_id : string) (pte : Z) (chunk : json)
      (l : locals) :
  sim (process_chunk request_id pte chunk l).
Proof.
  unfold process_chunk.
  do 4 (apply sim_bind; [apply sim_lift | intros ?]).
  apply sim_bind; [| intros l1].
  { destruct (truthy a2); repeat step. }
  apply sim_bind; [apply sim_lift | intros reasoning].
  apply sim_bind; [| intros l2].
  { destruct (truthy reasoning); repeat step. }
  apply sim_bind; [apply sim_maybe_emit | intros l3].
  apply sim_bind; [apply sim_lift | intros tool_calls].
  destruct (truthy tool_calls); repeat step.
Qed.

Section SimTurn.

Variable recurse : dict -> bool -> Z -> M unit.
Hypothesis sim_recurse : forall b f m, sim (recurse b f m).
Variables (body : dict) (max_iterations : Z) (request_id : string).
Variable pte : Z.

Lemma sim_followup_failed (e : exn) : sim (followup_failed request_id e).
Proof.
  unfold followup_failed, _send_event.
  destruct (is_ProxyError e); repeat step.
Qed.

Lemma sim_continue_with_tools (l : locals) :
  sim (continue_with_tools recurse body max_iterations request_id pte l).
Proof.
  unfold continue_with_tools.
  apply sim_bind; [apply sim_run_tool_calls | intros [l1 tool_results]].
  apply sim_bind; [apply sim_lift | intros messages].
  apply sim_bind; [apply sim_lift | intros messages'].
  apply sim_try; [| apply sim_followup_failed].
  unfold _send_event. apply sim_write_then.
  apply sim_bind; [| intros _; apply sim_recurse].
  destruct (last_usage l1); repeat step.
Qed.

Lemma sim_finish_without_tools (line : string) (l : locals) :
  sim (finish_without_tools body request_id line l).
Proof.
  unfold finish_without_tools, _send_event. repeat step.
Qed.

Lemma sim_read_loop (lines : list string) (tail : option exn) :
  forall l : locals,
    sim (read_loop recurse body max_iterations request_id pte lines tail l).
Proof.
  induction lines as [| line rest IH]; intros l.
  - rewrite read_loop_nil. destruct tail; [apply sim_raise | apply sim_ret].
  - rewrite read_loop_cons.
    destruct (String.eqb line ""); [apply sim_ret |].
    destruct (startswith (strip line) "data:").
    + destruct (String.eqb (strip (drop 5 (strip line))) "[DONE]").
      * unfold at_done. destruct (tool_call_buffer l);
          [apply sim_finish_without_tools | apply sim_continue_with_tools].
      * apply sim_bind; [| intros l1].
        { destruct (json_loads (strip (drop 5 (strip line))));
            [apply sim_process_chunk | apply sim_ret]. }
        apply sim_bind; [apply sim_write_raw | intros ok].
        destruct ok; [apply IH | apply sim_ret].
    + apply sim_bind; [apply sim_write_raw | intros ok].
      destruct ok; [apply IH | apply sim_ret].
Qed.

End SimTurn.

Lemma sim_handle_streaming_body (recurse : dict -> bool -> Z -> M unit)
      (b : dict) (is_first : bool) (m : Z) :
  (forall b f m, sim (recurse b f m)) ->
  sim (handle_streaming_body recurse b is_first m).
Proof.
  intros Hrec. unfold handle_streaming_body.
  apply sim_bind; [apply sim_getenv_max | intros env_max].
  destruct (override_budget env_max m <=? 0)%Z.
  - unfold report_budget_exhausted, _send_error, _send_event. repeat step.
  - apply sim_bind; [apply sim_time_time | intros now].
    apply sim_bind; [apply sim_maybe_send_headers | intros _].
    apply sim_bind; [apply sim_request | intros resp].
    destruct resp as [message | lines tail].
    + unfold report_upstream_failure, _send_error, _send_event. repeat step.
    + apply sim_try.
      * now apply sim_read_loop.
      * intros e. unfold streaming_failed, _send_event. repeat step.
Qed.

Lemma sim_handle_streaming (fuel : nat) :
  forall (b : dict) (is_first : bool) (m : Z),
    sim (handle_streaming fuel b is_first m).
Proof.
  induction fuel as [| fuel IH]; intros b is_first m.
  - apply sim_out_of_fuel.
  - apply sim_handle_streaming_body. exact IH.
Qed.

End WriteFailures.

Lemma same_attempts_refl (st : St) : same_attempts st st.
Proof. now repeat split. Qed.

(** C9: what the handler does is the same whether the writes of
    synthetic events (and of the literal [DONE]) go through or fail: two
    runs against clients that treat the writes of raw upstream lines
    alike end with the same outcome after the same attempted writes, the
    same upstream requests and the same tool executions. The one write
    whose failure the loop acts upon is the forwarding of a raw line: when
    it fails, the loop stops there. *)
Theorem C9_event_write_failures_ignored {lib : PyLib} (env1 env2 : Env)
        (fuel : nat) (body : dict) (is_first : bool) (max_iterations : Z)
        (st : St) :
  differ_on_event_writes_only env1 env2 ->
  let r1 := handle_streaming fuel body is_first max_iterations env1 st in
  let r2 := handle_streaming fuel body is_first max_iterations env2 st in
  fst r1 = fst r2
  /\ map fst (written (snd r1)) = map fst (written (snd r2))
  /\ requests (snd r1) = requests (snd r2)
  /\ executed (snd r1) = executed (snd r2)
  /\ (forall recurse request_id pte line rest tail l,
         line <> "" ->
         startswith (strip line) "data:" = false ->
         wfile_ok env1 (List.length (written st)) (Raw line) = false ->
         let r := read_loop recurse body max_iterations request_id pte
                            (line :: rest) tail l env1 st in
         fst r = Ok tt
         /\ written (snd r) = written st ++ [(Raw line, false)]
         /\ requests (snd r) = requests st
         /\ executed (snd r) = executed st).
Proof.
  intros Henvs r1 r2.
  destruct (sim_handle_streaming env1 env2 Henvs fuel body is_first
                                 max_iterations st st (same_attempts_refl st))
    as (Hr & _ & Hw & Hq & Hx & _).
  split; [exact Hr |]. split; [exact Hw |]. split; [exact Hq |].
  split; [exact Hx |].
  intros recurse request_id pte line rest tail l Hline Hdata Hfail r.
  subst r. rewrite read_loop_cons.
  destruct (String.eqb_spec line ""); [contradiction |].
  rewrite Hdata. unfold bind, _write. simpl. rewrite Hfail. simpl.
  now repeat split.
Qed.

(** ** A chain that never ends

    With a positive override in the environment, an upstream that asks for
    a tool on every turn keeps the chain going for ever. *)

Lemma tool_line_read :
  String.eqb tool_line "" = false
  /\ startswith (strip tool_line) "data:" = true
  /\ String.eqb (strip (drop 5 (strip tool_line))) "[DONE]" = false
  /\ json_loads (PyLib := sample_lib) (strip (drop 5 (strip tool_line)))
     = Some tool_chunk.
Proof. vm_compute. repeat split. Qed.

Lemma done_line_read :
  String.eqb done_line "" = false
  /\ startswith (strip done_line) "data:" = true
  /\ String.eqb (strip (drop 5 (strip done_line))) "[DONE]" = true.
Proof. vm_compute. repeat split. Qed.

Lemma process_tool_chunk (request_id : string) (pte : Z) (env : Env)
      (st : St) :
  exists (l1 : locals) (st1 : St),
    process_chunk (lib := sample_lib) request_id pte tool_chunk initial_locals
                  env st
    = (Ok l1, st1)
    /\ tool_call_buffer l1 = tool_buffer
    /\ requests st1 = requests st.
Proof.
  unfold process_chunk.
  cbn -[_maybe_emit_usage_estimate].
  unfold bind at 1.
  destruct (maybe_emit_run request_id pte false initial_locals env st)
    as (l1 & st1 & new & -> & _ & _ & _ & R & _ & _ & B).
  cbn. rewrite B. cbn. eexists _, _. repeat split. exact R.
Qed.

Lemma run_tool_buffer (request_id : string) (pte : Z) (l : locals)
      (env : Env) (st : St) :
  exists (l2 : locals) (st2 : St) (result : dict),
    run_tool_calls (lib := sample_lib) request_id pte tool_buffer l [] env st
    = (Ok (l2, [("idx:0", result)]), st2)
    /\ requests st2 = requests st
    /\ tool_call_buffer l2 = tool_call_buffer l.
Proof.
  unfold tool_buffer. rewrite run_tool_calls_cons.
  cbn [buf_name truthy negb String.eqb Ascii.eqb Bool.eqb].
  cbv zeta. unfold bind at 1, _send_event at 1, _write at 1. cbv beta iota.
  unfold bind at 1.
  match goal with
  | |- context [_maybe_emit_usage_estimate request_id pte true ?l0 env ?s] =>
      destruct (maybe_emit_run request_id pte true l0 env s)
        as (l1 & st1 & new1 & -> & _ & _ & _ & R1 & _ & _ & U1)
  end.
  cbv beta iota. unfold bind at 1.
  unfold execute_tool at 1. cbn -[_maybe_emit_usage_estimate _send_event].
  unfold bind at 1, _send_event at 1, _write at 1. cbv beta iota.
  unfold bind at 1.
  match goal with
  | |- context [_maybe_emit_usage_estimate request_id pte true ?l0 env ?s] =>
      destruct (maybe_emit_run request_id pte true l0 env s)
        as (l2 & st2 & new2 & -> & _ & _ & _ & R2 & _ & _ & U2)
  end.
  cbv beta iota. cbn [run_tool_calls ret].
  eexists _, _, _. split; [reflexivity |]. split.
  - rewrite R2. cbn. rewrite R1. reflexivity.
  - rewrite U2, U1. reflexivity.
Qed.

Lemma inject_tools_messages (body : dict) :
  dict_get (inject_tools body) "messages" = dict_get body "messages".
Proof.
  assert (Hset : forall (d : dict) k v,
             k <> "messages" ->
             dict_get (dict_set d k v) "messages" = dict_get d "messages").
  { intros d k v Hk. induction d as [| [k' v'] d IH]; simpl.
    - destruct (String.eqb_spec k "messages"); [contradiction | reflexivity].
    - destruct (String.eqb_spec k' k) as [-> | Hne]; simpl.
      + destruct (String.eqb_spec k "messages"); [contradiction | reflexivity].
      + now rewrite IH. }
  unfold inject_tools.
  destruct (negb (dict_has body "tools")
            || negb (truthy (dict_get_default body "tools" JNull)));
    [| reflexivity].
  rewrite !Hset by discriminate. reflexivity.
Qed.

Section OverrideLoop.

Variable env : Env.
Variable k : Z.
Hypothesis override : env_max env = Some k.
Hypothesis override_positive : (0 < k)%Z.
Hypothesis always_a_tool :
  forall i b, upstream env i b = UpstreamStream [tool_line; done_line] None.
Hypothesis client_listens : forall i, wfile_ok env i (Raw tool_line) = true.

(** One such turn ends in the recursive call. *)
Lemma tool_turn (recurse : dict -> bool -> Z -> M unit) (body : dict)
      (request_id : string) (pte : Z) (st : St) (msgs : list json) :
  dict_get body "messages" = Some (JArr msgs) ->
  exists (body' : dict) (st' : St) (msgs' : list json),
    read_loop (lib := sample_lib) recurse body k request_id pte
              [tool_line; done_line] None initial_locals env st
    = try_except (recurse body' false (k - 1)%Z) (followup_failed request_id)
                 env st'
    /\ requests st' = requests st
    /\ dict_get body' "messages" = Some (JArr msgs').
Proof.
  intros Hmsgs.
  destruct tool_line_read as (T1 & T2 & T3 & T4).
  destruct done_line_read as (D1 & D2 & D3).
  rewrite read_loop_cons, T1, T2, T3, T4.
  unfold bind at 1.
  destruct (process_tool_chunk request_id pte env st)
    as (l1 & st1 & -> & B1 & R1).
  unfold bind at 1, _write at 1. cbv beta iota. rewrite client_listens.
  rewrite read_loop_cons, D1, D2, D3.
  unfold at_done. rewrite B1. unfold tool_buffer at 1.
  unfold continue_with_tools. rewrite B1.
  unfold bind at 1.
  match goal with
  | |- context [run_tool_calls request_id pte tool_buffer l1 [] env ?s] =>
      destruct (run_tool_buffer request_id pte l1 env s)
        as (l2 & st2 & result & -> & R2 & U2)
  end.
  cbv beta iota. rewrite U2, B1.
  unfold dict_get_default. rewrite Hmsgs.
  cbn -[try_except followup_failed _send_event next_prompt_estimate].
  unfold try_except at 1.
  unfold bind at 1, _send_event at 1, _write at 1. cbv beta iota.
  unfold bind at 1.
  destruct (last_usage l2).
  - unfold ret at 1. cbv beta iota.
    eexists _, _, _. split; [reflexivity |]. split.
    + cbn. rewrite R2. cbn. exact R1.
    + apply dict_get_set_same.
  - unfold bind at 1, _send_event at 1, _write at 1, ret at 1. cbv beta iota.
    eexists _, _, _. split; [reflexivity |]. split.
    + cbn. rewrite R2. cbn. exact R1.
    + apply dict_get_set_same.
Qed.

(** However deep the chain is followed, it has not returned and has sent
    one upstream request per invocation: the budget it is called with
    plays no part. *)
Theorem override_chain_never_ends (n : nat) :
  forall (body : dict) (is_first : bool) (max_iterations : Z) (st : St)
         (msgs : list json),
    dict_get body "messages" = Some (JArr msgs) ->
    let r := handle_streaming (lib := sample_lib) n body is_first
                              max_iterations env st in
    fst r = OutOfFuel
    /\ List.length (requests (snd r)) = (List.length (requests st) + n)%nat.
Proof.
  induction n as [| n IH]; intros body is_first mi st msgs Hmsgs r; subst r.
  - simpl. split; [reflexivity | lia].
  - change (handle_streaming (S n) body is_first mi)
      with (handle_streaming_body (lib := sample_lib)
              (handle_streaming (lib := sample_lib) n) body is_first mi).
    destruct (past_budget_check (lib := sample_lib) env
                (handle_streaming (lib := sample_lib) n) body is_first mi st)
      as (hs & hc & ->).
    { rewrite override, override_budget_set by exact override_positive.
      exact override_positive. }
    cbv zeta.
    rewrite always_a_tool, override, override_budget_set
      by exact override_positive.
    destruct (tool_turn (handle_streaming (lib := sample_lib) n)
                (inject_tools body)
                (request_id_of (clock env (clock_reads st)))
                (_estimate_tokens
                   (prompt_text_of (lib := sample_lib) (inject_tools body)))
                (after_request (inject_tools body) hs hc st) msgs)
      as (body' & st' & msgs' & E & R & Hmsgs').
    { now rewrite inject_tools_messages. }
    destruct (IH body' false (k - 1)%Z st' msgs' Hmsgs') as (Hf & Hr).
    match goal with
    | |- context [try_except ?m ?h env ?s] =>
        assert (Hrun : try_except m h env s
                       = (OutOfFuel,
                          snd (handle_streaming (lib := sample_lib) n body'
                                                false (k - 1)%Z env st')))
    end.
    { unfold try_except at 1. rewrite E. unfold try_except at 1.
      destruct (handle_streaming (lib := sample_lib) n body' false (k - 1)%Z
                                 env st') as [o s'].
      simpl in Hf. subst o. reflexivity. }
    rewrite Hrun. cbn [fst snd]. split; [reflexivity |].
    rewrite Hr, R. simpl. rewrite length_app. simpl. lia.
Qed.

End OverrideLoop.

(** * The properties on sample runs *)

Lemma C2_fragmentation_invariance_witness :
  echo_buffer = echo_buffer
  /\ exists entry : fragment,
      dict_get echo_buffer "idx:0" = Some entry
      /\ dict_get echo_buffer "idx:0" = Some entry.
Proof.
  apply (C2_fragmentation_invariance (lib := sample_lib)
           [] echo_buffer echo_buffer "idx:0" echo_split echo_whole).
  - discriminate.
  - discriminate.
  - repeat constructor.
  - repeat constructor.
  - reflexivity.
  - reflexivity.
  - reflexivity.
  - reflexivity.
  - reflexivity.
Defined.

(** C1 (the code at the failing input): with
    [II_AI_MAX_TOOL_ITERATIONS=1] and an upstream that asks for a tool on
    every turn, a call chain started with the default budget of 10 never
    ends: each invocation resets the budget to the override, so however
    deep the chain is followed, it has sent as many upstream requests as
    it is deep and has not returned. At depth 25 it has executed 25 tools
    and written no [DONE]. *)
Theorem C1_override_resets_budget :
  (forall n : nat,
      let r := handle_streaming (lib := sample_lib) n sample_body true 10
                                env_override initial_St in
      fst r = OutOfFuel /\ List.length (requests (snd r)) = n)
  /\ (let r := handle_streaming (lib := sample_lib) 25 sample_body true 10
                                env_override initial_St in
      List.length (executed (snd r)) = 25%nat
      /\ existsb is_done_sentinel (map fst (written (snd r))) = false).
Proof.
  split.
  - intros n.
    apply (override_chain_never_ends env_override 1 eq_refl eq_refl
             (fun _ _ => eq_refl) (fun _ => eq_refl) n sample_body true 10%Z
             initial_St
             [JObj [("role", JStr "user"); ("content", JStr "hi")]]).
    reflexivity.
  - vm_compute. split; reflexivity.
Qed.

(** C3 (the code at the failing input): upstream streams some content and
    then the final chunk that has the usage object and no choices;
    reading [choices[0]] raises, the handler around the loop writes one
    error event, and the method returns without any [DONE]. *)
Theorem C3_streaming_error_without_done :
  let r := handle_streaming (lib := sample_lib) 1 sample_body true 10
                            env_usage_chunk initial_St in
  fst r = Ok tt
  /\ map fst (written (snd r))
     = [ Event (usage_event (JNum 9) (JNum 2) (JNum 11) true
                            (Some "19a49ef2240"));
         Raw (sse (content_delta "Hello"));
         Event (error_event "Streaming error: list index out of range"
                            "backend" "19a49ef2240") ]
  /\ existsb is_done_sentinel (map fst (written (snd r))) = false.
Proof. vm_compute. repeat split. Qed.

(** C4 (counterexample): in a chain of two turns, a second apart, no one
    request id is carried by all the events. *)
Lemma C4_counterexample_request_id_changes :
  ~ exists request_id : string,
      Forall (fun w => carries_request_id request_id (fst w))
             (written (snd (handle_streaming (lib := sample_lib) 2 sample_body
                                             true 10 env_two_turns
                                             initial_St))).
Proof.
  intros (rid & HF). rewrite Forall_forall in HF.
  assert (H1 : carries_request_id rid
                 (Event (continuation_event "19a49ef2240"))).
  { apply (HF (Event (continuation_event "19a49ef2240"), true)).
    vm_compute. do 6 right. left. reflexivity. }
  assert (H2 : carries_request_id rid
                 (Event (usage_event (JNum 78) (JNum 2) (JNum 80) true
                                     (Some "19a49ef31e0")))).
  { apply (HF (Event (usage_event (JNum 78) (JNum 2) (JNum 80) true
                                  (Some "19a49ef31e0")), true)).
    vm_compute. do 8 right. left. reflexivity. }
  specialize (H1 _ eq_refl). specialize (H2 _ eq_refl).
  rewrite <- H2 in H1. discriminate H1.
Qed.

Lemma no_continuation_silent : silent no_continuation.
Proof. intros b f m env st. reflexivity. Qed.

Lemma C4_request_id_per_invocation_witness :
  (exists new : list (wdata * bool),
      written (snd (handle_streaming_body (lib := sample_lib) no_continuation
                                          sample_body true 10 env_two_turns
                                          initial_St))
      = written initial_St ++ new
      /\ Forall (fun w =>
                   carries_request_id
                     (request_id_of (clock env_two_turns
                                           (clock_reads initial_St))) (fst w))
                new)
  /\ (forall now' : Z,
         request_id_of now'
         = request_id_of (clock env_two_turns (clock_reads initial_St))
         <-> Z.quot now' 1000
             = Z.quot (clock env_two_turns (clock_reads initial_St)) 1000).
Proof.
  apply (C4_request_id_per_invocation (lib := sample_lib) env_two_turns
           no_continuation sample_body true 10 initial_St).
  intros b f m env st. reflexivity.
Defined.

Lemma C5_no_estimate_after_usage_witness :
  exists new : list (wdata * bool),
    written (snd (read_loop (lib := sample_lib) no_continuation
                            (inject_tools sample_body) 10 "19a49ef2240" 9
                            (sse content_with_usage
                             :: [sse (content_delta " world"); done_line])
                            None initial_locals env_two_turns initial_St))
    = written initial_St ++ new
    /\ Forall (fun w => is_estimated_usage (fst w) = false) new.
Proof.
  apply (C5_no_estimate_after_usage (lib := sample_lib) env_two_turns
           no_continuation (inject_tools sample_body) 10 "19a49ef2240" 9
           (sse content_with_usage)
           [sse (content_delta " world"); done_line] None initial_locals
           [("choices",
             JArr [JObj [("delta", JObj [("content", JStr "Hello")])]]);
            ("usage", JObj [("prompt_tokens", JNum 9);
                            ("completion_tokens", JNum 2);
                            ("total_tokens", JNum 11)])]
           [("prompt_tokens", JNum 9); ("completion_tokens", JNum 2);
            ("total_tokens", JNum 11)]
           initial_St).
  - intros b f m env st. reflexivity.
  - discriminate.
  - reflexivity.
  - discriminate.
  - reflexivity.
  - reflexivity.
Defined.

(** C6 (counterexample): upstream streams the call of index 1 before the
    call of index 0; the call of index 1 is executed first. *)
Lemma C6_counterexample_index_order :
  let st' := snd (handle_streaming (lib := sample_lib) 2 sample_body true 10
                                   env_swapped initial_St) in
  executed st'
  = [ (JStr "switch_to_search_mode", JObj []);
      (JStr "no_such_tool", JObj []) ]
  /\ tool_events (written st')
     = announcements (lib := sample_lib) swapped_buffer
  /\ ~ precedes (JStr "no_such_tool", JObj [])
                (JStr "switch_to_search_mode", JObj []) (executed st').
Proof.
  intros st'.
  assert (E : executed st'
              = [ (JStr "switch_to_search_mode", JObj []);
                  (JStr "no_such_tool", JObj []) ])
    by (vm_compute; reflexivity).
  split; [exact E |]. split; [vm_compute; reflexivity |].
  intros (a & b & c & H).
  pose proof (eq_trans (eq_sym E) H) as H'. clear H E. rename H' into H.
  destruct a as [| x [| y [| z a]]]; simpl in H; try discriminate.
  all: destruct b as [| y' [| z' b]]; simpl in H; discriminate.
Qed.

Lemma C6_execution_in_buffer_order_witness :
  map fst swapped_buffer
  = first_seen (map fst ([] : odict fragment))
               (keys_of (lib := sample_lib) swapped_fragments)
  /\ exists (st' : St) (new : list (wdata * bool)),
      executed st'
      = executed initial_St
        ++ map (invocation_of (lib := sample_lib)) (filter named swapped_buffer)
      /\ written st' = written initial_St ++ new
      /\ tool_events new = announcements (lib := sample_lib) swapped_buffer.
Proof.
  destruct (C6_execution_in_buffer_order (lib := sample_lib)) as (Hkeys & Hrun).
  split.
  - apply (Hkeys swapped_fragments [] swapped_buffer). reflexivity.
  - eexists.
    eapply (Hrun "19a49ef2240" 9%Z swapped_buffer
                 (set_tool_call_buffer swapped_buffer initial_locals) []
                 env_swapped initial_St).
    cbv. reflexivity.
Defined.

Lemma C7_single_followup_witness :
  exists (st' : St) (prior : list json) (calls : list (json * json))
         (tool_msgs : list json) (body2 : dict),
    dict_get_default (inject_tools sample_body) "messages" (JArr [])
    = JArr prior
    /\ map (requested_call (lib := sample_lib))
           [JObj [("id", JStr "call_0"); ("type", JStr "function");
                  ("function", JObj [("name", JStr "switch_to_search_mode");
                                     ("arguments", JStr "{}")])]]
       = map Success calls
    /\ executed st' = executed initial_St ++ calls
    /\ requests st'
       = requests initial_St ++ [inject_tools sample_body; body2]
    /\ dict_has body2 "tools" = false
    /\ dict_get body2 "messages"
       = Some (JArr (prior
                     ++ JObj [("role", JStr "assistant");
                              ("content", JNull);
                              ("tool_calls",
                               JArr [JObj [("id", JStr "call_0");
                                           ("type", JStr "function");
                                           ("function",
                                            JObj [("name",
                                                   JStr "switch_to_search_mode");
                                                  ("arguments", JStr "{}")])]])]
                     :: tool_msgs))
    /\ map tool_call_id_of tool_msgs = map call_id
         [JObj [("id", JStr "call_0"); ("type", JStr "function");
                ("function", JObj [("name", JStr "switch_to_search_mode");
                                   ("arguments", JStr "{}")])]]
    /\ Forall (fun m => is_tool_message m = true) tool_msgs
    /\ response_with_call "call_9" "no_such_tool"
       = followup_result (lib := sample_lib)
           (upstream env_non_streaming
                     (S (List.length (requests initial_St))) body2).
Proof.
  eexists.
  eapply (C7_single_followup (lib := sample_lib) env_non_streaming sample_body
            initial_St _
            [sample_dumps (response_with_call "call_0" "switch_to_search_mode")]
            (response_with_call "call_0" "switch_to_search_mode")).
  - repeat constructor; simpl; intuition discriminate.
  - reflexivity.
  - reflexivity.
  - reflexivity.
  - reflexivity.
  - discriminate.
  - cbv. reflexivity.
Defined.

Lemma C9_event_write_failures_ignored_witness :
  let r1 := handle_streaming (lib := sample_lib) 3 sample_body true 10
                             env_two_turns initial_St in
  let r2 := handle_streaming (lib := sample_lib) 3 sample_body true 10
                             env_deaf_to_events initial_St in
  fst r1 = fst r2
  /\ map fst (written (snd r1)) = map fst (written (snd r2))
  /\ requests (snd r1) = requests (snd r2)
  /\ executed (snd r1) = executed (snd r2)
  /\ (forall recurse request_id pte line rest tail l,
         line <> "" ->
         startswith (strip line) "data:" = false ->
         wfile_ok env_two_turns (List.length (written initial_St)) (Raw line)
         = false ->
         let r := read_loop (lib := sample_lib) recurse sample_body 10
                            request_id pte (line :: rest) tail l
                            env_two_turns initial_St in
         fst r = Ok tt
         /\ written (snd r) = written initial_St ++ [(Raw line, false)]
         /\ requests (snd r) = requests initial_St
         /\ executed (snd r) = executed initial_St).
Proof.
  apply (C9_event_write_failures_ignored (lib := sample_lib)
           env_two_turns env_deaf_to_events 3 sample_body true 10 initial_St).
  repeat split.
Defined.

Lemma C10_unnamed_buffer_continues_witness :
  let body := inject_tools sample_body in
  let messages := [JObj [("role", JStr "user"); ("content", JStr "hi")]] in
  let body' :=
    dict_set body "messages"
             (JArr (messages ++ [assistant_message nameless_locals])) in
  exists (st1 : St) (new : list (wdata * bool)),
    at_done (lib := sample_lib) no_continuation body 10 "19a49ef2240" 9
            done_line nameless_locals env_two_turns initial_St
    = try_except (no_continuation body' false (10 - 1)%Z)
                 (followup_failed "19a49ef2240") env_two_turns st1
    /\ written st1 = written initial_St ++ new
    /\ map fst new
       = Event (continuation_event "19a49ef2240")
         :: match last_usage nameless_locals with
            | None => [Event (next_prompt_estimate (lib := sample_lib)
                                                   "19a49ef2240" body')]
            | Some _ => []
            end
    /\ executed st1 = executed initial_St
    /\ requests st1 = requests initial_St
    /\ py_get (assistant_message nameless_locals) "tool_calls" JNull
       = Success (JArr []).
Proof.
  apply (C10_unnamed_buffer_continues (lib := sample_lib) env_two_turns
           no_continuation (inject_tools sample_body) 10 "19a49ef2240" 9
           done_line nameless_locals
           [JObj [("role", JStr "user"); ("content", JStr "hi")]] initial_St).
  - discriminate.
  - repeat constructor.
  - reflexivity.
  - reflexivity.
Defined.

(** * Properties of the rest of the code *)

(** ** Tool injection *)

Lemma dict_get_set_other {V} (d : odict V) (k k' : string) (v : V) :
  k <> k' -> dict_get (dict_set d k v) k' = dict_get d k'.
Proof.
  intros Hk. induction d as [| [k0 v0] d IH]; simpl.
  - destruct (String.eqb_spec k k'); [contradiction | reflexivity].
  - destruct (String.eqb_spec k0 k) as [-> | Hne]; simpl.
    + destruct (String.eqb_spec k k'); [contradiction | reflexivity].
    + now rewrite IH.
Qed.

Lemma truthy_get_has (body : dict) (k : string) :
  truthy (dict_get_default body k JNull) = true -> dict_has body k = true.
Proof.
  unfold dict_get_default, dict_has.
  destruct (dict_get body k); [reflexivity | discriminate].
Qed.

(** X6: the tool definitions are injected only when the request brings none:
    afterwards the body always has tools, injecting twice is injecting
    once, tools the caller gave (a list that is not empty) are left as
    they are, and no field but ["tools"] and ["tool_choice"] is touched. *)
Theorem inject_tools_keeps_caller_tools (body : dict) :
  truthy (dict_get_default (inject_tools body) "tools" JNull) = true
  /\ inject_tools (inject_tools body) = inject_tools body
  /\ (truthy (dict_get_default body "tools" JNull) = true ->
      inject_tools body = body)
  /\ (forall k : string,
         k <> "tools" -> k <> "tool_choice" ->
         dict_get (inject_tools body) k = dict_get body k).
Proof.
  assert (Hkeep : forall b : dict,
             truthy (dict_get_default b "tools" JNull) = true ->
             inject_tools b = b).
  { intros b Hb. unfold inject_tools.
    rewrite (truthy_get_has _ _ Hb), Hb. reflexivity. }
  assert (Hsome : truthy (dict_get_default (inject_tools body) "tools" JNull)
                  = true).
  { unfold inject_tools.
    destruct (negb (dict_has body "tools")) eqn:Hhas; simpl.
    - unfold dict_get_default.
      rewrite dict_get_set_other by discriminate.
      now rewrite dict_get_set_same.
    - destruct (truthy (dict_get_default body "tools" JNull)) eqn:Ht; simpl.
      + exact Ht.
      + unfold dict_get_default.
        rewrite dict_get_set_other by discriminate.
        now rewrite dict_get_set_same. }
  split; [exact Hsome |]. split; [now apply Hkeep |].
  split; [apply Hkeep |].
  intros k Htools Hchoice. unfold inject_tools.
  destruct (negb (dict_has body "tools")
            || negb (truthy (dict_get_default body "tools" JNull)));
    [| reflexivity].
  rewrite !dict_get_set_other; [reflexivity | | ]; congruence.
Qed.

(** ** The non-streaming handler *)

Lemma bind_lift {A B} (r : result A) (k : A -> M B) (env : Env) (st : St) :
  bind (lift r) k env st
  = match r with
    | Success a => k a env st
    | Failure e => (Raised e, st)
    end.
Proof. destruct r; reflexivity. Qed.

Lemma client_untouched_refl (a : St) : client_untouched a a.
Proof. repeat split. Qed.

Lemma client_untouched_trans (a b c : St) :
  client_untouched a b -> client_untouched b c -> client_untouched a c.
Proof.
  unfold client_untouched, headers_kept.
  intros (W1 & C1 & R1 & H1 & S1) (W2 & C2 & R2 & H2 & S2).
  repeat split; congruence.
Qed.

Section NonStreamingEffects.

Context {lib : PyLib}.
Variable env : Env.

Lemma execute_tool_untouched (tool_name args : json) :
  sat env True client_untouched (fun _ => True) (execute_tool tool_name args).
Proof.
  apply (execute_tool_sat env True client_untouched
           client_untouched_refl client_untouched_trans).
  - intros n a st. repeat split.
  - intros op st. repeat split.
Qed.

Lemma execute_tool_calls_untouched (tcs : list json) :
  forall messages : json,
    sat env True client_untouched (fun _ => True)
        (execute_tool_calls tcs messages).
Proof.
  induction tcs as [| tc rest IH]; intros messages; simpl.
  - apply sat_ret; [exact client_untouched_refl | exact I].
  - repeat first
      [ apply IH
      | apply sat_lift; [exact client_untouched_refl | intros; exact I]
      | apply execute_tool_untouched
      | eapply (sat_bind_gen env True client_untouched client_untouched
                             client_untouched (fun _ => True));
        [ now auto | exact client_untouched_trans | | intros ? _ ] ].
Qed.

End NonStreamingEffects.

(** X7: with no tool call in the response, the non-streaming handler sends
    one request (with the tools injected), executes nothing, and returns
    the upstream response as it is. *)
Theorem non_streaming_without_tool_calls {lib : PyLib} (env : Env)
        (body : dict) (st : St) (lines : list string)
        (response_data message tool_calls : json) :
  upstream env (List.length (requests st)) (inject_tools body)
  = UpstreamStream lines None ->
  json_loads (join lines) = Some response_data ->
  response_message response_data = Success message ->
  py_get message "tool_calls" (JArr []) = Success tool_calls ->
  truthy tool_calls = false ->
  let r := handle_non_streaming body env st in
  fst r = Ok response_data
  /\ requests (snd r) = requests st ++ [inject_tools body]
  /\ executed (snd r) = executed st
  /\ host_ops (snd r) = host_ops st
  /\ written (snd r) = written st.
Proof.
  intros Hup Hloads Hmsg Hcalls Hfalsy r.
  assert (E : handle_non_streaming body env st
              = (Ok response_data,
                 {| clock_reads := clock_reads st; written := written st;
                    requests := requests st ++ [inject_tools body];
                    executed := executed st; host_ops := host_ops st;
                    _headers_sent := _headers_sent st;
                    header_calls := header_calls st |})).
  { unfold handle_non_streaming.
    unfold bind at 1, request_chat_completions at 1. rewrite Hup.
    unfold read_json. rewrite Hloads.
    unfold response_message in Hmsg.
    rewrite bind_lift.
    destruct (py_get response_data "choices" (JArr [JObj []]))
      as [choices | e]; [| discriminate].
    simpl in Hmsg. rewrite bind_lift.
    destruct (py_item0 choices) as [choice | e]; [| discriminate].
    simpl in Hmsg. rewrite bind_lift, Hmsg, bind_lift, Hcalls, Hfalsy.
    reflexivity. }
  subst r. rewrite E. repeat split.
Qed.

(** The effects of the non-streaming handler, whatever upstream answers. *)
Lemma handle_non_streaming_effects {lib : PyLib} (env : Env)
        (body : dict) (st : St) :
  let r := handle_non_streaming body env st in
  written (snd r) = written st
  /\ clock_reads (snd r) = clock_reads st
  /\ headers_kept st (snd r)
  /\ (exists more : list dict,
         requests (snd r) = requests st ++ inject_tools body :: more
         /\ (List.length more <= 1)%nat)
  /\ fst r <> OutOfFuel.
Proof.
  intros r.
  assert (E : r = handle_non_streaming body env st) by reflexivity.
  clearbody r. revert E.
  unfold handle_non_streaming.
  unfold bind at 1, request_chat_completions at 1.
  set (st1 := {| clock_reads := clock_reads st; written := written st;
                 requests := requests st ++ [inject_tools body];
                 executed := executed st; host_ops := host_ops st;
                 _headers_sent := _headers_sent st;
                 header_calls := header_calls st |}).
  assert (Hone : forall (o : outcome json),
             o <> OutOfFuel ->
             r = (o, st1) ->
             written (snd r) = written st
             /\ clock_reads (snd r) = clock_reads st
             /\ headers_kept st (snd r)
             /\ (exists more : list dict,
                    requests (snd r)
                    = requests st ++ inject_tools body :: more
                    /\ (List.length more <= 1)%nat)
             /\ fst r <> OutOfFuel).
  { intros o Ho ->. simpl.
    split; [reflexivity |]. split; [reflexivity |].
    split; [split; reflexivity |]. split; [| exact Ho].
    exists []. split; [reflexivity |]. simpl. lia. }
  destruct (upstream env (List.length (requests st)) (inject_tools body))
    as [message | lines tail].
  { apply Hone. discriminate. }
  destruct (read_json lines tail) as [response_data | e];
    [| apply Hone; discriminate].
  rewrite bind_lift.
  destruct (py_get response_data "choices" (JArr [JObj []]))
    as [choices | e]; [| apply Hone; discriminate].
  rewrite bind_lift.
  destruct (py_item0 choices) as [choice | e]; [| apply Hone; discriminate].
  rewrite bind_lift.
  destruct (py_get choice "message" (JObj [])) as [message | e];
    [| apply Hone; discriminate].
  rewrite bind_lift.
  destruct (py_get message "tool_calls" (JArr [])) as [tool_calls | e];
    [| apply Hone; discriminate].
  destruct (truthy tool_calls); [| apply Hone; discriminate].
  rewrite bind_lift.
  destruct (py_append (dict_get_default (inject_tools body) "messages"
                                        (JArr [])) message)
    as [messages | e]; [| apply Hone; discriminate].
  rewrite bind_lift.
  destruct (py_iter tool_calls) as [tcs | e]; [| apply Hone; discriminate].
  unfold bind at 1.
  destruct (execute_tool_calls_untouched env tcs messages st1)
    as ((W & C & R & HC & HS) & _ & NF).
  destruct (execute_tool_calls tcs messages env st1) as [[m2 | e |] st2].
  - simpl in W, C, R, HC, HS.
    unfold bind at 1, request_chat_completions at 1.
    match goal with
    | |- context [upstream env ?n ?b] => set (body2 := b)
    end.
    assert (Htwo : forall (o : outcome json) (st3 : St),
               o <> OutOfFuel ->
               written st3 = written st2 ->
               clock_reads st3 = clock_reads st2 ->
               header_calls st3 = header_calls st2 ->
               _headers_sent st3 = _headers_sent st2 ->
               requests st3 = requests st2 ++ [body2] ->
               r = (o, st3) ->
               written (snd r) = written st
               /\ clock_reads (snd r) = clock_reads st
               /\ headers_kept st (snd r)
               /\ (exists more : list dict,
                      requests (snd r)
                      = requests st ++ inject_tools body :: more
                      /\ (List.length more <= 1)%nat)
               /\ fst r <> OutOfFuel).
    { intros o st3 Ho W3 C3 HC3 HS3 R3 ->. simpl.
      split; [congruence |]. split; [congruence |].
      split; [split; congruence |]. split; [| exact Ho].
      exists [body2]. split; [| simpl; lia].
      rewrite R3, R. now rewrite <- app_assoc. }
    destruct (upstream env (List.length (requests st2)) body2)
      as [msg2 | lines2 tail2].
    + apply Htwo; try reflexivity. discriminate.
    + destruct (read_json lines2 tail2).
      all: apply Htwo; try reflexivity; discriminate.
  - simpl in W, C, R, HC, HS. intros ->. simpl.
    split; [congruence |]. split; [congruence |].
    split; [split; congruence |]. split; [| discriminate].
    exists []. split; [| simpl; lia]. rewrite R. reflexivity.
  - exfalso. now apply NF.
Qed.

(** X8: whatever upstream answers, the non-streaming handler writes nothing
    to the client, reads no clock and sends no headers; it sends the
    request with the tools injected and at most one more. *)
Theorem non_streaming_effects_bounded {lib : PyLib} (env : Env)
        (body : dict) (st : St) :
  let r := handle_non_streaming body env st in
  written (snd r) = written st
  /\ clock_reads (snd r) = clock_reads st
  /\ headers_kept st (snd r)
  /\ (exists more : list dict,
         requests (snd r) = requests st ++ inject_tools body :: more
         /\ (List.length more <= 1)%nat)
  /\ fst r <> OutOfFuel.
Proof. exact (handle_non_streaming_effects env body st). Qed.

(** ** The base cases of [handle_streaming] *)

(** X4: with the budget exhausted (and no positive override), the handler
    sends no request and no headers and executes nothing: it writes an
    estimated usage event, the error event and [data: [DONE]], and
    returns. *)
Theorem budget_exhausted_reported {lib : PyLib} (env : Env)
        (recurse : dict -> bool -> Z -> M unit) (body : dict)
        (is_first : bool) (max_iterations : Z) (st : St) :
  (override_budget (env_max env) max_iterations <= 0)%Z ->
  let r := handle_streaming_body recurse body is_first max_iterations env st in
  fst r = Ok tt
  /\ map fst (written (snd r))
     = map fst (written st)
       ++ [ Event (usage_event (JNum (_estimate_tokens (prompt_text_of body)))
                               (JNum 0)
                               (JNum (_estimate_tokens (prompt_text_of body)))
                               true None);
            Event (JObj [("type", JStr "error");
                         ("message", JStr max_iterations_message)]);
            DoneLiteral ]
  /\ requests (snd r) = requests st
  /\ executed (snd r) = executed st
  /\ headers_kept st (snd r).
Proof.
  intros Hle r. subst r.
  rewrite (below_budget_check _ _ _ _ _ _ Hle).
  destruct (report_budget_exhausted_run body env st)
    as (ok1 & ok2 & ok3 & ->).
  simpl. rewrite map_app. repeat split.
Qed.

(** An invocation whose upstream request fails. *)
Lemma upstream_failure_run {lib : PyLib} (env : Env)
        (recurse : dict -> bool -> Z -> M unit) (body : dict)
        (is_first : bool) (max_iterations : Z) (st : St) (message : string) :
  (0 < override_budget (env_max env) max_iterations)%Z ->
  upstream env (List.length (requests st)) (inject_tools body)
  = UpstreamFails message ->
  let r := handle_streaming_body recurse body is_first max_iterations env st in
  let prompt_tokens :=
    JNum (_estimate_tokens (prompt_text_of (inject_tools body))) in
  fst r = Ok tt
  /\ map fst (written (snd r))
     = map fst (written st)
       ++ [ Event (usage_event
                     prompt_tokens (JNum 0) prompt_tokens true
                     (Some (request_id_of (clock env (clock_reads st)))));
            Event (JObj [("type", JStr "error"); ("message", JStr message)]);
            DoneLiteral ]
  /\ requests (snd r) = requests st ++ [inject_tools body]
  /\ executed (snd r) = executed st.
Proof.
  intros Hpos Hup r prompt_tokens. subst r prompt_tokens.
  destruct (past_budget_check env recurse body is_first max_iterations st Hpos)
    as (hs & hc & ->).
  cbv zeta. rewrite Hup.
  destruct (report_upstream_failure_run
              (inject_tools body)
              (request_id_of (clock env (clock_reads st))) message env
              (after_request (inject_tools body) hs hc st))
    as (ok1 & ok2 & ok3 & ->).
  simpl. rewrite map_app. repeat split.
Qed.

(** X5: when the upstream request fails, the handler does not retry: it has
    sent that one request, executes nothing, writes an estimated usage
    event, an error event with the message of the failure and
    [data: [DONE]], and returns. *)
Theorem upstream_failure_reported {lib : PyLib} (env : Env)
        (recurse : dict -> bool -> Z -> M unit) (body : dict)
        (is_first : bool) (max_iterations : Z) (st : St) (message : string) :
  (0 < override_budget (env_max env) max_iterations)%Z ->
  upstream env (List.length (requests st)) (inject_tools body)
  = UpstreamFails message ->
  let r := handle_streaming_body recurse body is_first max_iterations env st in
  let prompt_tokens :=
    JNum (_estimate_tokens (prompt_text_of (inject_tools body))) in
  fst r = Ok tt
  /\ map fst (written (snd r))
     = map fst (written st)
       ++ [ Event (usage_event
                     prompt_tokens (JNum 0) prompt_tokens true
                     (Some (request_id_of (clock env (clock_reads st)))));
            Event (JObj [("type", JStr "error"); ("message", JStr message)]);
            DoneLiteral ]
  /\ requests (snd r) = requests st ++ [inject_tools body]
  /\ executed (snd r) = executed st.
Proof.
  exact (upstream_failure_run env recurse body is_first max_iterations st
                              message).
Qed.

(** ** The response headers *)

Lemma headers_kept_refl (a : St) : headers_kept a a.
Proof. split; reflexivity. Qed.

Lemma headers_kept_trans (a b c : St) :
  headers_kept a b -> headers_kept b c -> headers_kept a c.
Proof. unfold headers_kept. intros (H1 & S1) (H2 & S2). split; congruence. Qed.

(** A turn after its request leaves the headers alone when the
    continuation does. *)
Lemma stream_headers_kept {lib : PyLib} (env : Env)
      (recurse : dict -> bool -> Z -> M unit) (body : dict)
      (max_iterations : Z) (request_id : string) (pte : Z)
      (lines : list string) (tail : option exn) :
  (forall b, sat env False headers_kept (fun _ => True)
                 (recurse b false (max_iterations - 1)%Z)) ->
  sat env False headers_kept (fun _ => True)
      (try_except
         (read_loop recurse body max_iterations request_id pte
                    lines tail initial_locals)
         (streaming_failed request_id)).
Proof.
  intros Hrec.
  eapply (sat_try_gen env False headers_kept headers_kept headers_kept);
    [ now auto | exact headers_kept_trans | | ].
  - apply (read_loop_sat env False headers_kept headers_kept)
      with (allowed := fun _ => True) (J := fun _ => True);
      try (intros; exact I); try (intros; split; reflexivity); auto;
      exact headers_kept_trans.
  - intros e. unfold streaming_failed.
    eapply (sat_bind_gen env False headers_kept headers_kept headers_kept)
      with (P := fun _ => True);
      [ now auto | exact headers_kept_trans
      | intros s; split; [split; reflexivity | split; [intros; exact I | intros []]]
      | intros _ _; apply sat_ret; [exact headers_kept_refl | exact I] ].
Qed.

(** A continuation never sends the headers. *)
Lemma continuation_headers_kept {lib : PyLib} (env : Env) (fuel : nat) :
  forall (body : dict) (max_iterations : Z) (st : St),
    headers_kept st
      (snd (handle_streaming fuel body false max_iterations env st)).
Proof.
  induction fuel as [| fuel IH]; intros body mi st;
    [apply headers_kept_refl |].
  change (handle_streaming (S fuel) body false mi)
    with (handle_streaming_body (handle_streaming fuel) body false mi).
  destruct (Z.leb_spec (override_budget (env_max env) mi) 0) as [Hle | Hgt].
  - rewrite below_budget_check by exact Hle.
    destruct (report_budget_exhausted_run body env st)
      as (ok1 & ok2 & ok3 & ->).
    split; reflexivity.
  - unfold handle_streaming_body, bind at 1, getenv_max at 1.
    destruct (Z.leb_spec (override_budget (env_max env) mi) 0); [lia |].
    unfold bind at 1, time_time at 1.
    unfold bind at 1, maybe_send_headers at 1. simpl andb. cbv iota.
    unfold bind at 1, request_chat_completions at 1. cbv beta iota.
    match goal with
    | |- context [upstream env ?n ?b] => destruct (upstream env n b)
                                          as [message | lines tail]
    end.
    + match goal with
      | |- context [report_upstream_failure ?b ?r ?m env ?s] =>
          destruct (report_upstream_failure_run b r m env s)
            as (ok1 & ok2 & ok3 & ->)
      end.
      split; reflexivity.
    + match goal with
      | |- context [try_except ?m ?h env ?s] =>
          change (headers_kept st (snd (try_except m h env s)));
          apply headers_kept_trans with (b := s); [split; reflexivity |]
      end.
      apply stream_headers_kept.
      intros b s. split; [apply IH | split; [intros; exact I | intros []]].
Qed.

(** The headers after a call chain of any depth. *)
Lemma handle_streaming_headers {lib : PyLib} (env : Env) (fuel : nat)
        (body : dict) (is_first : bool) (max_iterations : Z) (st : St) :
  let st' :=
    snd (handle_streaming (S fuel) body is_first max_iterations env st) in
  let due := headers_due env is_first max_iterations st in
  header_calls st' = (header_calls st + (if due then 1 else 0))%nat
  /\ _headers_sent st' = (_headers_sent st || due).
Proof.
  intros st' due.
  assert (Hmain : exists s : St,
             headers_kept s st'
             /\ header_calls s
                = (header_calls st + (if due then 1 else 0))%nat
             /\ _headers_sent s = (_headers_sent st || due)).
  { subst st' due.
    change (handle_streaming (S fuel) body is_first max_iterations)
      with (handle_streaming_body (handle_streaming fuel) body is_first
                                  max_iterations).
    unfold headers_due.
    destruct (Z.leb_spec (override_budget (env_max env) max_iterations) 0)
      as [Hle | Hgt].
    - rewrite below_budget_check by exact Hle.
      destruct (report_budget_exhausted_run body env st)
        as (ok1 & ok2 & ok3 & ->).
      destruct (Z.ltb_spec 0 (override_budget (env_max env) max_iterations));
        [lia |].
      rewrite andb_false_r. exists st.
      split; [split; reflexivity |]. split; [lia | now rewrite orb_false_r].
    - destruct (Z.ltb_spec 0 (override_budget (env_max env) max_iterations));
        [| lia].
      rewrite andb_true_r.
      unfold handle_streaming_body, bind at 1, getenv_max at 1.
      destruct (Z.leb_spec (override_budget (env_max env) max_iterations) 0);
        [lia |].
      unfold bind at 1, time_time at 1.
      unfold bind at 1, maybe_send_headers at 1. cbn [_headers_sent].
      assert (Hturn : forall (k : upstream_response -> M unit) (s : St),
                 (forall resp s0, headers_kept s0 (snd (k resp env s0))) ->
                 headers_kept
                   s (snd (bind (request_chat_completions (inject_tools body))
                                k env s))).
      { intros k s Hk. unfold bind, request_chat_completions.
        match goal with
        | |- headers_kept _ (snd (k ?resp env ?s0)) =>
            apply headers_kept_trans with (b := s0);
            [split; reflexivity | apply Hk]
        end. }
      assert (Hk : forall resp s0,
                 headers_kept
                   s0
                   (snd (match resp with
                         | UpstreamFails message =>
                             report_upstream_failure
                               (inject_tools body)
                               (request_id_of (clock env (clock_reads st)))
                               message
                         | UpstreamStream lines tail =>
                             try_except
                               (read_loop
                                  (handle_streaming fuel) (inject_tools body)
                                  (override_budget (env_max env)
                                                   max_iterations)
                                  (request_id_of (clock env (clock_reads st)))
                                  (_estimate_tokens
                                     (prompt_text_of (inject_tools body)))
                                  lines tail initial_locals)
                               (streaming_failed
                                  (request_id_of
                                     (clock env (clock_reads st))))
                         end env s0))).
      { intros [message | lines tail] s0.
        - destruct (report_upstream_failure_run
                      (inject_tools body)
                      (request_id_of (clock env (clock_reads st))) message env
                      s0) as (ok1 & ok2 & ok3 & ->).
          split; reflexivity.
        - apply stream_headers_kept.
          intros b s1. split; [apply continuation_headers_kept |].
          split; [intros; exact I | intros []]. }
      destruct (is_first && send_headers env && negb (_headers_sent st)).
      + eexists. split; [apply Hturn; exact Hk |]. simpl.
        split; [lia | now rewrite orb_true_r].
      + eexists. split; [apply Hturn; exact Hk |]. simpl.
        split; [lia | now rewrite orb_false_r]. }
  destruct Hmain as (s & (Hc & Hs) & Hc' & Hs'). split; congruence.
Qed.

(** X3: the response headers are sent at most once, by the first invocation
    when it gets past the budget check; no continuation sends them. *)
Theorem headers_sent_at_most_once {lib : PyLib} (env : Env) (fuel : nat)
        (body : dict) (is_first : bool) (max_iterations : Z) (st : St) :
  let st' :=
    snd (handle_streaming (S fuel) body is_first max_iterations env st) in
  let due := headers_due env is_first max_iterations st in
  header_calls st' = (header_calls st + (if due then 1 else 0))%nat
  /\ _headers_sent st' = (_headers_sent st || due).
Proof.
  exact (handle_streaming_headers env fuel body is_first max_iterations st).
Qed.

(** ** Upstream lines are handed on as they come *)

Lemma forwarded_app (a b : list (wdata * bool)) :
  forwarded (a ++ b) = forwarded a ++ forwarded b.
Proof. unfold forwarded. apply flat_map_app. Qed.

Lemma forwarded_kept_refl (a : St) : forwarded_kept a a.
Proof. reflexivity. Qed.

Lemma forwarded_kept_trans (a b c : St) :
  forwarded_kept a b -> forwarded_kept b c -> forwarded_kept a c.
Proof. unfold forwarded_kept. congruence. Qed.

Lemma write_forwarded_kept (env : Env) (d : wdata) (st : St) :
  synthetic d -> forwarded_kept st (snd (_write d env st)).
Proof.
  intros Hd. unfold forwarded_kept, _write. simpl.
  rewrite forwarded_app. destruct d; simpl in *; try contradiction.
  all: now rewrite app_nil_r.
Qed.

Lemma write_raw_forwarded (env : Env) (line : string) (st : St) :
  forwarded (written (snd (_write (Raw line) env st)))
  = forwarded (written st) ++ [line].
Proof. unfold _write. simpl. now rewrite forwarded_app. Qed.

Section Forwarding.

Context {lib : PyLib}.
Variable env : Env.
Variable recurse : dict -> bool -> Z -> M unit.
Variables (body : dict) (max_iterations : Z) (request_id : string).
Variable _prompt_tokens_estimate : Z.
Hypothesis recurse_silent : silent recurse.

Lemma recurse_forwarded_kept (b : dict) (f : bool) (m : Z) :
  sat env False forwarded_kept (fun _ => True) (recurse b f m).
Proof.
  intros st. split; [| split; [intros; exact I | intros []]].
  unfold forwarded_kept. now rewrite recurse_silent.
Qed.

Lemma process_chunk_forwarded_kept (chunk : json) (l : locals) :
  sat env False forwarded_kept (fun _ => True)
      (process_chunk request_id _prompt_tokens_estimate chunk l).
Proof.
  eapply sat_weaken;
    [ intros s s' H; exact H | intros a _; exact I | ].
  apply (process_chunk_sat env False forwarded_kept
           forwarded_kept_refl forwarded_kept_trans synthetic (fun _ => True)).
  - intros d st. apply write_forwarded_kept.
  - intros st. reflexivity.
  - intros; exact I.
  - exact I.
Qed.

Lemma at_done_forwarded (line : string) (l : locals) (st : St) :
  exists n : nat,
    forwarded (written (snd (at_done recurse body max_iterations request_id
                                     _prompt_tokens_estimate line l env st)))
    = forwarded (written st) ++ firstn n [line].
Proof.
  unfold at_done. destruct (tool_call_buffer l) eqn:Hbuf.
  - exists 1%nat. unfold finish_without_tools.
    unfold bind at 1, _send_event at 1.
    match goal with
    | |- context [_write (Event ?e) env st] =>
        pose proof (write_forwarded_kept env (Event e) st I) as Hev;
        destruct (_write (Event e) env st) as [[ok | e' |] st1] eqn:Hw;
        try (unfold _write in Hw; discriminate Hw)
    end.
    unfold bind at 1.
    pose proof (write_raw_forwarded env line st1) as Hraw.
    destruct (_write (Raw line) env st1) as [[ok2 | e' |] st2] eqn:Hw2;
      try (unfold _write in Hw2; discriminate Hw2).
    simpl. simpl in Hraw, Hev. unfold forwarded_kept in Hev. simpl in Hev.
    now rewrite Hraw, Hev.
  - exists 0%nat. simpl. rewrite app_nil_r.
    apply (continue_with_tools_sat env False forwarded_kept forwarded_kept
             forwarded_kept_refl forwarded_kept_trans
             ltac:(auto) forwarded_kept_trans forwarded_kept_trans
             synthetic (fun _ => True)).
    + intros d s. apply write_forwarded_kept.
    + intros s. reflexivity.
    + intros n a s. reflexivity.
    + intros op s. reflexivity.
    + intros b. apply recurse_forwarded_kept.
    + intros; exact I.
    + intros; exact I.
    + intros; exact I.
    + exact I.
    + intros; exact I.
    + exact I.
    + exact I.
Qed.

Lemma read_loop_forwarded (lines : list string) (tail : option exn) :
  forall (l : locals) (st : St),
    exists n : nat,
      forwarded
        (written (snd (read_loop recurse body max_iterations request_id
                                 _prompt_tokens_estimate lines tail l env st)))
      = forwarded (written st) ++ firstn n lines.
Proof.
  induction lines as [| line rest IH]; intros l st.
  - exists 0%nat. rewrite read_loop_nil. simpl. rewrite app_nil_r.
    now destruct tail.
  - rewrite read_loop_cons.
    assert (Hstop : exists n : nat,
               forwarded (written st)
               = forwarded (written st) ++ firstn n (line :: rest)).
    { exists 0%nat. simpl. now rewrite app_nil_r. }
    assert (Hgo : forall (l' : locals) (st1 : St),
               forwarded_kept st st1 ->
               exists n : nat,
                 forwarded
                   (written
                      (snd ((ok <- _write (Raw line) ;;
                             if ok
                             then read_loop recurse body max_iterations
                                            request_id _prompt_tokens_estimate
                                            rest tail l'
                             else ret tt) env st1)))
                 = forwarded (written st) ++ firstn n (line :: rest)).
    { intros l' st1 Hkept. unfold bind at 1.
      pose proof (write_raw_forwarded env line st1) as Hraw.
      destruct (_write (Raw line) env st1) as [[ok | e' |] st2] eqn:Hw;
        try (unfold _write in Hw; discriminate Hw).
      simpl in Hraw. unfold forwarded_kept in Hkept. rewrite Hkept in Hraw.
      destruct ok.
      - destruct (IH l' st2) as (n & Hn). exists (S n).
        rewrite Hn, Hraw. simpl. rewrite <- app_assoc. reflexivity.
      - exists 1%nat. simpl. exact Hraw. }
    destruct (String.eqb line ""); [exact Hstop |].
    destruct (startswith (strip line) "data:");
      [| apply Hgo; apply forwarded_kept_refl].
    destruct (String.eqb (strip (drop 5 (strip line))) "[DONE]").
    + destruct (at_done_forwarded line l st) as (n & Hn).
      rewrite Hn. destruct n as [| n]; [exists 0%nat | exists 1%nat];
        [reflexivity | now destruct n].
    + unfold bind at 1.
      destruct (json_loads (strip (drop 5 (strip line)))) as [chunk |].
      * destruct (process_chunk_forwarded_kept chunk l st)
          as (Hkept & _ & _).
        destruct (process_chunk request_id _prompt_tokens_estimate chunk l
                                env st) as [[l' | e |] st1].
        -- apply Hgo. exact Hkept.
        -- exists 0%nat. simpl. rewrite app_nil_r. exact Hkept.
        -- exists 0%nat. simpl. rewrite app_nil_r. exact Hkept.
      * apply Hgo. apply forwarded_kept_refl.
Qed.

End Forwarding.

(** X1: the lines an invocation hands on to the client are the lines of the
    upstream response, unchanged and in order, up to some point: none is
    altered, reordered, repeated or made up. (The writes of the
    continuation, which starts the next turn, are left out.) *)
Theorem upstream_lines_forwarded_in_order {lib : PyLib} (env : Env)
        (recurse : dict -> bool -> Z -> M unit) (body : dict)
        (is_first : bool) (max_iterations : Z) (st : St) :
  silent recurse ->
  exists n : nat,
    forwarded
      (written (snd (handle_streaming_body recurse body is_first
                                           max_iterations env st)))
    = forwarded (written st)
      ++ firstn n (lines_of (upstream env (List.length (requests st))
                                      (inject_tools body))).
Proof.
  intros Hsilent.
  destruct (Z.leb_spec (override_budget (env_max env) max_iterations) 0)
    as [Hle | Hgt].
  - rewrite below_budget_check by exact Hle.
    destruct (report_budget_exhausted_run body env st)
      as (ok1 & ok2 & ok3 & ->).
    exists 0%nat. simpl. rewrite forwarded_app. simpl.
    now rewrite !app_nil_r.
  - destruct (past_budget_check env recurse body is_first max_iterations st
                                Hgt) as (hs & hc & ->).
    cbv zeta.
    destruct (upstream env (List.length (requests st)) (inject_tools body))
      as [message | lines tail].
    + destruct (report_upstream_failure_run
                  (inject_tools body)
                  (request_id_of (clock env (clock_reads st))) message env
                  (after_request (inject_tools body) hs hc st))
        as (ok1 & ok2 & ok3 & ->).
      exists 0%nat. simpl. rewrite forwarded_app. simpl.
      now rewrite !app_nil_r.
    + unfold try_except.
      match goal with
      | |- context [read_loop ?r ?b ?m ?i ?p lines tail initial_locals env ?s] =>
          destruct (read_loop_forwarded env r b m i p Hsilent lines tail
                                        initial_locals s) as (n & Hn);
          destruct (read_loop r b m i p lines tail initial_locals env s)
            as [[u | e |] s1]
      end.
      * exists n. exact Hn.
      * exists n. unfold streaming_failed, bind, _send_event, _write. simpl.
        rewrite forwarded_app. simpl. rewrite app_nil_r. exact Hn.
      * exists n. exact Hn.
Qed.

(** ** The handler of a failed follow-up is never entered *)

(** Whatever the continuation does, an invocation raises nothing: the
    early exits return, and the handler around the read loop catches
    every exception and returns. *)
Lemma handle_streaming_body_never_raises {lib : PyLib} (env : Env)
      (recurse : dict -> bool -> Z -> M unit) (body : dict) (is_first : bool)
      (max_iterations : Z) (st : St) (e : exn) :
  fst (handle_streaming_body recurse body is_first max_iterations env st)
  <> Raised e.
Proof.
  destruct (Z.leb_spec (override_budget (env_max env) max_iterations) 0)
    as [Hle | Hgt].
  - rewrite below_budget_check by exact Hle.
    destruct (report_budget_exhausted_run body env st)
      as (ok1 & ok2 & ok3 & ->).
    discriminate.
  - destruct (past_budget_check env recurse body is_first max_iterations st
                                Hgt) as (hs & hc & ->).
    cbv zeta.
    destruct (upstream env (List.length (requests st)) (inject_tools body))
      as [message | lines tail].
    + match goal with
      | |- context [report_upstream_failure ?b ?r ?m env ?s] =>
          destruct (report_upstream_failure_run b r m env s)
            as (ok1 & ok2 & ok3 & ->)
      end.
      discriminate.
    + unfold try_except.
      match goal with
      | |- context [read_loop ?r ?b ?m ?i ?p lines tail initial_locals env ?s] =>
          destruct (read_loop r b m i p lines tail initial_locals env s)
            as [[u | e' |] s1]
      end; discriminate.
Qed.

Lemma handle_streaming_never_raises {lib : PyLib} (env : Env) (fuel : nat)
      (body : dict) (is_first : bool) (max_iterations : Z) (st : St)
      (e : exn) :
  fst (handle_streaming fuel body is_first max_iterations env st) <> Raised e.
Proof.
  destruct fuel as [| fuel]; [discriminate |].
  apply handle_streaming_body_never_raises.
Qed.

Section NoFollowupFailure.

Context {lib : PyLib}.
Variable env : Env.
Variable recurse : dict -> bool -> Z -> M unit.
Variables (body : dict) (max_iterations : Z) (request_id : string).
Variable _prompt_tokens_estimate : Z.

Hypothesis recurse_returns :
  forall b st e,
    fst (recurse b false (max_iterations - 1)%Z env st) <> Raised e.
Hypothesis recurse_wrote :
  forall b st,
    wrote no_followup_failure st
          (snd (recurse b false (max_iterations - 1)%Z env st)).

Local Abbreviation fine := (wrote no_followup_failure).

Lemma event_fine (e : dict) :
  dict_get e "where" <> Some (JStr "upstream") ->
  no_followup_failure (Event (JObj e)).
Proof. intros H. exact H. Qed.

Lemma usage_event_fine (p c t : json) (est : bool) (rid : option string) :
  no_followup_failure (Event (usage_event p c t est rid)).
Proof. apply event_fine. destruct rid; discriminate. Qed.

Lemma write_fine (d : wdata) (st : St) :
  no_followup_failure d -> fine st (snd (_write d env st)).
Proof. apply write_wrote. Qed.

Lemma run_tool_calls_fine (items : list (string * fragment)) (l : locals)
      (tool_results : odict dict) :
  sat env False fine (fun _ => True)
      (run_tool_calls request_id _prompt_tokens_estimate items l
                      tool_results).
Proof.
  eapply sat_weaken; [intros s s' H; exact H | intros a _; exact I |].
  apply (run_tool_calls_sat env False fine
           (wrote_refl _) (wrote_trans _) no_followup_failure
           (fun _ => True)).
  - intros d st. apply write_fine.
  - intros st. now apply wrote_same.
  - intros n a st. now apply wrote_same.
  - intros op st. now apply wrote_same.
  - intros; apply usage_event_fine.
  - intros. apply event_fine. discriminate.
  - intros. apply event_fine. discriminate.
  - exact I.
Qed.

Lemma continue_with_tools_fine (l : locals) :
  sat env False fine (fun _ => True)
      (continue_with_tools recurse body max_iterations request_id
                           _prompt_tokens_estimate l).
Proof.
  unfold continue_with_tools.
  eapply (sat_bind_gen env False fine fine fine (fun _ => True));
    [ now auto | apply wrote_trans | apply run_tool_calls_fine | ].
  intros [l' tool_results] _.
  eapply (sat_bind_gen env False fine fine fine (fun _ => True));
    [ now auto | apply wrote_trans
    | apply sat_lift; [apply wrote_refl | intros; exact I] | ].
  intros messages _.
  eapply (sat_bind_gen env False fine fine fine (fun _ => True));
    [ now auto | apply wrote_trans
    | apply sat_lift; [apply wrote_refl | intros; exact I] | ].
  intros messages' _ st.
  split; [| split; [intros; exact I | intros []]].
  unfold try_except.
  unfold bind at 1, _send_event at 1.
  pose proof (write_fine (Event (continuation_event request_id)) st
                ltac:(apply event_fine; discriminate)) as W1.
  destruct (_write (Event (continuation_event request_id)) env st)
    as [[ok | e |] st1] eqn:E1; try (unfold _write in E1; discriminate E1).
  simpl in W1. cbv beta iota.
  assert (Hrest : forall st2 : St,
             fine st st2 ->
             fine st
               (snd (match recurse (dict_set body "messages" messages') false
                                   (max_iterations - 1)%Z env st2 with
                     | (Raised e, st') => followup_failed request_id e env st'
                     | other => other
                     end))).
  { intros st2 W2.
    pose proof (recurse_returns (dict_set body "messages" messages') st2)
      as Hret.
    pose proof (recurse_wrote (dict_set body "messages" messages') st2)
      as Hw.
    destruct (recurse (dict_set body "messages" messages') false
                      (max_iterations - 1)%Z env st2) as [[u | e |] st3].
    - simpl in *. eapply wrote_trans; eassumption.
    - exfalso. now apply (Hret e).
    - simpl in *. eapply wrote_trans; eassumption. }
  destruct (last_usage l').
  - unfold bind at 1, ret at 1. cbv beta iota. apply Hrest. exact W1.
  - unfold bind at 1. unfold bind at 1, _send_event at 1.
    match goal with
    | |- context [_write (Event ?ev) env st1] =>
        pose proof (write_fine (Event ev) st1
                      ltac:(apply usage_event_fine)) as W2;
        destruct (_write (Event ev) env st1) as [[ok2 | e |] st2] eqn:E2;
        try (unfold _write in E2; discriminate E2)
    end.
    simpl in W2. unfold ret at 1. cbv beta iota.
    apply Hrest. eapply wrote_trans; eassumption.
Qed.

Lemma read_loop_fine (lines : list string) (tail : option exn) :
  forall l : locals,
    sat env False fine (fun _ => True)
        (read_loop recurse body max_iterations request_id
                   _prompt_tokens_estimate lines tail l).
Proof.
  assert (Hraw : forall line, no_followup_failure (Raw line))
    by (intros line; discriminate).
  induction lines as [| line rest IH]; intros l.
  - rewrite read_loop_nil. destruct tail.
    + apply sat_raise. apply wrote_refl.
    + apply sat_ret; [apply wrote_refl | exact I].
  - rewrite read_loop_cons.
    assert (Hgo : forall l' : locals,
               sat env False fine (fun _ => True)
                   (ok <- _write (Raw line) ;;
                    if ok
                    then read_loop recurse body max_iterations request_id
                                   _prompt_tokens_estimate rest tail l'
                    else ret tt)).
    { intros l'.
      eapply (sat_bind_gen env False fine fine fine (fun _ => True));
        [ now auto | apply wrote_trans | | ].
      - intros st. split; [apply write_fine, Hraw |].
        split; [intros; exact I | intros []].
      - intros [|] _; [apply IH |].
        apply sat_ret; [apply wrote_refl | exact I]. }
    destruct (String.eqb line "");
      [apply sat_ret; [apply wrote_refl | exact I] |].
    destruct (startswith (strip line) "data:"); [| apply Hgo].
    destruct (String.eqb (strip (drop 5 (strip line))) "[DONE]").
    + unfold at_done. destruct (tool_call_buffer l).
      * apply (finish_without_tools_sat env False fine
                 (wrote_refl _) (wrote_trans _) no_followup_failure
                 (fun _ => True)); try exact I.
        -- intros d st. apply write_fine.
        -- intros; apply usage_event_fine.
        -- intros; apply usage_event_fine.
        -- exact Hraw.
      * apply continue_with_tools_fine.
    + eapply (sat_bind_gen env False fine fine fine (fun _ => True));
        [ now auto | apply wrote_trans | | intros l' _; apply Hgo ].
      destruct (json_loads (strip (drop 5 (strip line)))) as [chunk |].
      * eapply sat_weaken; [intros s s' H; exact H | intros a _; exact I |].
        apply (process_chunk_sat env False fine
                 (wrote_refl _) (wrote_trans _) no_followup_failure
                 (fun _ => True)); try exact I.
        -- intros d st. apply write_fine.
        -- intros st. now apply wrote_same.
        -- intros; apply usage_event_fine.
      * apply sat_ret; [apply wrote_refl | exact I].
Qed.

End NoFollowupFailure.


(** ** The follow-up conversation of a streaming turn *)

Section FollowUp.

Context {lib : PyLib}.
Variables (request_id : string) (_prompt_tokens_estimate : Z).

Lemma dict_has_set_same {V} (d : odict V) (k : string) (v : V) :
  dict_has (dict_set d k v) k = true.
Proof. unfold dict_has. now rewrite dict_get_set_same. Qed.

Lemma dict_has_set_kept {V} (d : odict V) (k k' : string) (v : V) :
  dict_has d k' = true -> dict_has (dict_set d k v) k' = true.
Proof.
  destruct (String.eqb_spec k k') as [-> | Hne].
  - intros _. apply dict_has_set_same.
  - unfold dict_has. now rewrite dict_get_set_other.
Qed.

(** A run of the tool loop that returns: the calls it collected, and the
    results it holds. *)
Lemma run_tool_calls_collected (items : list (string * fragment)) :
  forall (l l' : locals) (tool_results results : odict dict) (env : Env)
         (st st' : St),
    run_tool_calls request_id _prompt_tokens_estimate
                   items l tool_results env st = (Ok (l', results), st') ->
    collected_tool_calls l'
    = collected_tool_calls l
      ++ map (fun item => collected_tool_call (snd item)) (filter named items)
    /\ collected_content l' = collected_content l
    /\ collected_reasoning l' = collected_reasoning l
    /\ (forall k, dict_has tool_results k = true -> dict_has results k = true)
    /\ Forall (fun item => dict_has results (fst item) = true)
              (filter named items).
Proof.
  induction items as [| [key buf] rest IH];
    intros l l' tool_results results env st st' Hrun.
  - cbn [run_tool_calls] in Hrun.
    apply ret_Ok_inv in Hrun as ([= <- <-] & _). cbn. rewrite app_nil_r.
    split; [reflexivity |]. split; [reflexivity |]. split; [reflexivity |].
    split; [auto | constructor].
  - rewrite run_tool_calls_cons in Hrun. rewrite filter_named_cons.
    destruct (truthy (buf_name buf)) eqn:Hname;
      [| now apply (IH _ _ _ _ _ _ _ Hrun)].
    cbv zeta in Hrun.
    apply bind_Ok_inv in Hrun as (ok1 & s1 & _ & Hrun).
    apply bind_Ok_inv in Hrun as (l1 & s2 & H1 & Hrun).
    apply bind_Ok_inv in Hrun as (result & s3 & _ & Hrun).
    apply bind_Ok_inv in Hrun as (ok2 & s4 & _ & Hrun).
    apply bind_Ok_inv in Hrun as (l2 & s5 & H2 & Hrun).
    destruct (IH _ _ _ _ _ _ _ Hrun) as (Hc & Hcc & Hcr & Hkept & Hall).
    assert (K1 : collected_tool_calls l1
                 = collected_tool_calls l ++ [collected_tool_call buf]
                 /\ collected_content l1 = collected_content l
                 /\ collected_reasoning l1 = collected_reasoning l).
    { unfold _maybe_emit_usage_estimate in H1.
      cbn [last_usage set_collected_tool_calls] in H1.
      destruct (last_usage l).
      - apply ret_Ok_inv in H1 as (<- & _). now repeat split.
      - apply bind_Ok_inv in H1 as (now & s & _ & H1).
        destruct (negb true && _) in H1.
        + apply ret_Ok_inv in H1 as (<- & _). now repeat split.
        + apply bind_Ok_inv in H1 as (ok & s' & _ & H1).
          apply ret_Ok_inv in H1 as (<- & _). now repeat split. }
    assert (K2 : collected_tool_calls l2 = collected_tool_calls l1
                 /\ collected_content l2 = collected_content l1
                 /\ collected_reasoning l2 = collected_reasoning l1).
    { unfold _maybe_emit_usage_estimate in H2.
      destruct (last_usage l1).
      - apply ret_Ok_inv in H2 as (<- & _). now repeat split.
      - apply bind_Ok_inv in H2 as (now & s & _ & H2).
        destruct (negb true && _) in H2.
        + apply ret_Ok_inv in H2 as (<- & _). now repeat split.
        + apply bind_Ok_inv in H2 as (ok & s' & _ & H2).
          apply ret_Ok_inv in H2 as (<- & _). now repeat split. }
    destruct K1 as (K1 & K1c & K1r). destruct K2 as (K2 & K2c & K2r).
    split; [| split; [| split; [| split]]].
    + rewrite Hc, K2, K1. cbn [map snd]. now rewrite <- app_assoc.
    + congruence.
    + congruence.
    + intros k Hk. apply Hkept. now apply dict_has_set_kept.
    + constructor; [| exact Hall].
      cbn [fst]. apply Hkept. apply dict_has_set_same.
Qed.

(** The second loop answers every call that has a name. *)
Lemma append_tool_messages_answers (results : odict dict)
      (items : list (string * fragment)) :
  forall prior : list json,
    Forall (fun item => dict_has results (fst item) = true)
           (filter named items) ->
    exists tool_msgs : list json,
      append_tool_messages items results (JArr prior)
      = Success (JArr (prior ++ tool_msgs))
      /\ map tool_call_id_of tool_msgs
         = map (fun item => buf_id (snd item)) (filter named items)
      /\ Forall (fun m => is_tool_message m = true) tool_msgs.
Proof.
  induction items as [| [key buf] rest IH]; intros prior Hall.
  - exists []. cbn. rewrite app_nil_r. now repeat split.
  - rewrite filter_named_cons in *. cbn [append_tool_messages].
    destruct (truthy (buf_name buf)) eqn:Hname.
    + inversion Hall as [| ? ? Hkey Hrest]; subst. cbn [fst] in Hkey.
      unfold dict_has in Hkey.
      destruct (dict_get results key) as [result |]; [| discriminate].
      cbn [py_append rbind].
      destruct (IH (prior ++ [tool_message buf result]) Hrest)
        as (msgs & E & Hids & Hroles).
      exists (tool_message buf result :: msgs).
      rewrite E, <- app_assoc. cbn [app map snd].
      split; [reflexivity |]. split; [now rewrite Hids |].
      constructor; [reflexivity | exact Hroles].
    + destruct (IH prior Hall) as (msgs & E & Hids & Hroles).
      exists msgs. now destruct (dict_get results key).
Qed.

End FollowUp.

(** X28: when the tool loop of a streaming turn has returned, the continuation
    is called with the conversation so far, then the assistant message
    listing the calls that have a name, in the order of the buffer, then
    one [tool] message for each of them, in the same order and with the
    same id; no request is sent in between. *)
Theorem tool_calls_answered_in_order {lib : PyLib} (env : Env)
        (recurse : dict -> bool -> Z -> M unit) (body : dict)
        (max_iterations : Z) (request_id : string) (pte : Z)
        (l l' : locals) (results : odict dict) (prior : list json)
        (st st1 : St) :
  run_tool_calls request_id pte (tool_call_buffer l) l [] env st
  = (Ok (l', results), st1) ->
  dict_get_default body "messages" (JArr []) = JArr prior ->
  let calls := filter named (tool_call_buffer l) in
  exists (tool_msgs : list json) (st2 : St),
    continue_with_tools recurse body max_iterations request_id pte l env st
    = try_except
        (recurse (dict_set body "messages"
                           (JArr (prior ++ assistant_message l' :: tool_msgs)))
                 false (max_iterations - 1)%Z)
        (followup_failed request_id) env st2
    /\ collected_tool_calls l'
       = collected_tool_calls l
         ++ map (fun item => collected_tool_call (snd item)) calls
    /\ map tool_call_id_of tool_msgs
       = map (fun item => buf_id (snd item)) calls
    /\ Forall (fun m => is_tool_message m = true) tool_msgs
    /\ requests st2 = requests st1.
Proof.
  intros Hrun Hmsgs calls.
  destruct (run_tool_calls_collected request_id pte _ _ _ _ _ _ _ _ Hrun)
    as (Hc & _ & _ & _ & Hall).
  assert (Hbuf : tool_call_buffer l' = tool_call_buffer l).
  { clear - Hrun. revert Hrun.
    generalize (@nil (string * dict)) as tr.
    generalize (tool_call_buffer l) at 1 as items.
    intros items. revert l st.
    induction items as [| [key buf] rest IH]; intros l st tr Hrun.
    - cbn [run_tool_calls] in Hrun.
      now apply ret_Ok_inv in Hrun as ([= <- <-] & _).
    - rewrite run_tool_calls_cons in Hrun.
      destruct (truthy (buf_name buf)); [| now apply (IH _ _ _ Hrun)].
      cbv zeta in Hrun.
      apply bind_Ok_inv in Hrun as (ok1 & s1 & _ & Hrun).
      apply bind_Ok_inv in Hrun as (l1 & s2 & H1 & Hrun).
      apply bind_Ok_inv in Hrun as (result & s3 & _ & Hrun).
      apply bind_Ok_inv in Hrun as (ok2 & s4 & _ & Hrun).
      apply bind_Ok_inv in Hrun as (l2 & s5 & H2 & Hrun).
      rewrite (IH _ _ _ Hrun).
      destruct (maybe_emit_run request_id pte true l1 env s4)
        as (l2' & s5' & n2 & E2 & _ & _ & _ & _ & _ & _ & B2).
      rewrite E2 in H2. injection H2 as <- <-. rewrite B2.
      match type of H1 with
      | _maybe_emit_usage_estimate _ _ _ ?l0 _ ?s0 = _ =>
          destruct (maybe_emit_run request_id pte true l0 env s0)
            as (l1' & s2' & n1 & E1 & _ & _ & _ & _ & _ & _ & B1)
      end.
      rewrite E1 in H1. injection H1 as <- <-. now rewrite B1. }
  destruct (append_tool_messages_answers
              results (tool_call_buffer l) (prior ++ [assistant_message l'])
              Hall) as (tool_msgs & Happ & Hids & Hroles).
  unfold continue_with_tools.
  unfold bind at 1. rewrite Hrun. cbv beta iota.
  rewrite Hmsgs. unfold bind at 1. cbn [lift py_append]. unfold ret at 1.
  cbv beta iota. unfold bind at 1. rewrite Hbuf, Happ. cbn [lift].
  unfold ret at 1. cbv beta iota.
  rewrite <- app_assoc. cbn [app].
  unfold try_except, bind, _send_event, _write. cbn [fst snd].
  destruct (last_usage l') as [u |]; cbn.
  - eexists tool_msgs, _. split; [reflexivity |]. now repeat split.
  - eexists tool_msgs, _. split; [reflexivity |]. now repeat split.
Qed.

(** ** [_join_url] and the upstream client *)

Lemma lstrip_length (s : string) :
  (String.length (lstrip s) <= String.length s)%nat.
Proof.
  induction s as [| c s IH]; simpl; [lia |].
  destruct (is_space c); simpl; lia.
Qed.

Lemma rstrip_length (s : string) :
  (String.length (rstrip s) <= String.length s)%nat.
Proof.
  induction s as [| c s IH]; simpl; [lia |].
  destruct (is_space c && String.eqb (rstrip s) ""); simpl; lia.
Qed.

Lemma lstrip_fixed (s : string) :
  String.length (lstrip s) = String.length s -> lstrip s = s.
Proof.
  destruct s as [| c s]; simpl; [reflexivity |].
  destruct (is_space c); [| reflexivity].
  pose proof (lstrip_length s). lia.
Qed.

Lemma strip_fixed_lstrip (s : string) : strip s = s -> lstrip s = s.
Proof.
  intros H. apply lstrip_fixed.
  pose proof (rstrip_length (lstrip s)) as H1.
  pose proof (lstrip_length s) as H2.
  unfold strip in H. rewrite H in H1. lia.
Qed.

Lemma strip_fixed_rstrip (s : string) : strip s = s -> rstrip s = s.
Proof.
  intros H. pose proof (strip_fixed_lstrip s H) as Hl.
  unfold strip in H. now rewrite Hl in H.
Qed.

Lemma rstrip_snoc (s : string) (c : ascii) :
  is_space c = false ->
  rstrip (s +++ String c EmptyString) = s +++ String c EmptyString.
Proof.
  intros Hc. induction s as [| a s IH]; simpl.
  - now rewrite Hc.
  - rewrite IH. destruct (s +++ String c EmptyString) eqn:E.
    + destruct s; discriminate E.
    + now rewrite andb_false_r.
Qed.

Lemma lstrip_app (s t : string) :
  s <> "" -> lstrip s = s -> lstrip (s +++ t) = s +++ t.
Proof.
  destruct s as [| c s]; [contradiction |]. intros _. simpl.
  destruct (is_space c) eqn:Hc; [| reflexivity].
  intros H. pose proof (lstrip_length s) as Hlen.
  apply (f_equal String.length) in H. simpl in H. lia.
Qed.

Lemma strip_snoc (s : string) (c : ascii) :
  s <> "" -> strip s = s -> is_space c = false ->
  strip (s +++ String c EmptyString) = s +++ String c EmptyString.
Proof.
  intros Hs Hfix Hc. unfold strip.
  rewrite lstrip_app by (auto using strip_fixed_lstrip).
  now apply rstrip_snoc.
Qed.

Lemma endswith_snoc (s : string) (c : ascii) :
  endswith (s +++ String c EmptyString) (String c EmptyString) = true.
Proof.
  induction s as [| a s IH]; simpl.
  - now rewrite Ascii.eqb_refl.
  - rewrite IH. apply orb_true_r.
Qed.

Lemma drop_last_snoc (s : string) (c : ascii) :
  drop_last (s +++ String c EmptyString) = s.
Proof.
  induction s as [| a s IH]; simpl; [reflexivity |].
  destruct (s +++ String c EmptyString) eqn:E.
  - destruct s; discriminate E.
  - now rewrite IH.
Qed.

Lemma endswith_app (s t : string) : endswith (s +++ t) t = true.
Proof.
  induction s as [| a s IH]; simpl.
  - destruct t; simpl; [reflexivity |].
    now rewrite Ascii.eqb_refl, String.eqb_refl.
  - rewrite IH. apply orb_true_r.
Qed.

(** X14: whether the base ends with a slash or not, and whether the path
    starts with one or not, the two are joined by exactly one slash. *)
Theorem join_url_one_slash (base path : string) :
  strip base = base -> base <> "" ->
  endswith base "/" = false -> startswith path "/" = false ->
  _join_url base path = base +++ "/" +++ path
  /\ _join_url (base +++ "/") path = base +++ "/" +++ path
  /\ _join_url base ("/" +++ path) = base +++ "/" +++ path
  /\ _join_url (base +++ "/") ("/" +++ path) = base +++ "/" +++ path.
Proof.
  intros Hfix Hne Hend Hstart.
  assert (Hb : String.eqb base "" = false) by now apply String.eqb_neq.
  assert (Hslash : strip (base +++ "/") = base +++ "/")
    by now apply strip_snoc.
  assert (Hbs : String.eqb (base +++ "/") "" = false).
  { apply String.eqb_neq. destruct base; discriminate. }
  unfold _join_url.
  rewrite Hfix, Hb, Hend, Hstart, Hslash, Hbs.
  rewrite (endswith_snoc base "/"), (drop_last_snoc base "/").
  simpl.
  assert (Hempty : startswith path "" = true) by now destruct path.
  rewrite Hempty. repeat split.
Qed.

Lemma join_url_ends_with_path (base path : string) :
  endswith (_join_url base path) path = true.
Proof.
  unfold _join_url. destruct (String.eqb (strip base) "").
  - destruct path; simpl; [reflexivity |].
    now rewrite Ascii.eqb_refl, String.eqb_refl.
  - destruct (negb (startswith path "/")).
    + rewrite <- append_assoc. apply endswith_app.
    + apply endswith_app.
Qed.

(** X15: a blank base leaves the path as it is, and in every case the path is
    the end of the result: the base never cuts into it. *)
Theorem join_url_keeps_path (base path : string) :
  endswith (_join_url base path) path = true
  /\ (strip base = "" -> _join_url base path = path).
Proof.
  split; [apply join_url_ends_with_path |].
  unfold _join_url. intros ->. reflexivity.
Qed.

(** X16: with no base URL configured (unset, empty or blank) the request goes
    to the default host; in every environment the request URL ends with
    the completions path, and the [Authorization] header is sent exactly
    when [health] reports a key, holding that key. *)
Theorem upstream_client_request (environ : string -> option string)
        (body : dict) :
  let client := UpstreamClient_init environ in
  (strip (_env environ "OPENAI_BASE_URL" "") = "" ->
   chat_completions_url client = "https://api.openai.com/chat/completions")
  /\ endswith (chat_completions_url client) "/chat/completions" = true
  /\ dict_get (chat_completions_headers client body) "Authorization"
     = (if truthy (dict_get_default (health client) "has_api_key" JNull)
        then Some ("Bearer " +++ strip (_env environ "OPENAI_API_KEY" ""))
        else None).
Proof.
  intros client. split; [| split].
  - intros Hblank. unfold chat_completions_url, client, UpstreamClient_init.
    simpl. rewrite Hblank. reflexivity.
  - apply join_url_ends_with_path.
  - unfold chat_completions_headers, health, client, UpstreamClient_init.
    simpl.
    destruct (String.eqb (strip (_env environ "OPENAI_API_KEY" "")) "");
      reflexivity.
Qed.

(** ** Setting a field of the configuration *)

Lemma get_path_empty (k : string) (rest : list string) :
  get_path (JObj []) (k :: rest) = None.
Proof. reflexivity. Qed.

Lemma set_path_cons (current : json) (k k2 : string) (rest : list string)
      (value : json) :
  set_path current (k :: k2 :: rest) value
  = (let? present := py_contains_str current k in
     let? current :=
       if present then Success current
       else py_setitem_str current k (JObj []) in
     let? child := py_getitem_str current k in
     let? child := set_path child (k2 :: rest) value in
     py_setitem_str current k child)%result.
Proof. reflexivity. Qed.

(** What one step of the navigation does on an object, and that it fails
    on anything else. *)
Lemma set_path_step (current : json) (k k2 : string) (rest : list string)
      (value config' : json) :
  set_path current (k :: k2 :: rest) value = Success config' ->
  exists (d : dict) (child' : json),
    current = JObj d
    /\ set_path (match dict_get d k with
                 | Some child => child
                 | None => JObj []
                 end) (k2 :: rest) value = Success child'
    /\ config'
       = JObj (dict_set (if dict_has d k then d else dict_set d k (JObj []))
                        k child').
Proof.
  rewrite set_path_cons. unfold py_contains_str.
  destruct current as [| b | n | s | l | d];
    try (cbn -[set_path]; intros H; discriminate H).
  - cbn [rbind]. destruct (contains s k); cbn -[set_path];
      intros H; discriminate H.
  - cbn [rbind]. destruct (existsb (fun x => is_str x k) l); cbn -[set_path];
      intros H; discriminate H.
  - cbn [rbind]. unfold dict_has.
    destruct (dict_get d k) as [child |] eqn:Hget.
    + cbn [rbind py_getitem_str]. rewrite Hget. cbn [rbind].
      destruct (set_path child (k2 :: rest) value) as [child' | e] eqn:Hrec;
        cbn [rbind]; [| intros H; discriminate H].
      cbn [py_setitem_str]. intros [= <-].
      exists d, child'. unfold dict_has. rewrite Hget.
      repeat split. exact Hrec.
    + cbn [rbind py_setitem_str py_getitem_str].
      rewrite dict_get_set_same. cbn [rbind].
      destruct (set_path (JObj []) (k2 :: rest) value) as [child' | e]
        eqn:Hrec; cbn [rbind]; [| intros H; discriminate H].
      cbn [py_setitem_str]. intros [= <-].
      exists d, child'. unfold dict_has. rewrite Hget.
      repeat split. exact Hrec.
Qed.

Lemma set_path_last (current : json) (k : string) (value config' : json) :
  set_path current [k] value = Success config' ->
  exists d : dict, current = JObj d /\ config' = JObj (dict_set d k value).
Proof.
  cbn [set_path]. unfold py_setitem_str.
  destruct current; try (intros H; discriminate H).
  intros [= <-]. now eexists.
Qed.

Lemma set_path_found (keys : list string) :
  forall (config value config' : json),
    set_path config keys value = Success config' ->
    get_path config' keys = Some value.
Proof.
  induction keys as [| k rest IH]; intros config value config' Hset;
    [discriminate |].
  destruct rest as [| k2 rest].
  - apply set_path_last in Hset as (d & -> & ->).
    cbn [get_path]. now rewrite dict_get_set_same.
  - apply set_path_step in Hset as (d & child' & -> & Hrec & ->).
    cbn [get_path]. rewrite dict_get_set_same. now apply IH in Hrec.
Qed.

Lemma set_path_elsewhere (pre : list string) :
  forall (config value config' : json) (k k' : string)
         (rest other : list string),
    set_path config (pre ++ k :: rest) value = Success config' ->
    k <> k' ->
    get_path config' (pre ++ k' :: other) = get_path config (pre ++ k' :: other).
Proof.
  induction pre as [| a pre IH];
    intros config value config' k k' rest other Hset Hk.
  - cbn [app] in *. destruct rest as [| k2 rest].
    + apply set_path_last in Hset as (d & -> & ->).
      cbn [get_path]. now rewrite dict_get_set_other.
    + apply set_path_step in Hset as (d & child' & -> & _ & ->).
      cbn [get_path]. rewrite dict_get_set_other by exact Hk.
      destruct (dict_has d k); [reflexivity |].
      now rewrite dict_get_set_other.
  - cbn [app] in *.
    destruct (pre ++ k :: rest) as [| k2 rest'] eqn:Hkeys;
      [destruct pre; discriminate |].
    apply set_path_step in Hset as (d & child' & -> & Hrec & ->).
    rewrite <- Hkeys in Hrec.
    cbn [get_path]. rewrite dict_get_set_same.
    rewrite (IH _ _ _ _ _ _ other Hrec Hk).
    destruct (dict_get d a); [reflexivity |].
    destruct pre; reflexivity.
Qed.

(** X10: insert and look up: after a set that succeeded, the value is found at
    the key path, and a path that leaves the key path at some key leads
    where it led before. *)
Theorem set_path_then_get (config value config' : json)
        (keys : list string) :
  set_path config keys value = Success config' ->
  get_path config' keys = Some value
  /\ (forall (pre rest other : list string) (k k' : string),
         keys = pre ++ k :: rest -> k <> k' ->
         get_path config' (pre ++ k' :: other)
         = get_path config (pre ++ k' :: other)).
Proof.
  intros Hset. split; [now apply set_path_found in Hset |].
  intros pre rest other k k' -> Hk.
  now apply (set_path_elsewhere pre _ _ _ _ _ rest other Hset).
Qed.

(** X11: the set succeeds exactly when the root is an object and each entry
    the key path passes through before its last key is one too (an entry
    that is missing is created); otherwise it raises, and never a
    [KeyError]. *)
Theorem set_path_succeeds_iff (keys : list string) :
  forall config value : json,
    match set_path config keys value with
    | Success _ => objects_along config keys = true
    | Failure e =>
        objects_along config keys = false /\ exn_kind_of e <> KeyError
    end.
Proof.
  induction keys as [| k rest IH]; intros config value.
  - cbn. split; [reflexivity | discriminate].
  - destruct rest as [| k2 rest].
    + cbn [set_path objects_along]. unfold py_setitem_str.
      destruct config; cbn; try (split; [reflexivity | discriminate]).
      reflexivity.
    + rewrite set_path_cons. cbn [objects_along]. unfold py_contains_str.
      destruct config as [| b | n | s | l | d];
        try (cbn -[set_path]; split; [reflexivity | discriminate]).
      * cbn [rbind]. destruct (contains s k); cbn -[set_path];
          (split; [reflexivity | discriminate]).
      * cbn [rbind]. destruct (existsb (fun x => is_str x k) l);
          cbn -[set_path]; (split; [reflexivity | discriminate]).
      * cbn [rbind]. unfold dict_has.
        destruct (dict_get d k) as [child |] eqn:Hget.
        -- cbn [rbind py_getitem_str]. rewrite Hget. cbn [rbind].
           specialize (IH child value).
           destruct (set_path child (k2 :: rest) value); cbn [rbind];
             exact IH.
        -- cbn [rbind py_setitem_str py_getitem_str].
           rewrite dict_get_set_same. cbn [rbind].
           specialize (IH (JObj []) value).
           destruct (set_path (JObj []) (k2 :: rest) value) as [c | e];
             cbn [rbind py_setitem_str].
           ++ reflexivity.
           ++ destruct IH as (Hobj & _). destruct rest; discriminate Hobj.
Qed.

Lemma split_on_no_sep (sep : ascii) (s : string) :
  contains s (String sep EmptyString) = false -> split_on sep s = [s].
Proof.
  induction s as [| c s IH]; [reflexivity |].
  cbn [contains String.prefix split_on].
  destruct (Ascii.eqb_spec c sep) as [-> | Hne].
  - destruct (ascii_dec sep sep); [| contradiction].
    destruct s; discriminate.
  - destruct (ascii_dec sep c) as [-> | _]; [contradiction |].
    cbn [orb]. intros H. now rewrite (IH H).
Qed.

(** X12: setting a field either succeeds, and then the file holds a
    configuration in which the value is found at the key path (and
    reading the configuration gives that one), or it fails and leaves the
    file as it was. *)
Theorem write_shell_config_all_or_nothing {lib : PyLib}
        (json_dumps_indent : json -> string) (file : config_file)
        (key value : json) :
  let r := write_shell_config file key value in
  (dict_get (fst r) "success" = Some (JBool false) /\ snd r = file)
  \/ (dict_get (fst r) "success" = Some (JBool true)
      /\ exists (s : string) (config config' : json),
          key = JStr s
          /\ file = Holds config
          /\ snd r = Holds config'
          /\ get_path config' (split_on "." s) = Some value
          /\ read_shell_config json_dumps_indent (snd r)
             = tool_success (json_dumps_indent config')).
Proof.
  intros r. subst r. unfold write_shell_config.
  destruct file as [message | message | config]; try (left; now split).
  destruct key as [| b | n | s | l | d]; try (left; now split).
  cbn [split_key rbind].
  destruct (set_path config (split_on "." s) value) as [config' | e] eqn:Hset;
    [| left; now split].
  right. split; [reflexivity |].
  exists s, config, config'. repeat split.
  now apply set_path_found in Hset.
Qed.

(** X13: a key without a dot names a field of the root: on a configuration
    that is an object the set succeeds, and replaces or adds that one
    field. *)
Theorem write_shell_config_top_level {lib : PyLib} (config : dict)
        (key : string) (value : json) :
  contains key "." = false ->
  snd (write_shell_config (Holds (JObj config)) (JStr key) value)
  = Holds (JObj (dict_set config key value)).
Proof.
  intros Hdot. unfold write_shell_config. cbn [split_key rbind].
  now rewrite (split_on_no_sep "." key Hdot).
Qed.

(** ** Parsing the path of a request *)

Lemma rstrip_char_snoc (ch : ascii) (s : string) :
  rstrip_char ch (s +++ String ch EmptyString) = rstrip_char ch s.
Proof.
  induction s as [| c s IH]; simpl.
  - now rewrite Ascii.eqb_refl.
  - now rewrite IH.
Qed.

Lemma rstrip_char_outside (p : ascii -> bool) (ch : ascii) (s : string) :
  p ch = false -> all_chars p s = true -> rstrip_char ch s = s.
Proof.
  intros Hch. induction s as [| c s IH]; simpl; [reflexivity |].
  intros H. apply andb_true_iff in H as (Hc & Hs). rewrite (IH Hs).
  destruct (Ascii.eqb_spec c ch) as [-> | _]; [congruence | reflexivity].
Qed.

Lemma rstrip_char_app (ch : ascii) (pre t : string) :
  t <> "" -> rstrip_char ch t = t -> rstrip_char ch (pre +++ t) = pre +++ t.
Proof.
  intros Ht Hfix. induction pre as [| c pre IH]; simpl; [exact Hfix |].
  rewrite IH. destruct (pre +++ t) eqn:E.
  - destruct pre; [contradiction | discriminate].
  - now rewrite andb_false_r.
Qed.

Lemma span_all (p : ascii -> bool) (s : string) :
  all_chars p (fst (span p s)) = true.
Proof.
  induction s as [| c s IH]; simpl; [reflexivity |].
  destruct (p c) eqn:Hc; [| reflexivity].
  destruct (span p s). simpl in *. now rewrite Hc.
Qed.

Lemma span_app (p : ascii -> bool) (w rest : string) :
  all_chars p w = true ->
  match rest with
  | EmptyString => True
  | String c _ => p c = false
  end ->
  span p (w +++ rest) = (w, rest).
Proof.
  intros Hw Hrest. induction w as [| c w IH]; simpl.
  - destruct rest; simpl; [reflexivity | now rewrite Hrest].
  - simpl in Hw. apply andb_true_iff in Hw as (Hc & Hw).
    now rewrite Hc, (IH Hw).
Qed.

Lemma startswith_app (p s : string) : startswith (p +++ s) p = true.
Proof.
  unfold startswith. induction p as [| c p IH]; simpl.
  - now destruct s.
  - destruct (ascii_dec c c); [exact IH | contradiction].
Qed.

Section ParsePath.

Context {text : PyText}.

Lemma match_resource_id_word (path resource digits : string) :
  match_resource_id path = Some (resource, digits) ->
  resource <> "" /\ all_chars is_word resource = true.
Proof.
  unfold match_resource_id.
  destruct (startswith path "/v1/"); [| discriminate].
  pose proof (span_all is_word (drop 4 path)) as Hall.
  destruct (span is_word (drop 4 path)) as [word rest]. simpl in Hall.
  destruct (String.eqb_spec word ""); [discriminate |].
  destruct rest as [| c rest]; [discriminate |].
  destruct (Ascii.eqb_spec c "/") as [-> | Hne].
  - destruct (span is_digit rest) as [ds rest'].
    destruct (negb (String.eqb ds "") && at_end rest'); [| discriminate].
    intros [= <- <-]. now split.
  - destruct c as [[] [] [] [] [] [] [] []]; try discriminate.
    now contradiction Hne.
Qed.

Lemma match_resource_word (path resource : string) :
  match_resource path = Some resource ->
  resource <> "" /\ all_chars is_word resource = true.
Proof.
  unfold match_resource.
  destruct (startswith path "/v1/"); [| discriminate].
  pose proof (span_all is_word (drop 4 path)) as Hall.
  destruct (span is_word (drop 4 path)) as [word rest]. simpl in Hall.
  destruct (String.eqb_spec word ""); [discriminate |].
  destruct (at_end rest); [| discriminate].
  intros [= <-]. now split.
Qed.

(** X20: the resource a path parses to is the empty one (no route), the
    completions route, or a word, in which there is no slash, dot,
    percent sign or question mark. Only a word comes with an id. *)
Theorem parse_path_resource_is_word (path resource : string)
        (rid : option Z) :
  _parse_path path = inr (resource, rid) ->
  (resource = "" /\ rid = None)
  \/ (resource = "chat/completions" /\ rid = None)
  \/ (resource <> "" /\ all_chars is_word resource = true).
Proof.
  unfold _parse_path.
  destruct (String.eqb (rstrip_char "/" path) "/v1/chat/completions").
  { intros [= <- <-]. right. left. now split. }
  destruct (match_resource_id (rstrip_char "/" path)) as [[r ds] |] eqn:Hid.
  - destruct (py_int ds); [| discriminate].
    intros [= <- <-]. right. right.
    now apply match_resource_id_word in Hid.
  - destruct (match_resource (rstrip_char "/" path)) as [r |] eqn:Hres.
    + intros [= <- <-]. right. right. now apply match_resource_word in Hres.
    + intros [= <- <-]. left. now split.
Qed.

(** X21: a path made of a word and an id parses back to them, a path made of
    a word parses back to it, and slashes at the end of a path change
    nothing. *)
Theorem parse_path_round_trip (resource digits : string) (n : Z) :
  resource <> "" -> all_chars is_word resource = true ->
  digits <> "" -> all_chars is_digit digits = true ->
  py_int digits = Some n ->
  _parse_path ("/v1/" +++ resource +++ "/" +++ digits)
  = inr (resource, Some n)
  /\ _parse_path ("/v1/" +++ resource) = inr (resource, None)
  /\ (forall path : string, _parse_path (path +++ "/") = _parse_path path).
Proof.
  intros Hr Hword Hd Hdigits Hint.
  assert (Hrb : String.eqb resource "" = false) by now apply String.eqb_neq.
  assert (Hdb : String.eqb digits "" = false) by now apply String.eqb_neq.
  assert (Hspan1 : span is_word (resource +++ "/" +++ digits)
                   = (resource, "/" +++ digits))
    by (now apply span_app).
  assert (Hspan2 : span is_word resource = (resource, "")).
  { rewrite <- (append_nil_r resource) at 1. now apply span_app. }
  assert (Hspan3 : span is_digit digits = (digits, "")).
  { rewrite <- (append_nil_r digits) at 1. now apply span_app. }
  split; [| split].
  - unfold _parse_path.
    assert (Hstrip : rstrip_char "/" ("/v1/" +++ resource +++ "/" +++ digits)
                     = "/v1/" +++ resource +++ "/" +++ digits).
    { rewrite <- !append_assoc. apply rstrip_char_app; [exact Hd |].
      now apply (rstrip_char_outside is_digit). }
    rewrite Hstrip.
    destruct (String.eqb_spec ("/v1/" +++ resource +++ "/" +++ digits)
                              "/v1/chat/completions") as [E | _].
    { exfalso. apply (f_equal (drop 4)) in E.
      change (resource +++ "/" +++ digits = "chat/completions") in E.
      apply (f_equal (span is_word)) in E. rewrite Hspan1 in E.
      change (span is_word "chat/completions")
        with ("chat", "/completions") in E.
      injection E as _ E. subst digits. discriminate. }
    unfold match_resource_id.
    change (startswith ("/v1/" +++ resource +++ "/" +++ digits) "/v1/")
      with (startswith ("/v1/" +++ (resource +++ "/" +++ digits)) "/v1/").
    rewrite startswith_app.
    change (drop 4 ("/v1/" +++ resource +++ "/" +++ digits))
      with (resource +++ "/" +++ digits).
    rewrite Hspan1, Hrb.
    change ("/" +++ digits) with (String "/" digits). cbv iota beta.
    rewrite Hspan3, Hdb. cbn [negb andb at_end String.eqb orb].
    now rewrite Hint.
  - unfold _parse_path.
    assert (Hstrip : rstrip_char "/" ("/v1/" +++ resource)
                     = "/v1/" +++ resource).
    { apply rstrip_char_app; [exact Hr |].
      now apply (rstrip_char_outside is_word). }
    rewrite Hstrip.
    destruct (String.eqb_spec ("/v1/" +++ resource) "/v1/chat/completions")
      as [E | _].
    { exfalso. apply (f_equal (drop 4)) in E.
      change (resource = "chat/completions") in E.
      subst resource. discriminate. }
    unfold match_resource_id, match_resource.
    rewrite startswith_app.
    change (drop 4 ("/v1/" +++ resource)) with resource.
    rewrite Hspan2, Hrb. reflexivity.
  - intros path. unfold _parse_path. now rewrite rstrip_char_snoc.
Qed.

End ParsePath.

(** ** The completions route *)

Lemma override_budget_default (env_max : option Z) :
  (0 <? override_budget env_max 10)%Z = true.
Proof.
  unfold override_budget. destruct env_max as [n |]; [| reflexivity].
  destruct (0 <? n)%Z eqn:Hn; [exact Hn | reflexivity].
Qed.

Section CompletionsRoute.

Context {lib : PyLib} {text : PyText}.

(** The streaming branch sends the headers, once. *)
Lemma streaming_branch_headers (fuel : nat) (body : dict) (env : Env)
      (st : St) :
  header_calls
    (snd (handle_streaming (S fuel) body true 10 (with_send_headers true env)
                           (new_handler st)))
  = S (header_calls st).
Proof.
  destruct (handle_streaming_headers (with_send_headers true env) fuel body
              true 10 (new_handler st)) as (Hc & _).
  rewrite Hc. unfold headers_due. cbn [send_headers with_send_headers
    _headers_sent new_handler env_max header_calls andb negb].
  rewrite override_budget_default. lia.
Qed.

(** X17: every request to the completions route is answered in one of three
    ways: by one JSON reply (200, 400 or 502) and nothing on the stream;
    or by the headers of the event stream, sent once, with no JSON reply,
    the connection marked to be closed; or an exception escapes and
    nothing at all was sent. *)
Theorem completions_one_response (fuel : nat) (request : http_request)
        (env : Env) (srv : Srv) :
  let r := _handle_chat_completions (S fuel) request env srv in
  let st := handler_state srv in
  let st' := handler_state (snd r) in
  (exists answer : reply,
      replies (snd r) = replies srv ++ [answer]
      /\ (status answer = 200 \/ status answer = 400 \/ status answer = 502)%Z
      /\ fst r = Ok tt
      /\ written st' = written st
      /\ header_calls st' = header_calls st)
  \/ (replies (snd r) = replies srv
      /\ header_calls st' = S (header_calls st)
      /\ close_connection (snd r) = true
      /\ forall e : exn, fst r <> Raised e)
  \/ (exists e : exn,
         fst r = Raised e
         /\ replies (snd r) = replies srv
         /\ written st' = written st
         /\ header_calls st' = header_calls st).
Proof.
  intros r st st'.
  assert (E : r = _handle_chat_completions (S fuel) request env srv)
    by reflexivity.
  clearbody r. subst st st'. revert E.
  unfold _handle_chat_completions.
  destruct (completions_body request) as [message | body].
  { intros ->. left. eexists. cbn. repeat split. right. now left. }
  destruct (truthy (dict_get_default body "stream" JNull)).
  - pose proof (streaming_branch_headers fuel body env (handler_state srv))
      as Hc.
    pose proof (handle_streaming_never_raises
                  (with_send_headers true env) (S fuel) body true 10
                  (new_handler (handler_state srv))) as Hnr.
    destruct (handle_streaming (S fuel) body true 10
                               (with_send_headers true env)
                               (new_handler (handler_state srv)))
      as [o st1].
    cbn [fst snd] in Hc, Hnr. intros ->. right. left. cbn -[Nat.ltb].
    split; [reflexivity |]. split; [exact Hc |]. split; [| exact Hnr].
    assert (Hlt : (header_calls (handler_state srv) <? header_calls st1)%nat
                  = true).
    { apply Nat.ltb_lt. rewrite Hc. lia. }
    destruct o; [reflexivity | |]; rewrite Hlt; apply orb_true_r.
  - destruct (handle_non_streaming_effects (with_send_headers false env) body
                (new_handler (handler_state srv)))
      as (W & _ & (HC & _) & _ & NF).
    destruct (handle_non_streaming body (with_send_headers false env)
                                   (new_handler (handler_state srv)))
      as [[response_data | e |] st1]; cbn [fst snd] in W, HC, NF.
    + unfold send_completion.
      destruct (py_contains_str response_data "error") as [[|] | e].
      * destruct (let? error := py_getitem_str response_data "error" in
                  py_get error "message" (JStr "Unknown error"))%result
          as [message | e].
        -- intros ->. left. eexists. cbn.
           split; [reflexivity |]. split; [now right; right |].
           repeat split; assumption.
        -- intros ->. right. right. exists e. cbn. repeat split; assumption.
      * intros ->. left. eexists. cbn.
        split; [reflexivity |]. split; [now left |].
        repeat split; assumption.
      * intros ->. right. right. exists e. cbn. repeat split; assumption.
    + intros ->. right. right. exists e. cbn. repeat split; assumption.
    + now contradiction NF.
Qed.

(** X18: the same failure of the upstream request is answered in two ways: a
    request for a stream gets the headers of the event stream (status
    200) and then the error in the stream, ended by [data: [DONE]];
    another request gets the reply 502 with the message of the failure. *)
Theorem completions_upstream_failure (fuel : nat) (request : http_request)
        (env : Env) (srv : Srv) (body : dict) (message : string) :
  completions_body request = inr body ->
  upstream env (List.length (requests (handler_state srv)))
           (inject_tools body)
  = UpstreamFails message ->
  let r := _handle_chat_completions (S fuel) request env srv in
  let st := handler_state srv in
  let st' := handler_state (snd r) in
  fst r = Ok tt
  /\ requests st' = requests st ++ [inject_tools body]
  /\ if truthy (dict_get_default body "stream" JNull)
     then replies (snd r) = replies srv
          /\ header_calls st' = S (header_calls st)
          /\ exists usage : json,
              map fst (written st')
              = map fst (written st)
                ++ [Event usage;
                    Event (JObj [("type", JStr "error");
                                 ("message", JStr message)]);
                    DoneLiteral]
     else replies (snd r)
          = replies srv
            ++ [{| status := 502; payload := error_response message;
                   encoded := Compact |}]
          /\ written st' = written st
          /\ header_calls st' = header_calls st.
Proof.
  intros Hbody Hup r st st'.
  assert (E : r = _handle_chat_completions (S fuel) request env srv)
    by reflexivity.
  clearbody r. subst st st'. revert E.
  unfold _handle_chat_completions. rewrite Hbody.
  destruct (truthy (dict_get_default body "stream" JNull)).
  - pose proof (streaming_branch_headers fuel body env (handler_state srv))
      as Hc.
    destruct (upstream_failure_run
                (with_send_headers true env) (handle_streaming fuel) body
                true 10 (new_handler (handler_state srv)) message)
      as (Hok & Hw & Hr & _).
    { cbn [env_max with_send_headers].
      pose proof (override_budget_default (env_max env)) as H.
      now apply Z.ltb_lt in H. }
    { exact Hup. }
    change (handle_streaming_body (handle_streaming fuel) body true 10)
      with (handle_streaming (S fuel) body true 10) in Hok, Hw, Hr.
    destruct (handle_streaming (S fuel) body true 10
                               (with_send_headers true env)
                               (new_handler (handler_state srv)))
      as [o st1].
    cbn [fst snd] in Hc, Hok, Hw, Hr. intros ->. cbn. subst o.
    split; [reflexivity |]. split; [exact Hr |].
    split; [reflexivity |]. split; [exact Hc |].
    eexists. exact Hw.
  - unfold handle_non_streaming.
    unfold bind at 1, request_chat_completions at 1.
    cbn [upstream with_send_headers requests new_handler]. rewrite Hup.
    intros ->. cbn. repeat split.
Qed.

End CompletionsRoute.

(** ** Reading the body of a request *)

Lemma take_app (a b : string) : take (String.length a) (a +++ b) = a.
Proof. induction a as [| c a IH]; simpl; [now destruct b | now rewrite IH]. Qed.

Lemma take_all (a : string) : take (String.length a) a = a.
Proof. induction a as [| c a IH]; simpl; [reflexivity | now rewrite IH]. Qed.

(** X19: [_read_json] reads no more than the [Content-Length] header counts:
    what follows on the connection changes nothing. With a length that
    is not positive, or with nothing to read, the body is the empty
    object. *)
Theorem read_json_body_bounds {text : PyText} (path : string)
        (header : option string) (n : Z) :
  py_int (content_length_text
            {| request_path := path; content_length := header; rfile := "" |})
  = Some n ->
  (forall body rest : string,
      (0 < n)%Z -> String.length body = Z.to_nat n ->
      _read_json {| request_path := path; content_length := header;
                    rfile := body +++ rest |}
      = _read_json {| request_path := path; content_length := header;
                      rfile := body |})
  /\ (json_loads_utf8 "{}" = Some (JObj []) ->
      forall bytes : string,
        (n <= 0)%Z \/ bytes = "" ->
        _read_json {| request_path := path; content_length := header;
                      rfile := bytes |}
        = inr (JObj [])).
Proof.
  intros Hint. split.
  - intros body rest Hpos Hlen. unfold _read_json.
    change (content_length_text _)
      with (content_length_text
              {| request_path := path; content_length := header;
                 rfile := "" |}).
    rewrite Hint. destruct (Z.ltb_spec 0 n); [| lia].
    cbn [rfile]. rewrite <- Hlen. now rewrite take_app, take_all.
  - intros Hloads bytes Hcase. unfold _read_json.
    change (content_length_text _)
      with (content_length_text
              {| request_path := path; content_length := header;
                 rfile := "" |}).
    rewrite Hint. cbn [rfile].
    destruct (Z.ltb_spec 0 n) as [Hpos | Hle].
    + destruct Hcase as [Hle | ->]; [lia |].
      now destruct (Z.to_nat n).
    + cbn. now rewrite Hloads.
Qed.

(** ** Updating a message *)

Lemma placeholders_app (a b : string) :
  placeholders (a +++ b) = (placeholders a + placeholders b)%nat.
Proof. induction a as [| c a IH]; simpl; [reflexivity | rewrite IH; lia]. Qed.

Lemma update_fields_known (items : list (string * json)) :
  Forall (fun f => In f known_assignments) (fst (update_fields items))
  /\ List.length (snd (update_fields items))
     = List.length (fst (update_fields items)).
Proof.
  induction items as [| [k v] rest (IHf & IHl)]; [now split |].
  cbn [update_fields].
  destruct (update_fields rest) as [fields values]. cbn [fst snd] in *.
  destruct (String.eqb k "rawContent") eqn:Hraw.
  - cbn. split; [constructor; [| exact IHf] | now rewrite IHl].
    cbn. auto.
  - destruct (String.eqb_spec k "content") as [-> | _].
    + cbn. split; [constructor; [| exact IHf] | now rewrite IHl].
      cbn. auto.
    + destruct (String.eqb_spec k "raw_content") as [-> | _].
      * cbn. split; [constructor; [| exact IHf] | now rewrite IHl].
        cbn. auto.
      * cbn [orb fst snd].
        destruct (String.eqb k "done").
        -- cbn. split; [constructor; [| exact IHf] | now rewrite IHl].
           cbn. auto.
        -- destruct (String.eqb k "thinking").
           ++ cbn. split; [constructor; [| exact IHf] | now rewrite IHl].
              cbn. auto.
           ++ now split.
Qed.

Lemma placeholders_concat (fields : list string) :
  Forall (fun f => In f known_assignments) fields ->
  placeholders (String.concat ", " fields) = List.length fields.
Proof.
  assert (Hone : forall f, In f known_assignments -> placeholders f = 1%nat).
  { intros f [<- | [<- | [<- | [<- | []]]]]; reflexivity. }
  induction 1 as [| f fields Hf Hall IH]; [reflexivity |].
  cbn [String.concat]. destruct fields as [| g fields].
  - cbn. now apply Hone.
  - rewrite !placeholders_app, IH, (Hone f Hf). reflexivity.
Qed.

(** X22: the text of the statement is put together from four fixed
    assignments only: no key and no value of the update gets into it,
    and it has as many placeholders as there are parameters. With no
    field it knows in the update, [update_message] executes nothing and
    returns [False]. *)
Theorem update_message_statement (msg_id : Z) (updates : dict) :
  match update_message msg_id updates with
  | (Some stmt, returned) =>
      returned = true
      /\ (exists fields : list string,
             fields <> []
             /\ Forall (fun f => In f known_assignments) fields
             /\ sql stmt = "UPDATE messages SET " +++ String.concat ", " fields
                             +++ " WHERE id = ?")
      /\ placeholders (sql stmt) = List.length (parameters stmt)
  | (None, returned) =>
      returned = false /\ fst (update_fields updates) = []
  end.
Proof.
  unfold update_message.
  destruct (update_fields_known updates) as (Hknown & Hlen).
  destruct (update_fields updates) as [fields values]. cbn [fst snd] in *.
  destruct fields as [| f fields]; [now split |].
  split; [reflexivity |]. split.
  - exists (f :: fields). split; [discriminate |]. now split.
  - cbn [sql parameters].
    rewrite !placeholders_app, (placeholders_concat _ Hknown).
    rewrite length_app, Hlen. cbn. lia.
Qed.

(** ** Matching and ranking paths *)

Lemma startswith_iff (s p : string) :
  startswith s p = true <-> exists r : string, s = p +++ r.
Proof.
  unfold startswith. revert s. induction p as [| c p IH]; intros s.
  - split; [intros _; now exists s | intros _; now destruct s].
  - destruct s as [| d s]; simpl.
    + split; [discriminate | intros (r & H); discriminate].
    + destruct (ascii_dec c d) as [E | Hne].
      * subst d. rewrite IH.
        split; intros (r & H); exists r; [now subst | now injection H].
      * split; [discriminate |]. intros (r & H). injection H as H _.
        congruence.
Qed.

Lemma contains_iff (h n : string) :
  contains h n = true <-> exists a b : string, h = a +++ n +++ b.
Proof.
  split.
  - induction h as [| c h IH]; cbn [contains]; intros H;
      apply orb_true_iff in H as [H | H]; try discriminate.
    + apply (startswith_iff "" n) in H as (r & H). now exists "", r.
    + apply (startswith_iff (String c h) n) in H as (r & H). now exists "", r.
    + destruct (IH H) as (a & b & ->). now exists (String c a), b.
  - intros (a & b & ->). induction a as [| c a IH].
    + assert (H : startswith (n +++ b) n = true)
        by (apply startswith_iff; now exists b).
      simpl. destruct (n +++ b); cbn [contains]; unfold startswith in H;
        now rewrite H.
    + cbn [append contains]. fold (append a (n +++ b)). rewrite IH.
      apply orb_true_r.
Qed.

Lemma contains_trans (a b c : string) :
  contains a b = true -> contains b c = true -> contains a c = true.
Proof.
  rewrite !contains_iff. intros (x & y & ->) (u & v & ->).
  exists (x +++ u), (v +++ y). now rewrite !append_assoc.
Qed.

(** X26: what matches in a part of a text matches in the whole text: needles
    all found in a part of a path, such as its base name, are all found
    in the path. *)
Theorem contains_all_monotone (part whole : string) (needles : list string) :
  contains whole part = true ->
  _contains_all part needles = true ->
  _contains_all whole needles = true.
Proof.
  intros Hpart. unfold _contains_all. rewrite !forallb_forall.
  intros H n Hn. specialize (H n Hn).
  apply orb_true_iff in H as [H | H]; [now rewrite H |].
  rewrite (contains_trans _ _ _ Hpart H). apply orb_true_r.
Qed.

Lemma rstrip_char_app_law (ch : ascii) (x y : string) :
  rstrip_char ch (x +++ y)
  = if String.eqb (rstrip_char ch y) "" then rstrip_char ch x
    else x +++ rstrip_char ch y.
Proof.
  induction x as [| c x IH]; simpl.
  - now destruct (String.eqb_spec (rstrip_char ch y) "") as [-> | _].
  - rewrite IH. destruct (String.eqb_spec (rstrip_char ch y) "") as [E | E].
    + reflexivity.
    + destruct (x +++ rstrip_char ch y) eqn:Happ.
      * destruct x; [simpl in Happ; contradiction | discriminate].
      * now rewrite andb_false_r.
Qed.

Lemma rstrip_char_idem (ch : ascii) (s : string) :
  rstrip_char ch (rstrip_char ch s) = rstrip_char ch s.
Proof.
  induction s as [| c s IH]; simpl; [reflexivity |].
  destruct (Ascii.eqb c ch && String.eqb (rstrip_char ch s) "") eqn:E;
    [reflexivity |].
  simpl. now rewrite IH, E.
Qed.

Lemma prefix_match_iff (path prefix : string) :
  _prefix_match path prefix = true
  <-> rstrip_char "/" prefix <> ""
      /\ (path = rstrip_char "/" prefix
          \/ exists r, path = rstrip_char "/" prefix +++ "/" +++ r).
Proof.
  unfold _prefix_match.
  destruct (String.eqb_spec (rstrip_char "/" prefix) "") as [E | E].
  - split; [discriminate | now intros (H & _)].
  - destruct (String.eqb_spec path (rstrip_char "/" prefix)) as [-> | Hne].
    + split; [intros _; split; [exact E | now left] | reflexivity].
    + rewrite startswith_iff. split.
      * intros (r & ->). split; [exact E |]. right. exists r.
        now rewrite append_assoc.
      * intros (_ & [-> | (r & ->)]); [contradiction |].
        exists r. now rewrite append_assoc.
Qed.

(** X23: the prefixes are directory prefixes, and being under a directory is
    transitive: what is under [b] is under what [b] is under. *)
Theorem prefix_match_transitive (a b c : string) :
  _prefix_match b a = true -> _prefix_match c b = true ->
  _prefix_match c a = true.
Proof.
  rewrite !prefix_match_iff. intros (Ha & Hb) (Hb' & Hc).
  split; [exact Ha |].
  set (pa := rstrip_char "/" a) in *.
  assert (Hpb : rstrip_char "/" b = pa
                \/ exists r, rstrip_char "/" b = pa +++ "/" +++ r).
  { destruct Hb as [-> | (r & ->)].
    - left. apply rstrip_char_idem.
    - rewrite rstrip_char_app_law.
      destruct (String.eqb_spec (rstrip_char "/" ("/" +++ r)) "") as [E | E].
      + left. apply rstrip_char_idem.
      + right. cbn [append rstrip_char] in *. cbn [Ascii.eqb Bool.eqb andb] in *.
        destruct (String.eqb (rstrip_char "/" r) ""); [contradiction |].
        now exists (rstrip_char "/" r). }
  destruct Hpb as [Hpb | (r & Hpb)]; rewrite Hpb in Hc; [exact Hc |].
  right.
  destruct Hc as [-> | (r' & ->)].
  - now exists r.
  - exists (r +++ "/" +++ r'). now rewrite !append_assoc.
Qed.

(** X24: a prefix made of slashes only, the root [/] among them, matches no
    path at all, and slashes at the end of a prefix change nothing. *)
Theorem prefix_match_slashes (path prefix : string) :
  _prefix_match path "/" = false
  /\ _prefix_match path "" = false
  /\ _prefix_match path (prefix +++ "/") = _prefix_match path prefix.
Proof.
  split; [reflexivity |]. split; [reflexivity |].
  unfold _prefix_match. now rewrite rstrip_char_snoc.
Qed.

Lemma split_on_nonempty (sep : ascii) (s : string) : split_on sep s <> [].
Proof.
  destruct s as [| c s]; simpl; [discriminate |].
  destruct (Ascii.eqb c sep); [discriminate |].
  destruct (split_on sep s); discriminate.
Qed.

Lemma no_sep_all (sep : ascii) (t : string) :
  contains t (String sep EmptyString) = false ->
  all_chars (other_than sep) t = true.
Proof.
  induction t as [| c t IH]; [reflexivity |].
  cbn [contains String.prefix all_chars]. unfold other_than at 1.
  destruct (ascii_dec sep c) as [<- | Hne].
  - destruct t; discriminate.
  - cbn [orb]. intros H. rewrite (IH H).
    destruct (Ascii.eqb_spec c sep); [congruence | reflexivity].
Qed.

Section Segments.

Variable sep : ascii.

Lemma prefix_first_segment (s : string) :
  forall t : string,
    all_chars (other_than sep) t = true ->
    String.prefix t s = String.prefix t (hd "" (split_on sep s)).
Proof.
  induction s as [| c rest IH]; intros t Ht; [reflexivity |].
  destruct t as [| a t].
  - cbn [String.prefix]. now destruct (hd "" (split_on sep (String c rest))).
  - cbn [all_chars] in Ht. apply andb_true_iff in Ht as (Ha & Ht).
    unfold other_than in Ha. apply negb_true_iff in Ha.
    cbn [split_on]. destruct (Ascii.eqb_spec c sep) as [-> | Hc].
    + cbn [hd String.prefix].
      destruct (ascii_dec a sep) as [-> | _]; [| reflexivity].
      now rewrite Ascii.eqb_refl in Ha.
    + pose proof (split_on_nonempty sep rest) as Hne.
      specialize (IH t Ht).
      destruct (split_on sep rest) as [| first others]; [contradiction |].
      cbn [hd String.prefix] in *.
      destruct (ascii_dec a c); [exact IH | reflexivity].
Qed.

Lemma contains_segments (t : string) :
  t <> "" -> all_chars (other_than sep) t = true ->
  forall s : string,
    contains s t = existsb (fun seg => contains seg t) (split_on sep s).
Proof.
  intros Hne Ht.
  assert (Hempty : contains "" t = false)
    by (destruct t; [contradiction | reflexivity]).
  induction s as [| c rest IH].
  - cbn [split_on existsb]. now rewrite orb_false_r.
  - pose proof (prefix_first_segment (String c rest) t Ht) as Hp.
    cbn [contains]. rewrite IH. cbn [split_on] in *.
    destruct (Ascii.eqb c sep).
    + cbn [hd existsb] in *. rewrite Hempty, Hp.
      destruct t; [contradiction | reflexivity].
    + pose proof (split_on_nonempty sep rest) as Hsplit.
      destruct (split_on sep rest) as [| first others]; [contradiction |].
      cbn [hd existsb contains] in *. rewrite Hp. now rewrite orb_assoc.
Qed.

End Segments.

Lemma existsb_filter_nonempty (f : string -> bool) (l : list string) :
  f "" = false ->
  existsb f (filter (fun s => negb (String.eqb s "")) l) = existsb f l.
Proof.
  intros Hf. induction l as [| x l IH]; [reflexivity |].
  cbn [filter existsb]. destruct (String.eqb_spec x "") as [-> | _]; cbn.
  - now rewrite Hf.
  - now rewrite IH.
Qed.

(** X25: for a token with no slash in it that does not start with a dot, the
    match by path segments is the plain search of the token in the
    path. *)
Theorem fuzzy_match_is_substring (path token : string) :
  token <> "" -> startswith token "." = false ->
  contains token "/" = false ->
  _fuzzy_match path token = contains path token.
Proof.
  intros Hne Hdot Hslash. unfold _fuzzy_match, segments.
  destruct (String.eqb_spec token ""); [contradiction |].
  rewrite Hdot, existsb_filter_nonempty.
  - symmetry. apply contains_segments; [exact Hne |].
    now apply no_sep_all.
  - destruct token; [contradiction | reflexivity].
Qed.

(** ** The score of a path *)

Lemma needle_score_bounds (lp ln n : string) :
  (0 <= needle_score lp ln n <= 200)%Z.
Proof.
  unfold needle_score.
  destruct (String.eqb n ""); [lia |].
  destruct (String.eqb ln n); [lia |].
  destruct (startswith ln n); [lia |].
  destruct (contains ln n); [lia |].
  destruct (contains lp n); lia.
Qed.

Lemma fold_score_bounds (lp ln : string) (needles : list string) :
  forall acc : Z,
    (acc <= fold_left (fun s n => s + needle_score lp ln n) needles acc
     <= acc + 200 * Z.of_nat (List.length needles))%Z.
Proof.
  induction needles as [| n needles IH]; intros acc.
  - cbn [fold_left List.length]. lia.
  - cbn [fold_left List.length].
    pose proof (needle_score_bounds lp ln n).
    specialize (IH (acc + needle_score lp ln n)%Z). lia.
Qed.

(** X27: a score lies between -30 and 200 for each needle: the length of the
    path costs at most 30, and no needle counts against a path. Needles
    that are empty add nothing. *)
Theorem score_bounds (lower : string -> string) (path name : string)
        (needles : list string) :
  (-30 <= _score lower path name needles
   <= 200 * Z.of_nat (List.length needles))%Z
  /\ _score lower path name (needles ++ [""]) = _score lower path name needles.
Proof.
  unfold _score. split.
  - pose proof (fold_score_bounds (lower path) (lower name) needles 0).
    assert (0 <= Z.of_nat (String.length path) / 20)%Z
      by (apply Z.div_pos; lia).
    lia.
  - rewrite fold_left_app. cbn [fold_left].
    change (needle_score (lower path) (lower name) "") with 0%Z.
    now rewrite Z.add_0_r.
Qed.

(** * The further properties on sample inputs *)

Lemma inject_tools_keeps_caller_tools_witness :
  truthy (dict_get_default (inject_tools sample_body) "tools" JNull) = true
  /\ inject_tools (inject_tools sample_body) = inject_tools sample_body
  /\ dict_get (inject_tools sample_body) "messages"
     = dict_get sample_body "messages".
Proof.
  destruct (inject_tools_keeps_caller_tools sample_body)
    as (H1 & H2 & _ & H4).
  split; [exact H1 |]. split; [exact H2 |].
  apply H4; discriminate.
Defined.

Lemma non_streaming_without_tool_calls_witness :
  let r := handle_non_streaming (lib := sample_lib) sample_body
                                env_plain_answer initial_St in
  fst r = Ok (content_delta "Hello")
  /\ requests (snd r) = requests initial_St ++ [inject_tools sample_body]
  /\ executed (snd r) = executed initial_St
  /\ host_ops (snd r) = host_ops initial_St
  /\ written (snd r) = written initial_St.
Proof.
  apply (non_streaming_without_tool_calls (lib := sample_lib)
           env_plain_answer sample_body initial_St
           [sample_dumps (content_delta "Hello")]
           (content_delta "Hello") (JObj []) (JArr []));
    vm_compute; reflexivity.
Defined.

Lemma budget_exhausted_reported_witness :
  let r := handle_streaming_body (lib := sample_lib) no_continuation
                                 sample_body true 0 env_two_turns
                                 initial_St in
  fst r = Ok tt
  /\ map fst (written (snd r))
     = map fst (written initial_St)
       ++ [ Event (usage_event
                     (JNum (_estimate_tokens
                              (prompt_text_of (lib := sample_lib)
                                              sample_body)))
                     (JNum 0)
                     (JNum (_estimate_tokens
                              (prompt_text_of (lib := sample_lib)
                                              sample_body)))
                     true None);
            Event (JObj [("type", JStr "error");
                         ("message", JStr max_iterations_message)]);
            DoneLiteral ]
  /\ requests (snd r) = requests initial_St
  /\ executed (snd r) = executed initial_St
  /\ headers_kept initial_St (snd r).
Proof.
  apply (budget_exhausted_reported (lib := sample_lib) env_two_turns
           no_continuation sample_body true 0 initial_St).
  vm_compute. discriminate.
Defined.

Lemma upstream_failure_reported_witness :
  let r := handle_streaming_body (lib := sample_lib) no_continuation
                                 sample_body true 10 env_upstream_down
                                 initial_St in
  fst r = Ok tt
  /\ requests (snd r) = requests initial_St ++ [inject_tools sample_body]
  /\ executed (snd r) = executed initial_St.
Proof.
  destruct (upstream_failure_reported (lib := sample_lib) env_upstream_down
              no_continuation sample_body true 10 initial_St
              "Upstream URLError: <urlopen error [Errno 111] Connection refused>"
              eq_refl eq_refl)
    as (H1 & _ & H3 & H4).
  split; [exact H1 |]. split; [exact H3 | exact H4].
Defined.

Lemma upstream_lines_forwarded_in_order_witness :
  exists n : nat,
    forwarded
      (written (snd (handle_streaming_body (lib := sample_lib)
                       no_continuation sample_body true 10 env_two_turns
                       initial_St)))
    = forwarded (written initial_St)
      ++ firstn n (lines_of (upstream env_two_turns
                                      (List.length (requests initial_St))
                                      (inject_tools sample_body))).
Proof.
  apply (upstream_lines_forwarded_in_order (lib := sample_lib) env_two_turns
           no_continuation sample_body true 10 initial_St).
  exact no_continuation_silent.
Defined.

Lemma join_url_one_slash_witness :
  _join_url "https://api.deepseek.com" "chat/completions"
  = "https://api.deepseek.com/chat/completions"
  /\ _join_url "https://api.deepseek.com/" "chat/completions"
     = "https://api.deepseek.com/chat/completions"
  /\ _join_url "https://api.deepseek.com" "/chat/completions"
     = "https://api.deepseek.com/chat/completions"
  /\ _join_url "https://api.deepseek.com/" "/chat/completions"
     = "https://api.deepseek.com/chat/completions".
Proof.
  apply (join_url_one_slash "https://api.deepseek.com" "chat/completions");
    [reflexivity | discriminate | reflexivity | reflexivity].
Defined.

Lemma join_url_keeps_path_witness :
  endswith (_join_url "   " "chat/completions") "chat/completions" = true
  /\ _join_url "   " "chat/completions" = "chat/completions".
Proof.
  destruct (join_url_keeps_path "   " "chat/completions") as (H1 & H2).
  split; [exact H1 | apply H2; reflexivity].
Defined.

Lemma upstream_client_request_witness :
  chat_completions_url (UpstreamClient_init (fun _ => None))
  = "https://api.openai.com/chat/completions".
Proof.
  destruct (upstream_client_request (fun _ => None) sample_body)
    as (H1 & _).
  apply H1. reflexivity.
Defined.

Lemma set_path_then_get_witness :
  get_path
    (JObj [("appearance", JObj [("theme", JStr "light")]);
           ("bar", JObj [("position", JStr "top")])])
    ["appearance"; "theme"]
  = Some (JStr "light")
  /\ get_path
       (JObj [("appearance", JObj [("theme", JStr "light")]);
              ("bar", JObj [("position", JStr "top")])])
       ["bar"; "position"]
     = get_path sample_config ["bar"; "position"].
Proof.
  destruct (set_path_then_get
              sample_config (JStr "light")
              (JObj [("appearance", JObj [("theme", JStr "light")]);
                     ("bar", JObj [("position", JStr "top")])])
              ["appearance"; "theme"] eq_refl) as (H1 & H2).
  split; [exact H1 |].
  apply (H2 [] ["theme"] ["position"] "appearance" "bar");
    [reflexivity | discriminate].
Defined.

Lemma write_shell_config_top_level_witness :
  snd (write_shell_config (lib := sample_lib)
         (Holds sample_config) (JStr "language") (JStr "en"))
  = Holds (JObj [("appearance", JObj [("theme", JStr "dark")]);
                 ("bar", JObj [("position", JStr "top")]);
                 ("language", JStr "en")]).
Proof.
  apply (write_shell_config_top_level (lib := sample_lib)
           [("appearance", JObj [("theme", JStr "dark")]);
            ("bar", JObj [("position", JStr "top")])]
           "language" (JStr "en")).
  reflexivity.
Defined.

Lemma parse_path_resource_is_word_witness :
  ("chats" = "" /\ Some 12%Z = None)
  \/ ("chats" = "chat/completions" /\ Some 12%Z = None)
  \/ ("chats" <> "" /\ all_chars is_word "chats" = true).
Proof.
  apply (parse_path_resource_is_word (text := sample_text)
           "/v1/chats/12/" "chats" (Some 12%Z)).
  reflexivity.
Defined.

Lemma parse_path_round_trip_witness :
  _parse_path (text := sample_text) "/v1/messages/42"
  = inr ("messages", Some 42%Z)
  /\ _parse_path (text := sample_text) "/v1/messages"
     = inr ("messages", None)
  /\ (forall path : string,
         _parse_path (text := sample_text) (path +++ "/")
         = _parse_path (text := sample_text) path).
Proof.
  apply (parse_path_round_trip (text := sample_text) "messages" "42" 42);
    first [discriminate | reflexivity].
Defined.

Lemma read_json_body_bounds_witness :
  _read_json (text := sample_text)
             {| request_path := "/v1/tools"; content_length := Some "2";
                rfile := "{}" +++ "POST /v1/tools HTTP/1.1" |}
  = _read_json (text := sample_text)
               {| request_path := "/v1/tools"; content_length := Some "2";
                  rfile := "{}" |}.
Proof.
  destruct (read_json_body_bounds (text := sample_text) "/v1/tools"
              (Some "2") 2 eq_refl) as (H1 & _).
  apply H1; [reflexivity | reflexivity].
Defined.

Lemma completions_upstream_failure_witness :
  let r := _handle_chat_completions (lib := sample_lib) (text := sample_text)
             1 empty_object_request env_upstream_down new_connection in
  fst r = Ok tt
  /\ replies (snd r)
     = [{| status := 502;
           payload :=
             error_response
               "Upstream URLError: <urlopen error [Errno 111] Connection refused>";
           encoded := Compact |}].
Proof.
  destruct (completions_upstream_failure
              (lib := sample_lib) (text := sample_text) 0
              empty_object_request env_upstream_down new_connection []
              "Upstream URLError: <urlopen error [Errno 111] Connection refused>"
              eq_refl eq_refl) as (H1 & _ & H3 & _).
  split; [exact H1 | exact H3].
Defined.

Lemma contains_all_monotone_witness :
  _contains_all "/home/u/projects/build.gradle" ["build"; "gradle"] = true.
Proof.
  apply (contains_all_monotone "build.gradle" "/home/u/projects/build.gradle"
           ["build"; "gradle"]); reflexivity.
Defined.

Lemma prefix_match_transitive_witness :
  _prefix_match "/home/u/.gradle/caches/x.jar" "/home/u/" = true.
Proof.
  apply (prefix_match_transitive "/home/u/" "/home/u/.gradle/"
           "/home/u/.gradle/caches/x.jar"); reflexivity.
Defined.

Lemma fuzzy_match_is_substring_witness :
  _fuzzy_match "/home/u/projects/build.gradle" "gradle"
  = contains "/home/u/projects/build.gradle" "gradle".
Proof.
  apply (fuzzy_match_is_substring "/home/u/projects/build.gradle" "gradle");
    [discriminate | reflexivity | reflexivity].
Defined.

Lemma tool_calls_answered_in_order_witness :
  let l := set_tool_call_buffer tool_buffer initial_locals in
  let body := inject_tools sample_body in
  let run := run_tool_calls (lib := sample_lib) "19a49ef2240" 9 tool_buffer l
                            [] env_two_turns initial_St in
  let l' := match fst run with
            | Ok (l', _) => l'
            | _ => l
            end in
  exists (tool_msgs : list json) (st2 : St),
    continue_with_tools (lib := sample_lib) no_continuation body 10
                        "19a49ef2240" 9 l env_two_turns initial_St
    = try_except
        (no_continuation
           (dict_set body "messages"
                     (JArr ([JObj [("role", JStr "user");
                                   ("content", JStr "hi")]]
                            ++ assistant_message l' :: tool_msgs)))
           false (10 - 1)%Z)
        (followup_failed "19a49ef2240") env_two_turns st2
    /\ map tool_call_id_of tool_msgs = [JStr "call_0"].
Proof.
  intros l body run l'.
  destruct (tool_calls_answered_in_order
              (lib := sample_lib) env_two_turns no_continuation body 10
              "19a49ef2240" 9 l l'
              (match fst run with
               | Ok (_, results) => results
               | _ => []
               end)
              [JObj [("role", JStr "user"); ("content", JStr "hi")]]
              initial_St (snd run))
    as (tool_msgs & st2 & H1 & _ & H3 & _).
  - vm_compute. reflexivity.
  - vm_compute. reflexivity.
  - exists tool_msgs, st2. split; [exact H1 | exact H3].
Defined.
